(** * The user-auth service (services/user-auth-service/main.go)

    A shallow embedding of the authentication service: the account store,
    the handlers [register], [login], [refreshToken], [getProfile],
    [updateProfile], the token issuer [generateTokens] and the request gate
    [authMiddleware], together with the control flow of the libraries the
    handlers call into (golang-jwt/jwt v5 [Parse], gin binding, the mongo
    driver's collection operations).

    Byte-level primitives of those libraries (base64url, JSON text, HMAC,
    bcrypt, the e-mail pattern of the validator) are not re-implemented: they
    are the fields of the record [Libs], and every definition below is
    parametric in it. *)

From Stdlib Require Import ZArith Lia Ascii String.
From stdpp Require Import gmap strings list fin_maps countable.

Local Open Scope Z_scope.
Local Open Scope string_scope.

(** ** Values *)

(** What encoding/json produces when it decodes into [interface{}]: [nil],
    [bool], [float64] (restricted here to integral values, which is what the
    issuer writes), [string]; arrays and objects are kept as raw text. *)
Inductive JValue :=
| JNull
| JBool (b : bool)
| JNum (n : Z)
| JStr (s : string)
| JComposite (raw : string).

#[global] Instance JValue_eq_dec : EqDecision JValue.
Proof. solve_decision. Defined.

Definition JValue_to_sum (v : JValue) : unit + (bool + (Z + (string + string))) :=
  match v with
  | JNull => inl tt
  | JBool b => inr (inl b)
  | JNum n => inr (inr (inl n))
  | JStr s => inr (inr (inr (inl s)))
  | JComposite r => inr (inr (inr (inr r)))
  end.

Definition JValue_of_sum (x : unit + (bool + (Z + (string + string)))) : JValue :=
  match x with
  | inl _ => JNull
  | inr (inl b) => JBool b
  | inr (inr (inl n)) => JNum n
  | inr (inr (inr (inl s))) => JStr s
  | inr (inr (inr (inr r))) => JComposite r
  end.

#[global] Instance JValue_countable : Countable JValue.
Proof.
  refine (inj_countable' JValue_to_sum JValue_of_sum _).
  intros []; reflexivity.
Defined.

(** [map[string]interface{}]: [jwt.MapClaims], the token header, [gin.H] and
    the per-request keys of [gin.Context]. *)
Abbreviation JMap := (gmap string JValue).

(** Indexing a Go map of interfaces: a missing key reads as [nil]. *)
Definition index (m : JMap) (k : string) : JValue := default JNull (m !! k).

(** [time.Time] as nanoseconds since the Unix epoch. *)
Definition Time := Z.
Definition Second : Z := 1000000000.
Definition Minute : Z := 60 * Second.
Definition Hour : Z := 60 * Minute.

(** [t.Unix()] and [time.Unix(sec, 0)]. *)
Definition Unix (t : Time) : Z := t / Second.
Definition time_Unix (sec : Z) : Time := sec * Second.
(** [t.Add(d)] and [t.Before(u)]. *)
Definition Add (t : Time) (d : Z) : Time := t + d.
Definition Before (t u : Time) : bool := Z.ltb t u.

(** ** Strings as Go has them: byte sequences *)

(** [s[n:]]: [None] stands for the run-time panic "slice bounds out of
    range" that Go raises when [n > len(s)]. *)
Fixpoint slice_from (n : nat) (s : string) : option string :=
  match n, s with
  | O, _ => Some s
  | S _, EmptyString => None
  | S n', String _ r => slice_from n' r
  end.

(** [strings.Split(s, ".")]. *)
Fixpoint split_dot (s : string) : list string :=
  match s with
  | EmptyString => [EmptyString]
  | String c r =>
      if Ascii.eqb c "."%char then EmptyString :: split_dot r
      else match split_dot r with
           | [] => [String c EmptyString]
           | h :: t => String c h :: t
           end
  end.

Fixpoint has_dot (s : string) : bool :=
  match s with
  | EmptyString => false
  | String c r => Ascii.eqb c "."%char || has_dot r
  end.

(** ** The third-party primitives *)

Inductive Hash := SHA256 | SHA384 | SHA512.

#[global] Instance Hash_eq_dec : EqDecision Hash.
Proof. solve_decision. Defined.

(** What [c.ShouldBindJSON] can report. *)
Inductive BindError :=
| MalformedJSON
| FieldErrors (failed : list (string * string)).

Record Libs := {
  (** unicode/utf8 *)
  RuneCountInString : string -> nat;
  (** go-playground/validator: the [email] tag *)
  isEmail : string -> bool;
  (** the text of a binding error, [err.Error()] *)
  bindErrorText : BindError -> string;
  (** x/crypto/bcrypt: [GenerateFromPassword] with the salt it draws made
      explicit ([None] is a returned error), and [CompareHashAndPassword]
      ([true] is a [nil] error) *)
  GenerateFromPassword : string -> string -> option string;
  CompareHashAndPassword : string -> string -> bool;
  (** crypto/hmac: [hmac.New(h, key)], [Write(msg)], [Sum(nil)] *)
  hmacSum : Hash -> string -> string -> string;
  (** encoding/base64 RawURLEncoding, as jwt's EncodeSegment/DecodeSegment *)
  EncodeSegment : string -> string;
  DecodeSegment : string -> option string;
  (** encoding/json on [map[string]interface{}] *)
  json_Marshal : JMap -> string;
  json_Unmarshal : string -> option JMap;
  (** [time.Time.MarshalJSON] (RFC 3339) *)
  time_MarshalJSON : Time -> string;
  (** [primitive.ObjectID.Hex], on the twelve bytes of the identifier *)
  Hex : string -> string
}.

(** ** golang-jwt/jwt v5: the parts [main.go] calls *)

Module jwt.

(** The signing methods the library registers in its [init] functions. *)
Inductive SigningMethod :=
| SigningMethodHMAC (h : Hash)
| SigningMethodRSA (h : Hash)
| SigningMethodRSAPSS (h : Hash)
| SigningMethodECDSA (h : Hash)
| SigningMethodEd25519
| SigningMethodNone.

Definition SigningMethodHS256 : SigningMethod := SigningMethodHMAC SHA256.

Definition bits (h : Hash) : string :=
  match h with SHA256 => "256" | SHA384 => "384" | SHA512 => "512" end.

(** [m.Alg()]. *)
Definition Alg (m : SigningMethod) : string :=
  match m with
  | SigningMethodHMAC h => "HS" +:+ bits h
  | SigningMethodRSA h => "RS" +:+ bits h
  | SigningMethodRSAPSS h => "PS" +:+ bits h
  | SigningMethodECDSA h => "ES" +:+ bits h
  | SigningMethodEd25519 => "EdDSA"
  | SigningMethodNone => "none"
  end.

Definition registered : list SigningMethod :=
  [ SigningMethodHMAC SHA256; SigningMethodHMAC SHA384; SigningMethodHMAC SHA512;
    SigningMethodRSA SHA256; SigningMethodRSA SHA384; SigningMethodRSA SHA512;
    SigningMethodRSAPSS SHA256; SigningMethodRSAPSS SHA384; SigningMethodRSAPSS SHA512;
    SigningMethodECDSA SHA256; SigningMethodECDSA SHA384; SigningMethodECDSA SHA512;
    SigningMethodEd25519; SigningMethodNone ].

(** [GetSigningMethod(alg)]: [None] is the [nil] method. *)
Definition GetSigningMethod (alg : string) : option SigningMethod :=
  List.find (fun m => String.eqb (Alg m) alg) registered.

Inductive VerifyError :=
| ErrSignatureInvalid
| ErrInvalidKeyType
| NoneSignatureTypeDisallowedError.

Inductive ClaimError :=
| ErrTokenExpired
| ErrTokenNotValidYet
| ErrInvalidType (key : string).

Inductive ParseError :=
| ErrTokenMalformed (why : string)
| ErrTokenUnverifiable (why : string)
| ErrTokenSignatureInvalid (cause : VerifyError)
| ErrTokenInvalidClaims (errs : list ClaimError).

(** [*jwt.Token] as [Parse] returns it with a [nil] error ([Valid] is then
    [true]). *)
Record Token := {
  Raw : string;
  Method : SigningMethod;
  Header : JMap;
  Claims : JMap;
  Signature : string
}.

Section WithLibs.
Variable lib : Libs.

(** [Verify(signingString, sig, key)] where [key] is a [[]byte], the only
    kind of key the key function of [main.go] returns: the HMAC methods
    recompute the MAC; the asymmetric methods refuse a byte-slice key; the
    "none" method refuses every key but the library's own marker value. *)
Definition Verify (m : SigningMethod) (signingString sig key : string)
  : option VerifyError :=
  match m with
  | SigningMethodHMAC h =>
      if String.eqb sig (hmacSum lib h key signingString) then None
      else Some ErrSignatureInvalid
  | SigningMethodNone => Some NoneSignatureTypeDisallowedError
  | _ => Some ErrInvalidKeyType
  end.

(** [Sign(signingString, key)] of the HMAC methods with a [[]byte] key. *)
Definition SignHMAC (h : Hash) (signingString key : string) : string :=
  hmacSum lib h key signingString.

(** [MapClaims.parseNumericDate(key)]: [inr None] when the claim is absent
    or is the number 0, [inl] when it is present and not a number. *)
Definition parseNumericDate (m : JMap) (key : string)
  : ClaimError + option Time :=
  match m !! key with
  | None => inr None
  | Some (JNum n) => if Z.eqb n 0 then inr None else inr (Some (time_Unix n))
  | Some _ => inl (ErrInvalidType key)
  end.

(** [Validator.verifyExpiresAt(claims, now, false)]. *)
Definition verifyExpiresAt (claims : JMap) (cmp : Time) : option ClaimError :=
  match parseNumericDate claims "exp" with
  | inl e => Some e
  | inr None => None
  | inr (Some exp) => if Before cmp exp then None else Some ErrTokenExpired
  end.

(** [Validator.verifyNotBefore(claims, now, false)]. *)
Definition verifyNotBefore (claims : JMap) (cmp : Time) : option ClaimError :=
  match parseNumericDate claims "nbf" with
  | inl e => Some e
  | inr None => None
  | inr (Some nbf) => if Before cmp nbf then Some ErrTokenNotValidYet else None
  end.

(** [Validator.Validate(claims)] of the default validator (no leeway, no
    issued-at check, no expected audience, issuer or subject): the list of
    the errors it joins. *)
Definition Validate (claims : JMap) (now : Time) : list ClaimError :=
  option_list (verifyExpiresAt claims now) ++ option_list (verifyNotBefore claims now).

(** [Parser.ParseUnverified]: the three segments, the header, the claims and
    the method the header names. *)
Definition ParseUnverified (tokenString : string)
  : ParseError + (list string * JMap * JMap * SigningMethod) :=
  match split_dot tokenString with
  | [p0; p1; p2] =>
      match DecodeSegment lib p0 with
      | None => inl (ErrTokenMalformed "could not base64 decode header")
      | Some headerBytes =>
      match json_Unmarshal lib headerBytes with
      | None => inl (ErrTokenMalformed "could not JSON decode header")
      | Some header =>
      match DecodeSegment lib p1 with
      | None => inl (ErrTokenMalformed "could not base64 decode claim")
      | Some claimBytes =>
      match json_Unmarshal lib claimBytes with
      | None => inl (ErrTokenMalformed "could not JSON decode claim")
      | Some claims =>
      match index header "alg" with
      | JStr method =>
          match GetSigningMethod method with
          | None => inl (ErrTokenUnverifiable "signing method (alg) is unavailable")
          | Some m => inr ([p0; p1; p2], header, claims, m)
          end
      | _ => inl (ErrTokenUnverifiable "signing method (alg) is unspecified")
      end end end end end
  | _ => inl (ErrTokenMalformed "token contains an invalid number of segments")
  end.

(** [jwt.Parse(tokenString, keyFunc)] with no parser option, for a key
    function that returns the byte slice [key] whatever the token is, read
    at the instant [now]. No list of valid methods is configured, so the
    method is the one the header names. *)
Definition Parse (tokenString key : string) (now : Time) : ParseError + Token :=
  match ParseUnverified tokenString with
  | inl e => inl e
  | inr (parts, header, claims, m) =>
      match DecodeSegment lib (List.nth 2 parts EmptyString) with
      | None => inl (ErrTokenMalformed "could not base64 decode signature")
      | Some sig =>
          let text := List.nth 0 parts EmptyString +:+ "." +:+ List.nth 1 parts EmptyString in
          match Verify m text sig key with
          | Some e => inl (ErrTokenSignatureInvalid e)
          | None =>
              match Validate claims now with
              | [] => inr {| Raw := tokenString; Method := m; Header := header;
                             Claims := claims; Signature := sig |}
              | errs => inl (ErrTokenInvalidClaims errs)
              end
          end
      end
  end.

(** [NewWithClaims(method, claims)] followed by [SignedString(key)] for an
    HMAC method: the header is [{"typ":"JWT","alg":...}]. *)
Definition NewHeader (m : SigningMethod) : JMap :=
  <["typ" := JStr "JWT"]> (<["alg" := JStr (Alg m)]> ∅).

Definition SigningString (header claims : JMap) : string :=
  EncodeSegment lib (json_Marshal lib header) +:+ "." +:+
  EncodeSegment lib (json_Marshal lib claims).

Definition SignedString (h : Hash) (claims : JMap) (key : string) : string :=
  let sstr := SigningString (NewHeader (SigningMethodHMAC h)) claims in
  sstr +:+ "." +:+ EncodeSegment lib (SignHMAC h sstr key).

End WithLibs.
End jwt.

(** ** The users collection (mongo driver and server) *)

(** The [User] struct. *)
Record User := {
  ID : string;
  Email : string;
  Password : string;
  Role : string;
  Name : string;
  Active : bool;
  CreatedAt : Time
}.

Module mongo.

(** The [_id] of a stored document: the ObjectID the driver generates when a
    document is inserted without one (twelve bytes), or a BSON string. A
    filter on [_id] matches only a value of the same BSON type. *)
Inductive DocID :=
| ObjectID (bytes : string)
| StringID (s : string).

#[global] Instance DocID_eq_dec : EqDecision DocID.
Proof. solve_decision. Defined.

(** A document of the collection, with the bson keys of [User]. *)
Record Document := {
  _id : DocID;
  email : string;
  password : string;
  role : string;
  name : string;
  active : bool;
  created_at : Time
}.

(** The database handle: the documents in insertion order, whether the
    unique index on [email] exists, and whether the server answers (when it
    does not, every operation returns an error). *)
Record Database := {
  users : list Document;
  email_unique : bool;
  reachable : bool
}.

Definition with_users (d : Database) (l : list Document) : Database :=
  {| users := l; email_unique := email_unique d; reachable := reachable d |}.

Definition emails (d : Database) : list string := List.map email (users d).

(** bson marshalling of a [User]: the tag [_id,omitempty] drops an empty
    [ID], and the driver then adds the ObjectID [oid] it has generated. *)
Definition toDocument (oid : string) (u : User) : Document :=
  {| _id := if String.eqb (ID u) "" then ObjectID oid else StringID (ID u);
     email := Email u; password := Password u; role := Role u;
     name := Name u; active := Active u; created_at := CreatedAt u |}.

(** [SingleResult.Decode(&user)]: the default string codec decodes an
    ObjectID into its hex form. *)
Definition Decode (lib : Libs) (doc : Document) : User :=
  {| ID := match _id doc with ObjectID b => Hex lib b | StringID s => s end;
     Email := email doc; Password := password doc; Role := role doc;
     Name := name doc; Active := active doc; CreatedAt := created_at doc |}.

(** [collection.Indexes().CreateOne] for a unique index on [email]: the
    server refuses to build it over existing duplicates. [None] is an
    error. *)
Definition CreateUniqueEmailIndex (d : Database) : option Database :=
  if reachable d && bool_decide (NoDup (emails d))
  then Some {| users := users d; email_unique := true; reachable := reachable d |}
  else None.

(** [collection.InsertOne(ctx, user)]: [None] is an error (server not
    reachable, or a duplicate key in the [_id] index or in the unique
    [email] index); otherwise the inserted id and the new collection. *)
Definition InsertOne (oid : string) (u : User) (d : Database)
  : option (DocID * Database) :=
  let doc := toDocument oid u in
  if negb (reachable d) then None
  else if existsb (fun x => bool_decide (_id x = _id doc)) (users d) then None
  else if email_unique d && existsb (fun x => String.eqb (email x) (email doc)) (users d)
  then None
  else Some (_id doc, with_users d (users d ++ [doc])).

(** [collection.FindOne(ctx, bson.M{"email": e})]: [None] is an error
    (server not reachable, or no document). *)
Definition FindOneByEmail (e : string) (d : Database) : option Document :=
  if reachable d then List.find (fun x => String.eqb (email x) e) (users d)
  else None.

(** [collection.FindOne(ctx, bson.M{"_id": userID})] for a Go string
    [userID], which is sent as a BSON string. *)
Definition FindOneByID (userID : string) (d : Database) : option Document :=
  if reachable d
  then List.find (fun x => bool_decide (_id x = StringID userID)) (users d)
  else None.

Definition set_name (n : string) (x : Document) : Document :=
  {| _id := _id x; email := email x; password := password x; role := role x;
     name := n; active := active x; created_at := created_at x |}.

Fixpoint update_first (n : string) (userID : string) (l : list Document)
  : nat * list Document :=
  match l with
  | [] => (O, [])
  | x :: r =>
      if bool_decide (_id x = StringID userID) then (1%nat, set_name n x :: r)
      else let (k, r') := update_first n userID r in (k, x :: r')
  end.

(** [collection.UpdateOne(ctx, bson.M{"_id": userID},
    bson.M{"$set": bson.M{"name": n}})]: [None] is an error (server not
    reachable); otherwise the matched count and the new collection. A filter
    that matches nothing is not an error. *)
Definition UpdateOneName (userID n : string) (d : Database)
  : option (nat * Database) :=
  if reachable d
  then let (k, l) := update_first n userID (users d) in Some (k, with_users d l)
  else None.

End mongo.

(** [createIndexes(db)]: a failure is logged and otherwise ignored. *)
Definition createIndexes (d : mongo.Database) : mongo.Database :=
  match mongo.CreateUniqueEmailIndex d with
  | Some d' => d'
  | None => d
  end.

(** ** The process and its clock *)

(** The state the handlers act on: the database, the wall clock, and the
    time that elapses after each reading of the clock. *)
Record World := {
  db : mongo.Database;
  clock : Time;
  ticks : list N
}.

Definition with_db (w : World) (d : mongo.Database) : World :=
  {| db := d; clock := clock w; ticks := ticks w |}.

(** [time.Now()]. *)
Definition time_Now (w : World) : Time * World :=
  (clock w,
   {| db := db w;
      clock := clock w + Z.of_N (List.hd 0%N (ticks w));
      ticks := List.tl (ticks w) |}).

(** ** gin *)

Record Response := {
  status : Z;
  body : list (string * JValue)
}.

Definition StatusOK : Z := 200.
Definition StatusCreated : Z := 201.
Definition StatusBadRequest : Z := 400.
Definition StatusUnauthorized : Z := 401.
Definition StatusNotFound : Z := 404.
Definition StatusConflict : Z := 409.
Definition StatusInternalServerError : Z := 500.

(** [c.JSON(code, gin.H{"error": msg})] and [gin.H{"message": msg}]. *)
Definition error_response (code : Z) (msg : string) : Response :=
  {| status := code; body := [("error", JStr msg)] |}.
Definition message_response (code : Z) (msg : string) : Response :=
  {| status := code; body := [("message", JStr msg)] |}.

(** How a handler ends: it has written a response, or a run-time panic
    unwound it. *)
Inductive Outcome :=
| Reply (r : Response)
| Panicked (msg : string).

(** How a middleware ends: [c.Abort()] after a response, [c.Next()] with the
    keys it has set on the context, or a panic. *)
Inductive Gate :=
| Aborted (r : Response)
| Next (keys : JMap)
| GatePanicked (msg : string).

(** The recovery middleware of [gin.Default()]: a panic becomes a 500 with
    no body. *)
Definition Recovery (o : Outcome) : Response :=
  match o with
  | Reply r => r
  | Panicked _ => {| status := StatusInternalServerError; body := [] |}
  end.

(** [c.GetString(key)]: the empty string unless the key holds a string. *)
Definition GetString (keys : JMap) (key : string) : string :=
  match keys !! key with
  | Some (JStr s) => s
  | _ => ""
  end.

(** A request body before binding: text that is not JSON for the target
    struct, or the struct json.Unmarshal fills (absent fields are empty). *)
Inductive Body (A : Type) :=
| BadJSON
| Json (a : A).
Arguments BadJSON {A}.
Arguments Json {A} a.

(** The validator runs the tags of a field in order and reports the first
    that fails. *)
Fixpoint first_failed (field : string) (rules : list (string * bool))
  : list (string * string) :=
  match rules with
  | [] => []
  | (tag, ok) :: r => if ok then first_failed field r else [(field, tag)]
  end.

Definition required (s : string) : bool := negb (String.eqb s "").

(** [c.ShouldBindJSON(&req)] for a struct whose validation reports
    [failed]. *)
Definition ShouldBindJSON {A : Type} (failed : A -> list (string * string))
  (b : Body A) : BindError + A :=
  match b with
  | BadJSON => inl MalformedJSON
  | Json a => match failed a with
              | [] => inr a
              | l => inl (FieldErrors l)
              end
  end.

(** ** The service: main.go *)

(** [main]: the signing secret is the environment's [JWT_SECRET], or a fixed
    string when that is empty. *)
Definition load_jwtSecret (env : string) : string :=
  if String.eqb env "" then "your-secret-key-change-in-production" else env.

Record RegisterRequest := {
  reg_Email : string;
  reg_Password : string;
  reg_Name : string
}.

Record LoginRequest := {
  login_Email : string;
  login_Password : string
}.

Record RefreshRequest := { RefreshToken : string }.

Record UpdateRequest := { upd_Name : string }.

Section Service.
Variable lib : Libs.
Variable jwtSecret : string.

(** The binding tags of the request structs. *)
Definition RegisterRequest_failed (r : RegisterRequest) : list (string * string) :=
  first_failed "Email"
    [("required", required (reg_Email r)); ("email", isEmail lib (reg_Email r))] ++
  first_failed "Password"
    [("required", required (reg_Password r));
     ("min", (8 <=? RuneCountInString lib (reg_Password r))%nat)] ++
  first_failed "Name" [("required", required (reg_Name r))].

Definition LoginRequest_failed (r : LoginRequest) : list (string * string) :=
  first_failed "Email"
    [("required", required (login_Email r)); ("email", isEmail lib (login_Email r))] ++
  first_failed "Password"
    [("required", required (login_Password r));
     ("min", (6 <=? RuneCountInString lib (login_Password r))%nat)].

Definition RefreshRequest_failed (r : RefreshRequest) : list (string * string) :=
  first_failed "RefreshToken" [("required", required (RefreshToken r))].

Definition UpdateRequest_failed (r : UpdateRequest) : list (string * string) := [].

Definition bad_request (e : BindError) : Response :=
  error_response StatusBadRequest (bindErrorText lib e).

(** How [encoding/json] renders [result.InsertedID]. *)
Definition InsertedID_json (i : mongo.DocID) : JValue :=
  match i with
  | mongo.ObjectID b => JStr (Hex lib b)
  | mongo.StringID s => JStr s
  end.

(** [register]: [salt] is what bcrypt draws, [oid] the ObjectID the driver
    generates. *)
Definition register (salt oid : string) (b : Body RegisterRequest) (w : World)
  : Outcome * World :=
  match ShouldBindJSON RegisterRequest_failed b with
  | inl err => (Reply (bad_request err), w)
  | inr req =>
      match GenerateFromPassword lib (reg_Password req) salt with
      | None =>
          (Reply (error_response StatusInternalServerError "Failed to hash password"), w)
      | Some hashedPassword =>
          let (now, w1) := time_Now w in
          let user := {| ID := ""; Email := reg_Email req; Password := hashedPassword;
                         Name := reg_Name req; Role := "customer"; Active := true;
                         CreatedAt := now |} in
          match mongo.InsertOne oid user (db w1) with
          | None => (Reply (error_response StatusConflict "Email already exists"), w1)
          | Some (insertedID, d) =>
              (Reply {| status := StatusCreated;
                        body := [("message", JStr "User registered successfully");
                                 ("user_id", InsertedID_json insertedID)] |},
               with_db w1 d)
          end
      end
  end.

(** The claims of one token. *)
Definition token_claims (userID email role : string) (exp iat : Z) : JMap :=
  <["sub" := JStr userID]> (<["email" := JStr email]> (<["role" := JStr role]>
  (<["exp" := JNum exp]> (<["iat" := JNum iat]> ∅)))).

(** [generateTokens]: the clock is read four times, in source order. *)
Definition generateTokens (userID email role : string) (w : World)
  : (string * string * Z) * World :=
  let (t1, w1) := time_Now w in
  let accessTokenExpiry := Add t1 (15 * Minute) in
  let (t2, w2) := time_Now w1 in
  let refreshTokenExpiry := Add t2 (7 * 24 * Hour) in
  let (t3, w3) := time_Now w2 in
  let accessTokenString :=
    jwt.SignedString lib SHA256
      (token_claims userID email role (Unix accessTokenExpiry) (Unix t3)) jwtSecret in
  let (t4, w4) := time_Now w3 in
  let refreshTokenString :=
    jwt.SignedString lib SHA256
      (token_claims userID email role (Unix refreshTokenExpiry) (Unix t4)) jwtSecret in
  ((accessTokenString, refreshTokenString, Unix accessTokenExpiry), w4).

(** [c.JSON(http.StatusOK, TokenResponse{...})]. *)
Definition TokenResponse (accessToken refreshToken : string) (expiresIn : Z) : Response :=
  {| status := StatusOK;
     body := [("access_token", JStr accessToken);
              ("refresh_token", JStr refreshToken);
              ("expires_in", JNum expiresIn)] |}.

(** [login]. *)
Definition login (b : Body LoginRequest) (w : World) : Outcome * World :=
  match ShouldBindJSON LoginRequest_failed b with
  | inl err => (Reply (bad_request err), w)
  | inr req =>
      match mongo.FindOneByEmail (login_Email req) (db w) with
      | None => (Reply (error_response StatusUnauthorized "Invalid credentials"), w)
      | Some doc =>
          let user := mongo.Decode lib doc in
          if CompareHashAndPassword lib (Password user) (login_Password req) then
            let '(accessToken, refreshToken, expiresIn, w') :=
              generateTokens (ID user) (Email user) (Role user) w in
            (Reply (TokenResponse accessToken refreshToken expiresIn), w')
          else (Reply (error_response StatusUnauthorized "Invalid credentials"), w)
      end
  end.

(** [jwt.Parse(tokenString, keyFunc)] with the key function of both call
    sites, which returns [[]byte(authService.jwtSecret)] for every token.
    The validator reads the clock; the reading is taken here for every
    call, and is unused when [Parse] fails before it validates the claims. *)
Definition parse_token (tokenString : string) (w : World)
  : (jwt.ParseError + jwt.Token) * World :=
  let (now, w') := time_Now w in
  (jwt.Parse lib tokenString jwtSecret now, w').

(** [claims[key].(string)]: [None] is the panic of a failed type
    assertion. *)
Definition assert_string (v : JValue) : option string :=
  match v with
  | JStr s => Some s
  | _ => None
  end.

(** [refreshToken]. *)
Definition refreshToken (b : Body RefreshRequest) (w : World) : Outcome * World :=
  match ShouldBindJSON RefreshRequest_failed b with
  | inl err => (Reply (bad_request err), w)
  | inr req =>
      match parse_token (RefreshToken req) w with
      | (inl _, w1) =>
          (Reply (error_response StatusUnauthorized "Invalid refresh token"), w1)
      | (inr token, w1) =>
          let claims := jwt.Claims token in
          match assert_string (index claims "sub") with
          | None => (Panicked "interface conversion: interface {} is not string", w1)
          | Some userID =>
          match assert_string (index claims "email") with
          | None => (Panicked "interface conversion: interface {} is not string", w1)
          | Some email =>
          match assert_string (index claims "role") with
          | None => (Panicked "interface conversion: interface {} is not string", w1)
          | Some role =>
              let '(accessToken, newRefreshToken, expiresIn, w2) :=
                generateTokens userID email role w1 in
              (Reply (TokenResponse accessToken newRefreshToken expiresIn), w2)
          end end end
      end
  end.

(** [logout]. *)
Definition logout (w : World) : Outcome * World :=
  (Reply (message_response StatusOK "Logged out successfully"), w).

(** [c.JSON(http.StatusOK, user)]: the json tags of [User]; the tag of
    [Password] is ["-"]. *)
Definition User_json (user : User) : list (string * JValue) :=
  [("id", JStr (ID user));
   ("email", JStr (Email user));
   ("role", JStr (Role user));
   ("name", JStr (Name user));
   ("active", JBool (Active user));
   ("created_at", JStr (time_MarshalJSON lib (CreatedAt user)))].

(** [getProfile], on the keys the gate has set. *)
Definition getProfile (keys : JMap) (w : World) : Outcome * World :=
  let userID := GetString keys "user_id" in
  match mongo.FindOneByID userID (db w) with
  | None => (Reply (error_response StatusNotFound "User not found"), w)
  | Some doc =>
      (Reply {| status := StatusOK; body := User_json (mongo.Decode lib doc) |}, w)
  end.

(** [updateProfile], on the keys the gate has set. *)
Definition updateProfile (keys : JMap) (b : Body UpdateRequest) (w : World)
  : Outcome * World :=
  let userID := GetString keys "user_id" in
  match ShouldBindJSON UpdateRequest_failed b with
  | inl err => (Reply (bad_request err), w)
  | inr req =>
      match mongo.UpdateOneName userID (upd_Name req) (db w) with
      | None =>
          (Reply (error_response StatusInternalServerError "Failed to update profile"), w)
      | Some (_, d) =>
          (Reply (message_response StatusOK "Profile updated successfully"), with_db w d)
      end
  end.

(** [authMiddleware]: [authHeader] is [c.GetHeader("Authorization")], empty
    when the request has no such header. *)
Definition authMiddleware (authHeader : string) (w : World) : Gate * World :=
  if String.eqb authHeader "" then
    (Aborted (error_response StatusUnauthorized "Missing authorization header"), w)
  else
    match slice_from 7 authHeader with
    | None => (GatePanicked "slice bounds out of range", w)
    | Some tokenString =>
        match parse_token tokenString w with
        | (inl _, w1) => (Aborted (error_response StatusUnauthorized "Invalid token"), w1)
        | (inr token, w1) =>
            let claims := jwt.Claims token in
            (Next (<["role" := index claims "role"]>
                   (<["email" := index claims "email"]>
                   (<["user_id" := index claims "sub"]> ∅))), w1)
        end
    end.

(** A route [router.GET(path, authMiddleware, handler)]. *)
Definition gated (handler : JMap -> World -> Outcome * World)
  (authHeader : string) (w : World) : Outcome * World :=
  match authMiddleware authHeader w with
  | (Aborted r, w1) => (Reply r, w1)
  | (GatePanicked msg, w1) => (Panicked msg, w1)
  | (Next keys, w1) => handler keys w1
  end.

Definition GET_profile : string -> World -> Outcome * World := gated getProfile.
Definition PUT_profile (b : Body UpdateRequest) : string -> World -> Outcome * World :=
  gated (fun keys => updateProfile keys b).

End Service.

(** ** Observations on tokens and outcomes *)

(** The [alg] entry of the header of a three-segment token, when the header
    decodes. *)
Definition declared_alg (lib : Libs) (tokenString : string) : option JValue :=
  match split_dot tokenString with
  | [p0; _; _] =>
      match DecodeSegment lib p0 with
      | Some hb =>
          match json_Unmarshal lib hb with
          | Some header => Some (index header "alg")
          | None => None
          end
      | None => None
      end
  | _ => None
  end.

(** The claims of a three-segment token, when they decode (no signature
    check). *)
Definition decoded_claims (lib : Libs) (tokenString : string) : option JMap :=
  match split_dot tokenString with
  | [_; p1; _] =>
      match DecodeSegment lib p1 with
      | Some cb => json_Unmarshal lib cb
      | None => None
      end
  | _ => None
  end.

Definition reply_status (o : Outcome) : option Z :=
  match o with
  | Reply r => Some (status r)
  | Panicked _ => None
  end.


Definition passed (g : Gate) : bool :=
  match g with
  | Next _ => true
  | _ => false
  end.



(** The store invariant behind e-mail uniqueness: the unique index exists
    and no two documents share an e-mail. *)
Definition emails_unique (d : mongo.Database) : Prop :=
  mongo.email_unique d = true /\ NoDup (mongo.emails d).

(** The instants [generateTokens] reads for the access token: the first
    reading of the clock fixes [exp], the third fixes [iat]. *)
Definition third_reading (w : World) : Time :=
  fst (time_Now (snd (time_Now (snd (time_Now w))))).
Definition issued_exp (w : World) : Z := Unix (Add (clock w) (15 * Minute)).
Definition issued_iat (w : World) : Z := Unix (third_reading w).

(** The access token of the triple [generateTokens] returns. *)
Definition access_token (r : (string * string * Z) * World) : string := fst (fst (fst r)).

(** The document [register] stores for a request: keyed by the generated
    ObjectID, with the hash in place of the password, the role [customer],
    active, created at the instant read from the clock. *)
Definition registered_document (oid hashed : string) (req : RegisterRequest) (w : World)
  : mongo.Document :=
  {| mongo._id := mongo.ObjectID oid; mongo.email := reg_Email req;
     mongo.password := hashed; mongo.role := "customer";
     mongo.name := reg_Name req; mongo.active := true;
     mongo.created_at := clock w |}.

(** ** What the theorems ask of the primitives *)

(** Two laws of unpadded base64url: decoding inverts encoding, and the
    alphabet has no dot. *)
Record SegmentLaws (lib : Libs) : Prop := {
  Decode_Encode : forall b, DecodeSegment lib (EncodeSegment lib b) = Some b;
  Encode_no_dot : forall b, has_dot (EncodeSegment lib b) = false
}.

(** The JSON text of the map [m] decodes to [m] again. *)
Definition json_round_trip (lib : Libs) (m : JMap) : Prop :=
  json_Unmarshal lib (json_Marshal lib m) = Some m.

(** ** A reference instance of the primitives

    Small executable stand-ins with the interface of [Libs], used to run the
    service on concrete requests. Segments are hex text, JSON text is the
    bit string of stdpp's [encode], and the MAC is a keyed checksum. *)

Module Reference.

Definition hex_digit (n : N) : ascii :=
  match n with
  | 0 => "0" | 1 => "1" | 2 => "2" | 3 => "3" | 4 => "4" | 5 => "5" | 6 => "6"
  | 7 => "7" | 8 => "8" | 9 => "9" | 10 => "a" | 11 => "b" | 12 => "c"
  | 13 => "d" | 14 => "e" | _ => "f"
  end%N%char.

Definition hex_value (c : ascii) : option N :=
  let n := N_of_ascii c in
  if ((48 <=? n) && (n <=? 57))%N then Some (n - 48)%N
  else if ((97 <=? n) && (n <=? 102))%N then Some (n - 87)%N
  else None.

Fixpoint hex (s : string) : string :=
  match s with
  | EmptyString => EmptyString
  | String c r =>
      let n := N_of_ascii c in
      String (hex_digit (n / 16)) (String (hex_digit (n mod 16)) (hex r))
  end.

Fixpoint unhex (s : string) : option string :=
  match s with
  | EmptyString => Some EmptyString
  | String a (String b r) =>
      match hex_value a, hex_value b, unhex r with
      | Some x, Some y, Some t => Some (String (ascii_of_N (16 * x + y)) t)
      | _, _, _ => None
      end
  | String _ EmptyString => None
  end.

Fixpoint pos_bits (p : positive) : string :=
  match p with
  | xH => EmptyString
  | xO q => String "0" (pos_bits q)
  | xI q => String "1" (pos_bits q)
  end.

Fixpoint bits_pos (s : string) : option positive :=
  match s with
  | EmptyString => Some xH
  | String c r =>
      if Ascii.eqb c "0" then xO <$> bits_pos r
      else if Ascii.eqb c "1" then xI <$> bits_pos r
      else None
  end.

Definition marshal (m : JMap) : string := pos_bits (encode m).
Definition unmarshal (s : string) : option JMap := bits_pos s ≫= decode.

Fixpoint checksum (acc : N) (s : string) : N :=
  match s with
  | EmptyString => acc
  | String c r => checksum ((acc * 31 + N_of_ascii c) mod 1000003)%N r
  end.

Definition seed (h : Hash) : N :=
  match h with SHA256 => 256 | SHA384 => 384 | SHA512 => 512 end%N.

Definition mac (h : Hash) (key msg : string) : string :=
  pos_bits (N.succ_pos (checksum (checksum (seed h) key) msg)).

Fixpoint contains (c : ascii) (s : string) : bool :=
  match s with
  | EmptyString => false
  | String d r => Ascii.eqb c d || contains c r
  end.

Fixpoint after (c : ascii) (s : string) : string :=
  match s with
  | EmptyString => EmptyString
  | String d r => if Ascii.eqb c d then r else after c r
  end.

Fixpoint before (c : ascii) (s : string) : string :=
  match s with
  | EmptyString => EmptyString
  | String d r => if Ascii.eqb c d then EmptyString else String d (before c r)
  end.

Definition digest (salt pw : string) : string :=
  pos_bits (N.succ_pos (checksum (checksum 7 salt) pw)).

Definition generate (pw salt : string) : option string :=
  if (72 <? String.length pw)%nat then None
  else Some (hex salt +:+ "$" +:+ digest (hex salt) pw).

Definition compare (hashed pw : string) : bool :=
  String.eqb (after "$" hashed) (digest (before "$" hashed) pw).

Definition libs : Libs :=
  {| RuneCountInString := String.length;
     isEmail := contains "@";
     bindErrorText := fun e =>
       match e with
       | MalformedJSON => "invalid character"
       | FieldErrors _ => "Field validation failed"
       end;
     GenerateFromPassword := generate;
     CompareHashAndPassword := compare;
     hmacSum := mac;
     EncodeSegment := hex;
     DecodeSegment := unhex;
     json_Marshal := marshal;
     json_Unmarshal := unmarshal;
     time_MarshalJSON := fun t => pos_bits (encode t);
     Hex := hex |}.

Definition secret : string := load_jwtSecret "".

(** A running server whose index was created at start-up, at
    2023-11-14T22:13:20Z, with clock readings 5 ms apart. *)
Definition world0 : World :=
  {| db := createIndexes {| mongo.users := []; mongo.email_unique := false;
                            mongo.reachable := true |};
     clock := 1700000000 * Second;
     ticks := List.repeat 5000000%N 64 |}.

(** Tokens for the examples: signed with HMAC-SHA384 under the secret;
    declaring the "none" method, with an empty signature; with the claim
    [exp] equal to 0; with [exp] equal to the clock of [world0]; signed with
    HMAC-SHA256 with no [sub] claim. *)
Definition hs384_token : string :=
  jwt.SignedString libs SHA384
    (token_claims "65539f0a" "eve@x.com" "admin" 1700000900 1700000000) secret.

Definition none_token : string :=
  jwt.SigningString libs (jwt.NewHeader jwt.SigningMethodNone)
    (token_claims "65539f0a" "eve@x.com" "admin" 1700000900 1700000000) +:+ ".".

Definition zero_exp_token : string :=
  jwt.SignedString libs SHA256
    (token_claims "65539f0a" "eve@x.com" "customer" 0 1600000000) secret.

Definition boundary_token : string :=
  jwt.SignedString libs SHA256
    (token_claims "65539f0a" "eve@x.com" "customer" 1700000000 1699999100) secret.

(** Scenario 1 of the specification: Ann registers. *)
Definition ann : RegisterRequest :=
  {| reg_Email := "a@x.com"; reg_Password := "secret123"; reg_Name := "Ann" |}.
Definition bob : RegisterRequest :=
  {| reg_Email := "a@x.com"; reg_Password := "other1234"; reg_Name := "Bob" |}.
Definition ann_oid : string := "eS?0000000001".
Definition world1 : World := snd (register libs "NaCl" ann_oid (Json ann) world0).

Definition ann_doc : mongo.Document :=
  {| mongo._id := mongo.ObjectID ann_oid; mongo.email := "a@x.com";
     mongo.password := default "" (generate "secret123" "NaCl");
     mongo.role := "customer"; mongo.name := "Ann"; mongo.active := true;
     mongo.created_at := clock world0 |}.

(** Ann logs in, and presents the access token she is given. *)
Definition ann_login : LoginRequest :=
  {| login_Email := "a@x.com"; login_Password := "secret123" |}.
Definition ann_access_token : string :=
  access_token (generateTokens libs secret (hex ann_oid) "a@x.com" "customer" world1).
Definition world2 : World := snd (login libs secret (Json ann_login) world1).

Definition no_sub_token : string :=
  jwt.SignedString libs SHA256
    (<["email" := JStr "eve@x.com"]> (<["role" := JStr "customer"]>
     (<["exp" := JNum 1700000900]> ∅))) secret.

End Reference.

(** ** More observations on the auth service *)

(** The refresh token of the triple [generateTokens] returns, and the
    instants read for it: the second reading of the clock fixes its [exp],
    the fourth its [iat]. *)
Definition refresh_token (r : (string * string * Z) * World) : string := snd (fst (fst r)).
Definition expires_in (r : (string * string * Z) * World) : Z := snd (fst r).
Definition second_reading (w : World) : Time := fst (time_Now (snd (time_Now w))).
Definition fourth_reading (w : World) : Time :=
  fst (time_Now (snd (time_Now (snd (time_Now (snd (time_Now w))))))).
Definition issued_refresh_exp (w : World) : Z :=
  Unix (Add (second_reading w) (7 * 24 * Hour)).
Definition issued_refresh_iat (w : World) : Z := Unix (fourth_reading w).

(** The same state with the [active] flag of every account replaced. *)
Definition set_active (f : bool -> bool) (x : mongo.Document) : mongo.Document :=
  {| mongo._id := mongo._id x; mongo.email := mongo.email x;
     mongo.password := mongo.password x; mongo.role := mongo.role x;
     mongo.name := mongo.name x; mongo.active := f (mongo.active x);
     mongo.created_at := mongo.created_at x |}.

Definition map_active (f : bool -> bool) (w : World) : World :=
  with_db w (mongo.with_users (db w) (List.map (set_active f) (mongo.users (db w)))).

(** The value of a field of a response body. *)
Definition body_field (o : Outcome) (k : string) : option JValue :=
  match o with
  | Reply r => snd <$> List.find (fun kv => String.eqb (fst kv) k) (body r)
  | Panicked _ => None
  end.

Module Examples.

(** A store that holds one account keyed by a string, as a document written
    by another tool would be. *)
Definition legacy_doc : mongo.Document :=
  {| mongo._id := mongo.StringID "u-17"; mongo.email := "old@x.com";
     mongo.password := "$2a$10$legacy"; mongo.role := "customer";
     mongo.name := "Old Name"; mongo.active := false;
     mongo.created_at := 1600000000 * Second |}.

Definition legacy_world : World :=
  {| db := {| mongo.users := [legacy_doc]; mongo.email_unique := true;
              mongo.reachable := true |};
     clock := 1700000000 * Second;
     ticks := [] |}.

Definition legacy_keys : JMap := <["user_id" := JStr "u-17"]> ∅.

(** The pair Ann is given at login. *)
Definition ann_tokens : (string * string * Z) * World :=
  generateTokens Reference.libs Reference.secret
    (Reference.hex Reference.ann_oid) "a@x.com" "customer" Reference.world1.

End Examples.

(** * The other services

    The inventory, order, payment and product services are gin handlers
    over one mongo collection each. They share the pieces below. *)

(** ** Go integers, BSON integers and BSON dates *)

(** Go's [int] (64 bits on the platforms the services are built for) and
    BSON's integers. *)
Definition MinInt64 : Z := - 2 ^ 63.
Definition MaxInt64 : Z := 2 ^ 63 - 1.
Definition in_int64 (z : Z) : bool := ((MinInt64 <=? z) && (z <=? MaxInt64))%Z.

(** Unary minus on a Go [int]: it wraps at the least value. *)
Definition neg_int (z : Z) : Z := if Z.eqb z MinInt64 then MinInt64 else - z.

(** The server's [$inc] on an integer field by an integer: 32-bit values
    are promoted, an overflow of 64 bits is an error ([None]). *)
Definition inc_int (old delta : Z) : option Z :=
  if in_int64 (old + delta) then Some (old + delta) else None.

(** A [time.Time] as BSON stores it: milliseconds since the epoch. *)
Definition Millisecond : Z := 1000000.
Definition bson_datetime (t : Time) : Time := t / Millisecond * Millisecond.

(** The zero [time.Time], January 1 of year 1. *)
Definition zero_time : Time := -62135596800 * Second.

(** ** One collection, and the state of one service *)

Module crud.

(** A collection: the documents in insertion order, and whether the server
    answers. *)
Record Coll (D : Type) := {
  docs : list D;
  reachable : bool
}.
Arguments docs {D} _.
Arguments reachable {D} _.

Definition with_docs {D : Type} (c : Coll D) (l : list D) : Coll D :=
  {| docs := l; reachable := reachable c |}.

(** The state a service acts on: its collection, the wall clock, and the
    time that elapses after each reading of the clock. *)
Record State (D : Type) := {
  coll : Coll D;
  clock : Time;
  ticks : list N
}.
Arguments coll {D} _.
Arguments clock {D} _.
Arguments ticks {D} _.

Definition with_coll {D : Type} (st : State D) (c : Coll D) : State D :=
  {| coll := c; clock := clock st; ticks := ticks st |}.

(** [time.Now()]. *)
Definition time_Now {D : Type} (st : State D) : Time * State D :=
  (clock st,
   {| coll := coll st;
      clock := clock st + Z.of_N (List.hd 0%N (ticks st));
      ticks := List.tl (ticks st) |}).

(** [time.Sleep(d)]: at least [d] passes. *)
Definition time_Sleep {D : Type} (d : Z) (st : State D) : State D :=
  {| coll := coll st; clock := clock st + d; ticks := ticks st |}.

Section Operations.
Context {D : Type}.
Variable id_of : D -> mongo.DocID.

(** [collection.InsertOne]: [None] is an error (server not reachable, or a
    duplicate [_id]). *)
Definition InsertOne (doc : D) (c : Coll D) : option (mongo.DocID * Coll D) :=
  if negb (reachable c) then None
  else if existsb (fun x => bool_decide (id_of x = id_of doc)) (docs c) then None
  else Some (id_of doc, with_docs c (docs c ++ [doc])).

(** [collection.FindOne(filter)] with the filter as a predicate: the first
    match; [None] is an error (server not reachable, or no document). *)
Definition FindOne (filter : D -> bool) (c : Coll D) : option D :=
  if reachable c then List.find filter (docs c) else None.

(** [collection.Find(filter, limit)] followed by [cursor.All]. *)
Definition Find (filter : D -> bool) (limit : option nat) (c : Coll D) : option (list D) :=
  if reachable c then
    Some (match limit with
          | Some n => List.firstn n (List.filter filter (docs c))
          | None => List.filter filter (docs c)
          end)
  else None.

(** The first match of an update, rewritten by [f]; [None] when [f] fails
    on it (the server rejects the update and changes nothing). The counts
    are MatchedCount and ModifiedCount: a match the update leaves as it
    was is not counted as modified. *)
Fixpoint update_first `{EqDecision D} (filter : D -> bool) (f : D -> option D) (l : list D)
  : option (nat * nat * list D) :=
  match l with
  | [] => Some (O, O, [])
  | x :: r =>
      if filter x then
        match f x with
        | None => None
        | Some y => Some (1%nat, if bool_decide (y = x) then O else 1%nat, y :: r)
        end
      else
        match update_first filter f r with
        | None => None
        | Some (m, k, r') => Some (m, k, x :: r')
        end
  end.

(** [collection.UpdateOne(filter, update)]: [None] is an error (server not
    reachable, or the update fails on the matched document). *)
Definition UpdateOne `{EqDecision D} (filter : D -> bool) (f : D -> option D) (c : Coll D)
  : option (nat * nat * Coll D) :=
  if reachable c then
    match update_first filter f (docs c) with
    | None => None
    | Some (m, k, l) => Some (m, k, with_docs c l)
    end
  else None.

Fixpoint delete_first (filter : D -> bool) (l : list D) : nat * list D :=
  match l with
  | [] => (O, [])
  | x :: r =>
      if filter x then (1%nat, r)
      else let (k, r') := delete_first filter r in (k, x :: r')
  end.

(** [collection.DeleteOne(filter)]: the DeletedCount and the new
    collection; [None] is an error (server not reachable). *)
Definition DeleteOne (filter : D -> bool) (c : Coll D) : option (nat * Coll D) :=
  if reachable c then
    let (k, l) := delete_first filter (docs c) in Some (k, with_docs c l)
  else None.

End Operations.

(** [c.ShouldBindJSON(&req)] for a struct with [int] fields: a number that
    does not fit the field is a decoding error. *)
Definition ShouldBindJSON_ints {A : Type} (ints : A -> list Z)
  (failed : A -> list (string * string)) (b : Body A) : BindError + A :=
  match b with
  | BadJSON => inl MalformedJSON
  | Json a =>
      if forallb in_int64 (ints a) then
        match failed a with
        | [] => inr a
        | l => inl (FieldErrors l)
        end
      else inl MalformedJSON
  end.

End crud.

(** ** The inventory service (services/inventory-service/main.go) *)

Module inventory.

(** The [Inventory] struct. *)
Record Inventory := {
  ID : string;
  ProductID : string;
  Quantity : Z;
  Reserved : Z;
  Warehouse : string;
  UpdatedAt : Time
}.

(** A document of the [inventory] collection, with the bson keys of
    [Inventory]. *)
Record Document := {
  _id : mongo.DocID;
  product_id : string;
  quantity : Z;
  reserved : Z;
  warehouse : string;
  updated_at : Time
}.

#[global] Instance Document_eq_dec : EqDecision Document.
Proof. solve_decision. Defined.

Abbreviation State := (crud.State Document).

(** bson marshalling of an [Inventory]: an empty [ID] is dropped and the
    driver adds the ObjectID [oid]. *)
Definition toDocument (oid : string) (i : Inventory) : Document :=
  {| _id := if String.eqb (ID i) "" then mongo.ObjectID oid else mongo.StringID (ID i);
     product_id := ProductID i; quantity := Quantity i; reserved := Reserved i;
     warehouse := Warehouse i; updated_at := bson_datetime (UpdatedAt i) |}.

Definition Decode (lib : Libs) (doc : Document) : Inventory :=
  {| ID := match _id doc with mongo.ObjectID b => Hex lib b | mongo.StringID s => s end;
     ProductID := product_id doc; Quantity := quantity doc; Reserved := reserved doc;
     Warehouse := warehouse doc; UpdatedAt := updated_at doc |}.

(** The request body of the three quantity routes. *)
Record QuantityRequest := { req_Quantity : Z }.

(** The tag [binding:"required"] on an [int]: the zero value fails it. *)
Definition QuantityRequest_failed (r : QuantityRequest) : list (string * string) :=
  first_failed "Quantity" [("required", negb (Z.eqb (req_Quantity r) 0))].

Definition with_updated_at (t : Time) (d : Document) : Document :=
  {| _id := _id d; product_id := product_id d; quantity := quantity d;
     reserved := reserved d; warehouse := warehouse d; updated_at := t |}.

(** The update document [{"$inc": {"quantity": dq, "reserved": dr},
    "$set": {"updated_at": now}}] applied to one document. *)
Definition inc_both (dq dr : Z) (now : Time) (d : Document) : option Document :=
  match inc_int (quantity d) dq, inc_int (reserved d) dr with
  | Some q, Some r =>
      Some {| _id := _id d; product_id := product_id d; quantity := q; reserved := r;
              warehouse := warehouse d; updated_at := bson_datetime now |}
  | _, _ => None
  end.

(** [{"$set": {"quantity": q, "updated_at": now}}]. *)
Definition set_quantity (q : Z) (now : Time) (d : Document) : option Document :=
  Some {| _id := _id d; product_id := product_id d; quantity := q; reserved := reserved d;
          warehouse := warehouse d; updated_at := bson_datetime now |}.

Section Handlers.
Variable lib : Libs.

Definition Inventory_json (i : Inventory) : list (string * JValue) :=
  [("id", JStr (ID i));
   ("product_id", JStr (ProductID i));
   ("quantity", JNum (Quantity i));
   ("reserved", JNum (Reserved i));
   ("warehouse", JStr (Warehouse i));
   ("updated_at", JStr (time_MarshalJSON lib (UpdatedAt i)))].

(** [getInventory], for the path parameter [productId]. *)
Definition getInventory (productID : string) (st : State) : Outcome * State :=
  match crud.FindOne (fun d => String.eqb (product_id d) productID) (crud.coll st) with
  | None => (Reply (error_response StatusNotFound "Inventory not found"), st)
  | Some doc => (Reply {| status := StatusOK; body := Inventory_json (Decode lib doc) |}, st)
  end.

(** [createInventory]: the struct has no binding tag. *)
Definition createInventory (oid : string) (b : Body Inventory) (st : State)
  : Outcome * State :=
  match crud.ShouldBindJSON_ints (fun i => [Quantity i; Reserved i]) (fun _ => []) b with
  | inl err => (Reply (bad_request lib err), st)
  | inr inv =>
      let (now, st1) := crud.time_Now st in
      let inventory := {| ID := ID inv; ProductID := ProductID inv; Quantity := Quantity inv;
                          Reserved := Reserved inv; Warehouse := Warehouse inv;
                          UpdatedAt := now |} in
      match crud.InsertOne _id (toDocument oid inventory) (crud.coll st1) with
      | None =>
          (Reply (error_response StatusInternalServerError "Failed to create inventory"), st1)
      | Some (insertedID, c) =>
          (Reply {| status := StatusCreated;
                    body := [("message", JStr "Inventory created successfully");
                             ("inventory_id", InsertedID_json lib insertedID)] |},
           crud.with_coll st1 c)
      end
  end.

Definition bind_quantity (b : Body QuantityRequest) : BindError + QuantityRequest :=
  crud.ShouldBindJSON_ints (fun r => [req_Quantity r]) QuantityRequest_failed b.

(** [reserveInventory]. *)
Definition reserveInventory (productID : string) (b : Body QuantityRequest) (st : State)
  : Outcome * State :=
  match bind_quantity b with
  | inl err => (Reply (bad_request lib err), st)
  | inr req =>
      let (now, st1) := crud.time_Now st in
      match crud.UpdateOne
              (fun d => String.eqb (product_id d) productID &&
                        Z.leb (req_Quantity req) (quantity d))
              (inc_both (neg_int (req_Quantity req)) (req_Quantity req) now)
              (crud.coll st1) with
      | None => (Reply (error_response StatusConflict "Insufficient inventory"), st1)
      | Some (_, modified, c) =>
          if Nat.eqb modified 0
          then (Reply (error_response StatusConflict "Insufficient inventory"),
                crud.with_coll st1 c)
          else (Reply (message_response StatusOK "Inventory reserved successfully"),
                crud.with_coll st1 c)
      end
  end.

(** [releaseInventory]. *)
Definition releaseInventory (productID : string) (b : Body QuantityRequest) (st : State)
  : Outcome * State :=
  match bind_quantity b with
  | inl err => (Reply (bad_request lib err), st)
  | inr req =>
      let (now, st1) := crud.time_Now st in
      match crud.UpdateOne
              (fun d => String.eqb (product_id d) productID)
              (inc_both (req_Quantity req) (neg_int (req_Quantity req)) now)
              (crud.coll st1) with
      | None =>
          (Reply (error_response StatusInternalServerError "Failed to release inventory"),
           st1)
      | Some (_, _, c) =>
          (Reply (message_response StatusOK "Inventory released successfully"),
           crud.with_coll st1 c)
      end
  end.

(** [updateInventory]. *)
Definition updateInventory (productID : string) (b : Body QuantityRequest) (st : State)
  : Outcome * State :=
  match bind_quantity b with
  | inl err => (Reply (bad_request lib err), st)
  | inr req =>
      let (now, st1) := crud.time_Now st in
      match crud.UpdateOne
              (fun d => String.eqb (product_id d) productID)
              (set_quantity (req_Quantity req) now)
              (crud.coll st1) with
      | None =>
          (Reply (error_response StatusInternalServerError "Failed to update inventory"),
           st1)
      | Some (_, _, c) =>
          (Reply (message_response StatusOK "Inventory updated successfully"),
           crud.with_coll st1 c)
      end
  end.

End Handlers.

(** What the stock of a document is about: the units on hand and the units
    set aside. *)
Definition stock (d : Document) : Z := quantity d + reserved d.

(** A stock movement leaves a record what it was, and its stock the same. *)
Definition moved (d d' : Document) : Prop :=
  _id d' = _id d /\ product_id d' = product_id d /\ warehouse d' = warehouse d /\
  stock d' = stock d.

(** The integers of a document fit BSON's 64 bits. *)
Definition well_formed (d : Document) : Prop :=
  in_int64 (quantity d) = true /\ in_int64 (reserved d) = true.

(** Two documents that differ at most in [updated_at]. *)
Definition same_but_time (d d' : Document) : Prop :=
  with_updated_at 0 d = with_updated_at 0 d'.

End inventory.

Module InventoryExamples.

(** One warehouse record: ten units on hand, two set aside. *)
Definition widget : inventory.Document :=
  {| inventory._id := mongo.ObjectID "eS?0000000009"; inventory.product_id := "widget";
     inventory.quantity := 10; inventory.reserved := 2;
     inventory.warehouse := "north"; inventory.updated_at := 1699999999 * Second |}.

Definition state0 : inventory.State :=
  {| crud.coll := {| crud.docs := [widget]; crud.reachable := true |};
     crud.clock := 1700000000 * Second;
     crud.ticks := [] |}.

Definition quantity_request (q : Z) : Body inventory.QuantityRequest :=
  Json {| inventory.req_Quantity := q |}.

End InventoryExamples.

(** ** Values the order, payment and product services hand to [c.JSON] *)

(** A [float64], as its 64 bits: the services store and return such values
    and never compute with them. *)
Definition float64 := N.

(** What a handler of these services passes to [c.JSON]: a [gin.H] with an
    error, a message or the id of a new document; one record; or a list of
    records with its length. *)
Inductive Result (R : Type) :=
| Plain (r : Response)
| One (code : Z) (x : R)
| Many (code : Z) (xs : list R) (count : nat).
Arguments Plain {R} r.
Arguments One {R} code x.
Arguments Many {R} code xs count.

Definition result_status {R : Type} (o : Result R) : Z :=
  match o with
  | Plain r => status r
  | One code _ => code
  | Many code _ _ => code
  end.

(** [c.JSON(http.StatusCreated, gin.H{"message": msg, key: result.InsertedID})]. *)
Definition created_response (msg key : string) (id : JValue) : Response :=
  {| status := StatusCreated; body := [("message", JStr msg); (key, id)] |}.

(** ** The order service (services/order-service/main.go) *)

Module orders.

Record OrderItem := {
  item_ProductID : string;
  item_Quantity : Z;
  item_Price : float64
}.

(** The [Order] struct; [Items] is [None] for a nil slice. *)
Record Order := {
  ID : string;
  UserID : string;
  Items : option (list OrderItem);
  Total : float64;
  Status : string;
  CreatedAt : Time;
  UpdatedAt : Time
}.

(** A document of the [orders] collection. *)
Record Document := {
  _id : mongo.DocID;
  user_id : string;
  items : option (list OrderItem);
  total : float64;
  status : string;
  created_at : Time;
  updated_at : Time
}.

#[global] Instance OrderItem_eq_dec : EqDecision OrderItem.
Proof. solve_decision. Defined.

#[global] Instance Document_eq_dec : EqDecision Document.
Proof. solve_decision. Defined.

Abbreviation State := (crud.State Document).

Definition toDocument (oid : string) (o : Order) : Document :=
  {| _id := if String.eqb (ID o) "" then mongo.ObjectID oid else mongo.StringID (ID o);
     user_id := UserID o; items := Items o; total := Total o; status := Status o;
     created_at := bson_datetime (CreatedAt o); updated_at := bson_datetime (UpdatedAt o) |}.

Definition Decode (lib : Libs) (doc : Document) : Order :=
  {| ID := match _id doc with mongo.ObjectID b => Hex lib b | mongo.StringID s => s end;
     UserID := user_id doc; Items := items doc; Total := total doc; Status := status doc;
     CreatedAt := created_at doc; UpdatedAt := updated_at doc |}.

(** The [int] fields a request body fills. *)
Definition Order_ints (o : Order) : list Z :=
  List.map item_Quantity (default [] (Items o)).

Record StatusRequest := { req_Status : string }.

Definition StatusRequest_failed (r : StatusRequest) : list (string * string) :=
  first_failed "Status" [("required", required (req_Status r))].

(** [{"$set": {"status": s, "updated_at": now}}]. *)
Definition set_status (s : string) (now : Time) (d : Document) : option Document :=
  Some {| _id := _id d; user_id := user_id d; items := items d; total := total d;
          status := s; created_at := created_at d; updated_at := bson_datetime now |}.

(** The filter [bson.M{"_id": id}] for a Go string. *)
Definition has_id (id : string) (d : Document) : bool :=
  bool_decide (_id d = mongo.StringID id).

Section Handlers.
Variable lib : Libs.

(** [createOrder]: the struct has no binding tag. *)
Definition createOrder (oid : string) (b : Body Order) (st : State)
  : Result Order * State :=
  match crud.ShouldBindJSON_ints Order_ints (fun _ => []) b with
  | inl err => (Plain (bad_request lib err), st)
  | inr o =>
      let (t1, st1) := crud.time_Now st in
      let (t2, st2) := crud.time_Now st1 in
      let order := {| ID := ID o; UserID := UserID o; Items := Items o; Total := Total o;
                      Status := "pending"; CreatedAt := t1; UpdatedAt := t2 |} in
      match crud.InsertOne _id (toDocument oid order) (crud.coll st2) with
      | None =>
          (Plain (error_response StatusInternalServerError "Failed to create order"), st2)
      | Some (insertedID, c) =>
          (Plain (created_response "Order created successfully" "order_id"
                    (InsertedID_json lib insertedID)),
           crud.with_coll st2 c)
      end
  end.

(** [getOrder], for the path parameter [id]. *)
Definition getOrder (id : string) (st : State) : Result Order * State :=
  match crud.FindOne (has_id id) (crud.coll st) with
  | None => (Plain (error_response StatusNotFound "Order not found"), st)
  | Some doc => (One StatusOK (Decode lib doc), st)
  end.

(** [getUserOrders], for the path parameter [userId]. *)
Definition getUserOrders (userID : string) (st : State) : Result Order * State :=
  match crud.Find (fun d => String.eqb (user_id d) userID) None (crud.coll st) with
  | None => (Plain (error_response StatusInternalServerError "Failed to fetch orders"), st)
  | Some found =>
      let orders := List.map (Decode lib) found in
      (Many StatusOK orders (List.length orders), st)
  end.

(** [updateOrderStatus]. *)
Definition updateOrderStatus (id : string) (b : Body StatusRequest) (st : State)
  : Result Order * State :=
  match ShouldBindJSON StatusRequest_failed b with
  | inl err => (Plain (bad_request lib err), st)
  | inr req =>
      let (now, st1) := crud.time_Now st in
      match crud.UpdateOne (has_id id) (set_status (req_Status req) now) (crud.coll st1) with
      | None =>
          (Plain (error_response StatusInternalServerError "Failed to update order"), st1)
      | Some (_, _, c) =>
          (Plain (message_response StatusOK "Order status updated"), crud.with_coll st1 c)
      end
  end.

(** [cancelOrder]. *)
Definition cancelOrder (id : string) (st : State) : Result Order * State :=
  match crud.DeleteOne (has_id id) (crud.coll st) with
  | None => (Plain (error_response StatusNotFound "Order not found"), st)
  | Some (deleted, c) =>
      if Nat.eqb deleted 0
      then (Plain (error_response StatusNotFound "Order not found"), crud.with_coll st c)
      else (Plain (message_response StatusOK "Order cancelled"), crud.with_coll st c)
  end.

End Handlers.

(** Every document is keyed by a driver-generated ObjectID. *)
Definition keyed_by_ObjectID (d : Document) : Prop :=
  exists b, _id d = mongo.ObjectID b.

End orders.

Module OrderExamples.

Definition two_mugs : orders.OrderItem :=
  {| orders.item_ProductID := "mug"; orders.item_Quantity := 2;
     orders.item_Price := 4622945017495814144%N |}.

(** A request that names its own id and asks for the status [shipped]. *)
Definition request : orders.Order :=
  {| orders.ID := "order-1"; orders.UserID := "ann"; orders.Items := Some [two_mugs];
     orders.Total := 4627730092099895296%N; orders.Status := "shipped";
     orders.CreatedAt := 0; orders.UpdatedAt := 0 |}.

(** The same request without an id. *)
Definition anonymous_request : orders.Order :=
  {| orders.ID := ""; orders.UserID := "ann"; orders.Items := Some [two_mugs];
     orders.Total := 4627730092099895296%N; orders.Status := "shipped";
     orders.CreatedAt := 0; orders.UpdatedAt := 0 |}.

Definition state0 : orders.State :=
  {| crud.coll := {| crud.docs := []; crud.reachable := true |};
     crud.clock := 1700000000 * Second + 123456789;
     crud.ticks := [1000%N; 1000%N] |}.

(** After the request that names its id; after the one that does not. *)
Definition state1 : orders.State :=
  snd (orders.createOrder Reference.libs "eS?0000000020" (Json request) state0).

Definition state_anonymous : orders.State :=
  snd (orders.createOrder Reference.libs "eS?0000000021" (Json anonymous_request) state0).

End OrderExamples.


(** ** The payment service (services/payment-service/main.go) *)

(** The answer of a processed payment:
    [gin.H{"message": ..., "payment_id": result.InsertedID, "status": "completed"}]. *)
Definition processed_response (id : JValue) : Response :=
  {| status := StatusCreated;
     body := [("message", JStr "Payment processed successfully");
              ("payment_id", id);
              ("status", JStr "completed")] |}.

Module payments.

Record Payment := {
  ID : string;
  OrderID : string;
  UserID : string;
  Amount : float64;
  Currency : string;
  Status : string;
  Method : string;
  CreatedAt : Time;
  UpdatedAt : Time
}.

(** A document of the [payments] collection. *)
Record Document := {
  _id : mongo.DocID;
  order_id : string;
  user_id : string;
  amount : float64;
  currency : string;
  status : string;
  method : string;
  created_at : Time;
  updated_at : Time
}.

#[global] Instance Document_eq_dec : EqDecision Document.
Proof. solve_decision. Defined.

Abbreviation State := (crud.State Document).

Definition toDocument (oid : string) (p : Payment) : Document :=
  {| _id := if String.eqb (ID p) "" then mongo.ObjectID oid else mongo.StringID (ID p);
     order_id := OrderID p; user_id := UserID p; amount := Amount p;
     currency := Currency p; status := Status p; method := Method p;
     created_at := bson_datetime (CreatedAt p); updated_at := bson_datetime (UpdatedAt p) |}.

Definition Decode (lib : Libs) (doc : Document) : Payment :=
  {| ID := match _id doc with mongo.ObjectID b => Hex lib b | mongo.StringID s => s end;
     OrderID := order_id doc; UserID := user_id doc; Amount := amount doc;
     Currency := currency doc; Status := status doc; Method := method doc;
     CreatedAt := created_at doc; UpdatedAt := updated_at doc |}.

(** [payment.Status = s]. *)
Definition with_Status (s : string) (p : Payment) : Payment :=
  {| ID := ID p; OrderID := OrderID p; UserID := UserID p; Amount := Amount p;
     Currency := Currency p; Status := s; Method := Method p;
     CreatedAt := CreatedAt p; UpdatedAt := UpdatedAt p |}.

(** [payment.CreatedAt = t1; payment.UpdatedAt = t2]. *)
Definition with_times (t1 t2 : Time) (p : Payment) : Payment :=
  {| ID := ID p; OrderID := OrderID p; UserID := UserID p; Amount := Amount p;
     Currency := Currency p; Status := Status p; Method := Method p;
     CreatedAt := t1; UpdatedAt := t2 |}.

(** [{"$set": {"status": "refunded", "updated_at": now}}]. *)
Definition set_refunded (now : Time) (d : Document) : option Document :=
  Some {| _id := _id d; order_id := order_id d; user_id := user_id d; amount := amount d;
          currency := currency d; status := "refunded"; method := method d;
          created_at := created_at d; updated_at := bson_datetime now |}.

(** The filter [bson.M{"_id": id}] for a Go string. *)
Definition has_id (id : string) (d : Document) : bool :=
  bool_decide (_id d = mongo.StringID id).

Section Handlers.
Variable lib : Libs.

(** [processPayment]: the struct has no binding tag and no [int] field. *)
Definition processPayment (oid : string) (b : Body Payment) (st : State)
  : Result Payment * State :=
  match ShouldBindJSON (fun _ => []) b with
  | inl err => (Plain (bad_request lib err), st)
  | inr p =>
      let p1 := with_Status "processing" p in
      let (t1, st1) := crud.time_Now st in
      let (t2, st2) := crud.time_Now st1 in
      let p2 := with_times t1 t2 p1 in
      let st3 := crud.time_Sleep (1 * Second) st2 in
      let payment := with_Status "completed" p2 in
      match crud.InsertOne _id (toDocument oid payment) (crud.coll st3) with
      | None =>
          (Plain (error_response StatusInternalServerError "Failed to process payment"), st3)
      | Some (insertedID, c) =>
          (Plain (processed_response (InsertedID_json lib insertedID)),
           crud.with_coll st3 c)
      end
  end.

(** [getPayment], for the path parameter [id]. *)
Definition getPayment (id : string) (st : State) : Result Payment * State :=
  match crud.FindOne (has_id id) (crud.coll st) with
  | None => (Plain (error_response StatusNotFound "Payment not found"), st)
  | Some doc => (One StatusOK (Decode lib doc), st)
  end.

(** [refundPayment]: the result of the update is dropped. *)
Definition refundPayment (id : string) (st : State) : Result Payment * State :=
  let (now, st1) := crud.time_Now st in
  match crud.UpdateOne (has_id id) (set_refunded now) (crud.coll st1) with
  | None =>
      (Plain (error_response StatusInternalServerError "Failed to refund payment"), st1)
  | Some (_, _, c) =>
      (Plain (message_response StatusOK "Payment refunded successfully"),
       crud.with_coll st1 c)
  end.

End Handlers.

(** The two states of a payment the service ever writes. *)
Definition settled (d : Document) : Prop :=
  status d = "completed" \/ status d = "refunded".

End payments.

Module PaymentExamples.

(** A request that names its own id and claims to have failed. *)
Definition request : payments.Payment :=
  {| payments.ID := "pay-1"; payments.OrderID := "order-1"; payments.UserID := "ann";
     payments.Amount := 4627730092099895296%N; payments.Currency := "EUR";
     payments.Status := "failed"; payments.Method := "card";
     payments.CreatedAt := 0; payments.UpdatedAt := 0 |}.

Definition state0 : payments.State :=
  {| crud.coll := {| crud.docs := []; crud.reachable := true |};
     crud.clock := 1700000000 * Second + 123456789;
     crud.ticks := [1000%N; 1000%N; 1000%N] |}.

Definition state1 : payments.State :=
  snd (payments.processPayment Reference.libs "eS?0000000030" (Json request) state0).

End PaymentExamples.

(** ** The product service (services/user-auth-service/product-service/main.go) *)

Module products.

Record Product := {
  ID : string;
  Name : string;
  Description : string;
  Price : float64;
  Category : string;
  Stock : Z;
  Rating : float64;
  Reviews : Z;
  ImageURL : string;
  CreatedAt : Time;
  UpdatedAt : Time
}.

(** A document of the [products] collection. *)
Record Document := {
  _id : mongo.DocID;
  name : string;
  description : string;
  price : float64;
  category : string;
  stock : Z;
  rating : float64;
  reviews : Z;
  image_url : string;
  created_at : Time;
  updated_at : Time
}.

#[global] Instance Document_eq_dec : EqDecision Document.
Proof. solve_decision. Defined.

Abbreviation State := (crud.State Document).

Definition toDocument (oid : string) (p : Product) : Document :=
  {| _id := if String.eqb (ID p) "" then mongo.ObjectID oid else mongo.StringID (ID p);
     name := Name p; description := Description p; price := Price p;
     category := Category p; stock := Stock p; rating := Rating p; reviews := Reviews p;
     image_url := ImageURL p;
     created_at := bson_datetime (CreatedAt p); updated_at := bson_datetime (UpdatedAt p) |}.

Definition Decode (lib : Libs) (doc : Document) : Product :=
  {| ID := match _id doc with mongo.ObjectID b => Hex lib b | mongo.StringID s => s end;
     Name := name doc; Description := description doc; Price := price doc;
     Category := category doc; Stock := stock doc; Rating := rating doc;
     Reviews := reviews doc; ImageURL := image_url doc;
     CreatedAt := created_at doc; UpdatedAt := updated_at doc |}.

(** The [int] fields a request body fills. *)
Definition Product_ints (p : Product) : list Z := [Stock p; Reviews p].

(** [product.CreatedAt = t]; [product.UpdatedAt = t]. *)
Definition with_CreatedAt (t : Time) (p : Product) : Product :=
  {| ID := ID p; Name := Name p; Description := Description p; Price := Price p;
     Category := Category p; Stock := Stock p; Rating := Rating p; Reviews := Reviews p;
     ImageURL := ImageURL p; CreatedAt := t; UpdatedAt := UpdatedAt p |}.

Definition with_UpdatedAt (t : Time) (p : Product) : Product :=
  {| ID := ID p; Name := Name p; Description := Description p; Price := Price p;
     Category := Category p; Stock := Stock p; Rating := Rating p; Reviews := Reviews p;
     ImageURL := ImageURL p; CreatedAt := CreatedAt p; UpdatedAt := t |}.

(** [{"$set": product}]: every field of the struct is set; [_id] is among
    them unless it is empty (omitempty), and the server refuses to change
    the [_id] of a document. *)
Definition set_product (p : Product) (d : Document) : option Document :=
  if String.eqb (ID p) "" || bool_decide (_id d = mongo.StringID (ID p)) then
    Some {| _id := _id d;
            name := Name p; description := Description p; price := Price p;
            category := Category p; stock := Stock p; rating := Rating p;
            reviews := Reviews p; image_url := ImageURL p;
            created_at := bson_datetime (CreatedAt p);
            updated_at := bson_datetime (UpdatedAt p) |}
  else None.

(** The filter [bson.M{"_id": id}] for a Go string. *)
Definition has_id (id : string) (d : Document) : bool :=
  bool_decide (_id d = mongo.StringID id).

Section Handlers.
Variable lib : Libs.

(** [listProducts]: the filter [bson.M{}], the limit 20. *)
Definition listProducts (st : State) : Result Product * State :=
  match crud.Find (fun _ => true) (Some 20%nat) (crud.coll st) with
  | None => (Plain (error_response StatusInternalServerError "Failed to fetch products"), st)
  | Some found =>
      let products := List.map (Decode lib) found in
      (Many StatusOK products (List.length products), st)
  end.

(** [getProduct], for the path parameter [id]. *)
Definition getProduct (id : string) (st : State) : Result Product * State :=
  match crud.FindOne (has_id id) (crud.coll st) with
  | None => (Plain (error_response StatusNotFound "Product not found"), st)
  | Some doc => (One StatusOK (Decode lib doc), st)
  end.

(** [createProduct]: the struct has no binding tag. *)
Definition createProduct (oid : string) (b : Body Product) (st : State)
  : Result Product * State :=
  match crud.ShouldBindJSON_ints Product_ints (fun _ => []) b with
  | inl err => (Plain (bad_request lib err), st)
  | inr p =>
      let (t1, st1) := crud.time_Now st in
      let (t2, st2) := crud.time_Now st1 in
      let product := with_UpdatedAt t2 (with_CreatedAt t1 p) in
      match crud.InsertOne _id (toDocument oid product) (crud.coll st2) with
      | None =>
          (Plain (error_response StatusInternalServerError "Failed to create product"), st2)
      | Some (insertedID, c) =>
          (Plain (created_response "Product created successfully" "product_id"
                    (InsertedID_json lib insertedID)),
           crud.with_coll st2 c)
      end
  end.

(** [updateProduct]: the result of the update is dropped. *)
Definition updateProduct (id : string) (b : Body Product) (st : State)
  : Result Product * State :=
  match crud.ShouldBindJSON_ints Product_ints (fun _ => []) b with
  | inl err => (Plain (bad_request lib err), st)
  | inr p =>
      let (now, st1) := crud.time_Now st in
      let product := with_UpdatedAt now p in
      match crud.UpdateOne (has_id id) (set_product product) (crud.coll st1) with
      | None =>
          (Plain (error_response StatusInternalServerError "Failed to update product"), st1)
      | Some (_, _, c) =>
          (Plain (message_response StatusOK "Product updated successfully"),
           crud.with_coll st1 c)
      end
  end.

(** [deleteProduct]. *)
Definition deleteProduct (id : string) (st : State) : Result Product * State :=
  match crud.DeleteOne (has_id id) (crud.coll st) with
  | None => (Plain (error_response StatusNotFound "Product not found"), st)
  | Some (deleted, c) =>
      if Nat.eqb deleted 0
      then (Plain (error_response StatusNotFound "Product not found"), crud.with_coll st c)
      else (Plain (message_response StatusOK "Product deleted successfully"),
            crud.with_coll st c)
  end.

End Handlers.

End products.

Module ProductExamples.

Definition mug : products.Product :=
  {| products.ID := "mug"; products.Name := "Mug"; products.Description := "A blue mug";
     products.Price := 4622945017495814144%N; products.Category := "kitchen";
     products.Stock := 12; products.Rating := 4616189618054758400%N;
     products.Reviews := 3; products.ImageURL := "https://img.example/mug.png";
     products.CreatedAt := 0; products.UpdatedAt := 0 |}.

(** A request that changes the price and sends nothing else. *)
Definition price_only : products.Product :=
  {| products.ID := ""; products.Name := ""; products.Description := "";
     products.Price := 4623507967449235456%N; products.Category := "";
     products.Stock := 0; products.Rating := 0%N;
     products.Reviews := 0; products.ImageURL := "";
     products.CreatedAt := zero_time; products.UpdatedAt := zero_time |}.

Definition state0 : products.State :=
  {| crud.coll := {| crud.docs := []; crud.reachable := true |};
     crud.clock := 1700000000 * Second + 123456789;
     crud.ticks := [1000%N; 1000%N; 1000%N] |}.

Definition state1 : products.State :=
  snd (products.createProduct Reference.libs "eS?0000000040" (Json mug) state0).

End ProductExamples.

Module ShelfExamples.

(** Twenty products, keyed [A] to [T]. *)
Definition numbered (n : nat) : products.Document :=
  {| products._id := mongo.StringID (String (ascii_of_nat (65 + n)) "");
     products.name := "Mug"; products.description := "";
     products.price := 4622945017495814144%N; products.category := "kitchen";
     products.stock := Z.of_nat n; products.rating := 0%N; products.reviews := 0;
     products.image_url := "";
     products.created_at := 1600000000 * Second; products.updated_at := 1600000000 * Second |}.

Definition full_shelf : products.State :=
  {| crud.coll := {| crud.docs := List.map numbered (List.seq 0 20); crud.reachable := true |};
     crud.clock := 1700000000 * Second + 123456789;
     crud.ticks := [1000%N; 1000%N; 1000%N] |}.

End ShelfExamples.
(** * Properties *)

(** ** The verifier *)

Section VerifierFacts.
Variable lib : Libs.

Lemma GetSigningMethod_Alg (alg : string) (m : jwt.SigningMethod) :
  jwt.GetSigningMethod alg = Some m -> jwt.Alg m = alg.
Proof.
  unfold jwt.GetSigningMethod. intros H.
  apply List.find_some in H as [_ H]. by apply String.eqb_eq in H.
Qed.

(** What a successful [Parse] tells: three segments, a header that names an
    HMAC method, the MAC of the first two segments under the key, and claims
    the validator has no objection to. *)
Lemma Parse_inr (s key : string) (now : Time) (t : jwt.Token) :
  jwt.Parse lib s key now = inr t ->
  exists p0 p1 p2 hb cb h,
    split_dot s = [p0; p1; p2] /\
    DecodeSegment lib p0 = Some hb /\
    json_Unmarshal lib hb = Some (jwt.Header t) /\
    DecodeSegment lib p1 = Some cb /\
    json_Unmarshal lib cb = Some (jwt.Claims t) /\
    index (jwt.Header t) "alg" = JStr (jwt.Alg (jwt.SigningMethodHMAC h)) /\
    jwt.Method t = jwt.SigningMethodHMAC h /\
    DecodeSegment lib p2 = Some (jwt.Signature t) /\
    jwt.Signature t = hmacSum lib h key (p0 +:+ "." +:+ p1) /\
    jwt.Validate (jwt.Claims t) now = [].
Proof.
  unfold jwt.Parse, jwt.ParseUnverified. intros H.
  destruct (split_dot s) as [|p0 [|p1 [|p2 [|? ?]]]]; try discriminate.
  destruct (DecodeSegment lib p0) as [hb|] eqn:E0; try discriminate.
  destruct (json_Unmarshal lib hb) as [header|] eqn:E1; try discriminate.
  destruct (DecodeSegment lib p1) as [cb|] eqn:E2; try discriminate.
  destruct (json_Unmarshal lib cb) as [claims|] eqn:E3; try discriminate.
  destruct (index header "alg") as [| | |method|] eqn:E4; try discriminate.
  destruct (jwt.GetSigningMethod method) as [m|] eqn:E5; try discriminate.
  cbn [List.nth] in H.
  destruct (DecodeSegment lib p2) as [sig|] eqn:E6; try discriminate.
  destruct (jwt.Verify lib m (p0 +:+ "." +:+ p1) sig key) eqn:E7; try discriminate.
  destruct (jwt.Validate claims now) eqn:E8; try discriminate.
  injection H as <-. cbn [jwt.Header jwt.Claims jwt.Method jwt.Signature].
  apply GetSigningMethod_Alg in E5. subst method.
  destruct m as [h| | | | |]; cbn [jwt.Verify] in E7; try discriminate.
  destruct (String.eqb sig _) eqn:E9; try discriminate.
  apply String.eqb_eq in E9.
  exists p0, p1, p2, hb, cb, h. repeat split; auto.
Qed.

Lemma Validate_nil_exp (claims : JMap) (now : Time) (e : Z) :
  jwt.Validate claims now = [] ->
  claims !! "exp" = Some (JNum e) -> e <> 0 -> now < time_Unix e.
Proof.
  unfold jwt.Validate, jwt.verifyExpiresAt, jwt.parseNumericDate.
  intros H He Hz. rewrite He in H.
  destruct (Z.eqb_spec e 0) as [|_]; [done|].
  unfold Before in H. destruct (Z.ltb_spec now (time_Unix e)); [done|].
  discriminate.
Qed.

Lemma Validate_expired (claims : JMap) (now : Time) (e : Z) :
  claims !! "exp" = Some (JNum e) -> e <> 0 -> time_Unix e <= now ->
  jwt.ErrTokenExpired ∈ jwt.Validate claims now.
Proof.
  unfold jwt.Validate, jwt.verifyExpiresAt, jwt.parseNumericDate.
  intros He Hz Hle. rewrite He.
  destruct (Z.eqb_spec e 0) as [|_]; [done|].
  unfold Before. destruct (Z.ltb_spec now (time_Unix e)); [lia|].
  cbn. left.
Qed.

(** The outcome of [Parse] depends on the instant only through the
    validator. *)
Lemma Parse_other_time (s key : string) (now now' : Time) (t : jwt.Token) :
  jwt.Parse lib s key now' = inr t ->
  jwt.Parse lib s key now =
    match jwt.Validate (jwt.Claims t) now with
    | [] => inr t
    | errs => inl (jwt.ErrTokenInvalidClaims errs)
    end.
Proof.
  unfold jwt.Parse. intros H.
  destruct (jwt.ParseUnverified lib s) as [|[[[parts header] claims] m]]; [done|].
  destruct (DecodeSegment lib _); [|done].
  destruct (jwt.Verify lib m _ _ key); [done|].
  destruct (jwt.Validate claims now') eqn:E; [|done].
  injection H as <-. cbn. by destruct (jwt.Validate claims now).
Qed.

End VerifierFacts.

(** ** Issuing, then verifying *)

Lemma has_dot_false_split (a : string) :
  has_dot a = false -> split_dot a = [a].
Proof.
  induction a as [|c a IH]; cbn; [done|].
  destruct (Ascii.eqb c "."); [done|]. cbn. intros H. by rewrite (IH H).
Qed.

Lemma split_dot_app (a r : string) :
  has_dot a = false -> split_dot (a +:+ String "." r) = a :: split_dot r.
Proof.
  induction a as [|c a IH]; simpl.
  - done.
  - destruct (Ascii.eqb c "."); [done|]. simpl. intros H. by rewrite (IH H).
Qed.

Lemma split_dot_3 (a b c : string) :
  has_dot a = false -> has_dot b = false -> has_dot c = false ->
  split_dot ((a +:+ "." +:+ b) +:+ "." +:+ c) = [a; b; c].
Proof.
  intros Ha Hb Hc.
  replace ((a +:+ "." +:+ b) +:+ "." +:+ c)
    with (a +:+ String "." (b +:+ String "." c)).
  - rewrite (split_dot_app a _ Ha), (split_dot_app b _ Hb).
    by rewrite (has_dot_false_split c Hc).
  - clear. induction a as [|x a IH]; [reflexivity|].
    change (String x (a +:+ String "." (b +:+ String "." c)) =
            String x ((a +:+ "." +:+ b) +:+ "." +:+ c)).
    f_equal. exact IH.
Qed.

Section IssueVerify.
Variable lib : Libs.
Hypothesis laws : SegmentLaws lib.

Lemma GetSigningMethod_HMAC (h : Hash) :
  jwt.GetSigningMethod (jwt.Alg (jwt.SigningMethodHMAC h)) = Some (jwt.SigningMethodHMAC h).
Proof. by destruct h. Qed.

Lemma NewHeader_alg (m : jwt.SigningMethod) :
  index (jwt.NewHeader m) "alg" = JStr (jwt.Alg m).
Proof. unfold index, jwt.NewHeader. by simplify_map_eq. Qed.

(** A token signed with an HMAC method under [key] parses under [key], at
    every instant its claims are valid at. *)
Lemma Parse_SignedString (h : Hash) (claims : JMap) (key : string) (now : Time) :
  json_round_trip lib (jwt.NewHeader (jwt.SigningMethodHMAC h)) ->
  json_round_trip lib claims ->
  jwt.Validate claims now = [] ->
  jwt.Parse lib (jwt.SignedString lib h claims key) key now =
    inr {| jwt.Raw := jwt.SignedString lib h claims key;
           jwt.Method := jwt.SigningMethodHMAC h;
           jwt.Header := jwt.NewHeader (jwt.SigningMethodHMAC h);
           jwt.Claims := claims;
           jwt.Signature :=
             jwt.SignHMAC lib h
               (jwt.SigningString lib (jwt.NewHeader (jwt.SigningMethodHMAC h)) claims)
               key |}.
Proof.
  intros Hh Hc Hv. destruct laws as [DE ND].
  unfold jwt.Parse, jwt.ParseUnverified, jwt.SignedString, jwt.SigningString.
  rewrite split_dot_3 by apply ND.
  rewrite !DE, Hh, Hc, NewHeader_alg, GetSigningMethod_HMAC.
  cbn [List.nth]. rewrite DE. cbn [jwt.Verify].
  unfold jwt.SignHMAC. rewrite String.eqb_refl, Hv. reflexivity.
Qed.

End IssueVerify.

(** ** The reference instance obeys the laws *)

Lemma hex_char (c : ascii) :
  Reference.hex_value (Reference.hex_digit (N_of_ascii c / 16)) = Some (N_of_ascii c / 16)%N /\
  Reference.hex_value (Reference.hex_digit (N_of_ascii c mod 16)) = Some (N_of_ascii c mod 16)%N /\
  ascii_of_N (16 * (N_of_ascii c / 16) + N_of_ascii c mod 16) = c /\
  Ascii.eqb (Reference.hex_digit (N_of_ascii c / 16)) "." = false /\
  Ascii.eqb (Reference.hex_digit (N_of_ascii c mod 16)) "." = false.
Proof. destruct c as [[] [] [] [] [] [] [] []]; vm_compute; auto. Qed.

Lemma unhex_hex (s : string) : Reference.unhex (Reference.hex s) = Some s.
Proof.
  induction s as [|c s IH]; [reflexivity|].
  destruct (hex_char c) as (H1 & H2 & H3 & _).
  cbn [Reference.hex Reference.unhex]. by rewrite H1, H2, IH, H3.
Qed.

Lemma hex_no_dot (s : string) : has_dot (Reference.hex s) = false.
Proof.
  induction s as [|c s IH]; [reflexivity|].
  destruct (hex_char c) as (_ & _ & _ & H4 & H5).
  cbn [Reference.hex has_dot]. by rewrite H4, H5, IH.
Qed.

Lemma reference_laws : SegmentLaws Reference.libs.
Proof. split; [apply unhex_hex | apply hex_no_dot]. Qed.

Lemma bits_pos_bits (p : positive) : Reference.bits_pos (Reference.pos_bits p) = Some p.
Proof. induction p as [p IH|p IH|]; cbn; by rewrite ?IH. Qed.

Lemma reference_json (m : JMap) : json_round_trip Reference.libs m.
Proof.
  unfold json_round_trip. cbn. unfold Reference.unmarshal, Reference.marshal.
  rewrite bits_pos_bits. cbn. apply decode_encode.
Qed.

(** ** What the endpoints do with the verifier's verdict *)

Section Endpoints.
Variable lib : Libs.
Variable jwtSecret : string.

Lemma Parse_inr_declared (s : string) (now : Time) (t : jwt.Token) :
  jwt.Parse lib s jwtSecret now = inr t ->
  exists h, declared_alg lib s = Some (JStr (jwt.Alg (jwt.SigningMethodHMAC h))).
Proof.
  intros H. apply Parse_inr in H as (p0 & p1 & p2 & hb & cb & h & Hs & H0 & H1 & _ & _ & Ha & _).
  exists h. unfold declared_alg. by rewrite Hs, H0, H1, Ha.
Qed.

Lemma Parse_inr_claims (s : string) (now : Time) (t : jwt.Token) :
  jwt.Parse lib s jwtSecret now = inr t ->
  decoded_claims lib s = Some (jwt.Claims t).
Proof.
  intros H. apply Parse_inr in H as (p0 & p1 & p2 & hb & cb & h & Hs & _ & _ & H2 & H3 & _).
  unfold decoded_claims. by rewrite Hs, H2, H3.
Qed.

Lemma authMiddleware_rejects (authHeader s : string) (w : World) (e : jwt.ParseError) :
  authHeader <> "" -> slice_from 7 authHeader = Some s ->
  jwt.Parse lib s jwtSecret (clock w) = inl e ->
  fst (authMiddleware lib jwtSecret authHeader w) =
    Aborted (error_response StatusUnauthorized "Invalid token").
Proof.
  intros Hne Hs Hp. unfold authMiddleware.
  destruct (String.eqb_spec authHeader "") as [|_]; [done|].
  rewrite Hs. unfold parse_token. cbn. by rewrite Hp.
Qed.

Lemma refreshToken_rejects (s : string) (w : World) (e : jwt.ParseError) :
  s <> "" ->
  jwt.Parse lib s jwtSecret (clock w) = inl e ->
  fst (refreshToken lib jwtSecret (Json {| RefreshToken := s |}) w) =
    Reply (error_response StatusUnauthorized "Invalid refresh token").
Proof.
  intros Hne Hp. unfold refreshToken, ShouldBindJSON, RefreshRequest_failed.
  cbn. unfold required. destruct (String.eqb_spec s "") as [|_]; [done|].
  cbn. unfold parse_token. cbn. by rewrite Hp.
Qed.

Lemma authMiddleware_passes (authHeader s : string) (w : World) (t : jwt.Token) :
  authHeader <> "" -> slice_from 7 authHeader = Some s ->
  jwt.Parse lib s jwtSecret (clock w) = inr t ->
  fst (authMiddleware lib jwtSecret authHeader w) =
    Next (<["role" := index (jwt.Claims t) "role"]>
         (<["email" := index (jwt.Claims t) "email"]>
         (<["user_id" := index (jwt.Claims t) "sub"]> ∅))).
Proof.
  intros Hne Hs Hp. unfold authMiddleware.
  destruct (String.eqb_spec authHeader "") as [|_]; [done|].
  rewrite Hs. unfold parse_token. cbn. by rewrite Hp.
Qed.

End Endpoints.

(** ** The pinned algorithm *)

(** C1, as stated, fails: a token whose header declares HS384, signed with
    HMAC-SHA384 under the secret, passes the gate and is exchanged for a new
    pair by the refresh endpoint, although the issuer signs with HS256
    only. *)
Lemma C1_hs384_accepted :
  declared_alg Reference.libs Reference.hs384_token = Some (JStr "HS384") /\
  jwt.Alg jwt.SigningMethodHS256 = "HS256" /\
  passed (fst (authMiddleware Reference.libs Reference.secret
                 ("Bearer " +:+ Reference.hs384_token) Reference.world0)) = true /\
  reply_status (fst (refreshToken Reference.libs Reference.secret
                       (Json {| RefreshToken := Reference.hs384_token |})
                       Reference.world0)) = Some StatusOK.
Proof. vm_compute. auto. Qed.

(** C1, amended: the verifier accepts the HMAC family and nothing else. A
    token whose header does not declare HS256, HS384 or HS512 (so also one
    that declares "none", an asymmetric method, an unknown name, or no
    method) is refused by [Parse] at every instant, the gate aborts with 401
    and the refresh endpoint answers 401. *)
Theorem C1_only_hmac_family_accepted
  (lib : Libs) (jwtSecret s : string) (w : World) :
  (forall h, declared_alg lib s <> Some (JStr (jwt.Alg (jwt.SigningMethodHMAC h)))) ->
  (forall now, exists e, jwt.Parse lib s jwtSecret now = inl e) /\
  (forall authHeader, authHeader <> "" -> slice_from 7 authHeader = Some s ->
     fst (authMiddleware lib jwtSecret authHeader w) =
       Aborted (error_response StatusUnauthorized "Invalid token")) /\
  (s <> "" ->
     fst (refreshToken lib jwtSecret (Json {| RefreshToken := s |}) w) =
       Reply (error_response StatusUnauthorized "Invalid refresh token")).
Proof.
  intros Hd.
  assert (Hrej : forall now, exists e, jwt.Parse lib s jwtSecret now = inl e).
  { intros now. destruct (jwt.Parse lib s jwtSecret now) as [e|t] eqn:E; [by exists e|].
    apply Parse_inr_declared in E as [h E]. by destruct (Hd h). }
  split; [exact Hrej|]. split.
  - intros authHeader Hne Hs. destruct (Hrej (clock w)) as [e He].
    by apply (authMiddleware_rejects lib jwtSecret authHeader s w e).
  - intros Hne. destruct (Hrej (clock w)) as [e He].
    by apply (refreshToken_rejects lib jwtSecret s w e).
Qed.

Lemma C1_only_hmac_family_accepted_witness :
  (forall h, declared_alg Reference.libs Reference.none_token <>
             Some (JStr (jwt.Alg (jwt.SigningMethodHMAC h)))) /\
  fst (authMiddleware Reference.libs Reference.secret
         ("Bearer " +:+ Reference.none_token) Reference.world0) =
    Aborted (error_response StatusUnauthorized "Invalid token").
Proof.
  assert (Hd : forall h, declared_alg Reference.libs Reference.none_token <>
                         Some (JStr (jwt.Alg (jwt.SigningMethodHMAC h)))).
  { intros h. destruct h; vm_compute; discriminate. }
  split; [exact Hd|].
  apply (C1_only_hmac_family_accepted Reference.libs Reference.secret
           Reference.none_token Reference.world0 Hd).
  - vm_compute. discriminate.
  - reflexivity.
Defined.

(** ** Expiry *)

(** C4, as stated, fails: a token whose [exp] claim is 0 is accepted long
    after the instant 0, because the validator reads a zero [exp] as "no
    expiry". *)
Lemma C4_zero_exp_accepted :
  (decoded_claims Reference.libs Reference.zero_exp_token ≫= (.!! "exp")) = Some (JNum 0) /\
  time_Unix 0 <= clock Reference.world0 /\
  passed (fst (authMiddleware Reference.libs Reference.secret
                 ("Bearer " +:+ Reference.zero_exp_token) Reference.world0)) = true.
Proof. vm_compute. split; [reflexivity|]. split; [discriminate|reflexivity]. Qed.

(** C4, amended: for a token whose [exp] claim is a number other than 0,
    [Parse] succeeds only at instants strictly before [exp]; at [exp] and
    after it, a token that is otherwise in order is refused with
    [ErrTokenExpired] among the validator's errors, and both endpoints
    answer 401. *)
Theorem C4_expiry_is_strict
  (lib : Libs) (jwtSecret s : string) (claims : JMap) (e : Z) (w : World) :
  decoded_claims lib s = Some claims ->
  claims !! "exp" = Some (JNum e) ->
  e <> 0 ->
  (forall now t, jwt.Parse lib s jwtSecret now = inr t -> now < time_Unix e) /\
  (forall now now' t,
     time_Unix e <= now -> jwt.Parse lib s jwtSecret now' = inr t ->
     exists errs, jwt.Parse lib s jwtSecret now = inl (jwt.ErrTokenInvalidClaims errs) /\
                  jwt.ErrTokenExpired ∈ errs) /\
  (time_Unix e <= clock w ->
     (forall authHeader, authHeader <> "" -> slice_from 7 authHeader = Some s ->
        fst (authMiddleware lib jwtSecret authHeader w) =
          Aborted (error_response StatusUnauthorized "Invalid token")) /\
     (s <> "" ->
        fst (refreshToken lib jwtSecret (Json {| RefreshToken := s |}) w) =
          Reply (error_response StatusUnauthorized "Invalid refresh token"))).
Proof.
  intros Hc He Hz.
  assert (Hstrict : forall now t, jwt.Parse lib s jwtSecret now = inr t -> now < time_Unix e).
  { intros now t Hp. pose proof (Parse_inr_claims lib jwtSecret s now t Hp) as Hc'.
    rewrite Hc in Hc'. injection Hc' as ->.
    apply Parse_inr in Hp as (? & ? & ? & ? & ? & ? & _ & _ & _ & _ & _ & _ & _ & _ & _ & Hv).
    by apply (Validate_nil_exp (jwt.Claims t) now e). }
  split; [exact Hstrict|]. split.
  - intros now now' t Hle Hp.
    pose proof (Parse_inr_claims lib jwtSecret s now' t Hp) as Hc'.
    rewrite Hc in Hc'. injection Hc' as ->.
    rewrite (Parse_other_time lib s jwtSecret now now' t Hp).
    pose proof (Validate_expired (jwt.Claims t) now e He Hz Hle) as Hin.
    destruct (jwt.Validate (jwt.Claims t) now) as [|x l]; [by apply elem_of_nil in Hin|].
    by exists (x :: l).
  - intros Hle.
    assert (Hrej : exists err, jwt.Parse lib s jwtSecret (clock w) = inl err).
    { destruct (jwt.Parse lib s jwtSecret (clock w)) as [err|t] eqn:E; [by exists err|].
      apply Hstrict in E. lia. }
    destruct Hrej as [err Hrej]. split.
    + intros authHeader Hne Hs. by apply (authMiddleware_rejects lib jwtSecret authHeader s w err).
    + intros Hne. by apply (refreshToken_rejects lib jwtSecret s w err).
Qed.

Lemma C4_expiry_is_strict_witness :
  decoded_claims Reference.libs Reference.boundary_token =
    Some (token_claims "65539f0a" "eve@x.com" "customer" 1700000000 1699999100) /\
  time_Unix 1700000000 = clock Reference.world0 /\
  fst (authMiddleware Reference.libs Reference.secret
         ("Bearer " +:+ Reference.boundary_token) Reference.world0) =
    Aborted (error_response StatusUnauthorized "Invalid token").
Proof.
  assert (Hc : decoded_claims Reference.libs Reference.boundary_token =
    Some (token_claims "65539f0a" "eve@x.com" "customer" 1700000000 1699999100)).
  { vm_compute. reflexivity. }
  split; [exact Hc|]. split; [reflexivity|].
  refine (proj1 (proj2 (proj2 (C4_expiry_is_strict Reference.libs Reference.secret
           Reference.boundary_token _ 1700000000 Reference.world0 Hc _ _)) _) _ _ _).
  - vm_compute. reflexivity.
  - discriminate.
  - vm_compute. discriminate.
  - vm_compute. discriminate.
  - reflexivity.
Defined.

(** ** Where a handler panics *)

Section Panics.
Variable lib : Libs.
Variable jwtSecret : string.

(** A verified token without a string [sub] claim unwinds [refreshToken]
    at the first type assertion. *)
Lemma refreshToken_unchecked_assertion (s : string) (w : World) (t : jwt.Token) :
  s <> "" ->
  jwt.Parse lib s jwtSecret (clock w) = inr t ->
  assert_string (index (jwt.Claims t) "sub") = None ->
  fst (refreshToken lib jwtSecret (Json {| RefreshToken := s |}) w) =
    Panicked "interface conversion: interface {} is not string".
Proof.
  intros Hne Hp Hsub. unfold refreshToken, ShouldBindJSON, RefreshRequest_failed.
  cbn. unfold required. destruct (String.eqb_spec s "") as [|_]; [done|].
  cbn. unfold parse_token. cbn. by rewrite Hp, Hsub.
Qed.

(** A non-empty header shorter than seven bytes unwinds the gate at the
    slice expression, before any token is parsed. *)
Lemma authMiddleware_short_header (authHeader : string) (w : World) :
  authHeader <> "" -> (String.length authHeader < 7)%nat ->
  authMiddleware lib jwtSecret authHeader w =
    (GatePanicked "slice bounds out of range", w).
Proof.
  intros Hne Hlen. unfold authMiddleware.
  destruct (String.eqb_spec authHeader "") as [|_]; [done|].
  do 7 (destruct authHeader as [|? authHeader]; [reflexivity|]).
  cbn in Hlen. lia.
Qed.

End Panics.

(** C3 fails on the code: for a refresh token that passes signature and
    expiry verification but has no string-valued sub, email or role claim,
    [refreshToken] does not answer 401; a type assertion panics, and the
    recovery middleware turns that into a 500. *)
Theorem C3_refresh_unchecked_claims_panic
  (lib : Libs) (jwtSecret s : string) (w : World) (t : jwt.Token) :
  s <> "" ->
  jwt.Parse lib s jwtSecret (clock w) = inr t ->
  assert_string (index (jwt.Claims t) "sub") = None \/
  assert_string (index (jwt.Claims t) "email") = None \/
  assert_string (index (jwt.Claims t) "role") = None ->
  fst (refreshToken lib jwtSecret (Json {| RefreshToken := s |}) w) =
    Panicked "interface conversion: interface {} is not string" /\
  Recovery (fst (refreshToken lib jwtSecret (Json {| RefreshToken := s |}) w)) =
    {| status := StatusInternalServerError; body := [] |}.
Proof.
  intros Hne Hp Hmiss.
  assert (H : fst (refreshToken lib jwtSecret (Json {| RefreshToken := s |}) w) =
              Panicked "interface conversion: interface {} is not string").
  { unfold refreshToken, ShouldBindJSON, RefreshRequest_failed.
    cbn. unfold required. destruct (String.eqb_spec s "") as [|_]; [done|].
    cbn. unfold parse_token. cbn. rewrite Hp.
    destruct (assert_string (index (jwt.Claims t) "sub")); [|done].
    destruct (assert_string (index (jwt.Claims t) "email")); [|done].
    destruct (assert_string (index (jwt.Claims t) "role")); [|done].
    by destruct Hmiss as [?|[?|?]]. }
  by rewrite H.
Qed.

Lemma C3_refresh_unchecked_claims_panic_witness :
  (decoded_claims Reference.libs Reference.no_sub_token ≫= (.!! "sub")) = None /\
  fst (refreshToken Reference.libs Reference.secret
         (Json {| RefreshToken := Reference.no_sub_token |}) Reference.world0) =
    Panicked "interface conversion: interface {} is not string".
Proof.
  split; [vm_compute; reflexivity|].
  destruct (jwt.Parse Reference.libs Reference.no_sub_token Reference.secret
              (clock Reference.world0)) as [e|t] eqn:E.
  - vm_compute in E. discriminate.
  - refine (proj1 (C3_refresh_unchecked_claims_panic Reference.libs Reference.secret
                     Reference.no_sub_token Reference.world0 t _ E _)).
    + vm_compute. discriminate.
    + left. vm_compute in E. injection E as <-. vm_compute. reflexivity.
Defined.

(** C10 fails on the code: for a non-empty Authorization header shorter than
    the seven bytes it strips (for instance [Bearer], with no space and no
    token) the gate neither answers 401 nor calls the next handler; it
    panics at the slice expression, whatever the primitives, the secret and
    the state are, and the route answers 500 through the recovery
    middleware. *)
Theorem C10_short_header_panics
  (lib : Libs) (jwtSecret authHeader : string) (w : World) :
  authHeader <> "" -> (String.length authHeader < 7)%nat ->
  authMiddleware lib jwtSecret authHeader w =
    (GatePanicked "slice bounds out of range", w) /\
  GET_profile lib jwtSecret authHeader w = (Panicked "slice bounds out of range", w) /\
  Recovery (fst (GET_profile lib jwtSecret authHeader w)) =
    {| status := StatusInternalServerError; body := [] |}.
Proof.
  intros Hne Hlen.
  pose proof (authMiddleware_short_header lib jwtSecret authHeader w Hne Hlen) as H.
  unfold GET_profile, gated. by rewrite H.
Qed.

Lemma C10_short_header_panics_witness :
  authMiddleware Reference.libs Reference.secret "Bearer" Reference.world0 =
    (GatePanicked "slice bounds out of range", Reference.world0).
Proof.
  refine (proj1 (C10_short_header_panics Reference.libs Reference.secret "Bearer"
                   Reference.world0 _ _)).
  - discriminate.
  - cbn. lia.
Defined.

(** ** Updating a profile *)

Lemma update_first_unmatched (n userID : string) (l : list mongo.Document) :
  List.find (fun x => bool_decide (mongo._id x = mongo.StringID userID)) l = None ->
  mongo.update_first n userID l = (O, l).
Proof.
  induction l as [|x l IH]; cbn; [done|].
  destruct (bool_decide (mongo._id x = mongo.StringID userID)); [done|].
  intros H. by rewrite (IH H).
Qed.

(** When no document has the string [user_id] as its key, [updateProfile]
    reports success and leaves the collection as it was. *)
Lemma updateProfile_unmatched (lib : Libs) (keys : JMap) (req : UpdateRequest) (w : World) :
  mongo.reachable (db w) = true ->
  mongo.FindOneByID (GetString keys "user_id") (db w) = None ->
  updateProfile lib keys (Json req) w =
    (Reply (message_response StatusOK "Profile updated successfully"), w).
Proof.
  unfold updateProfile, mongo.UpdateOneName, mongo.FindOneByID. cbn.
  intros -> Hf. rewrite (update_first_unmatched _ _ _ Hf).
  destruct w as [[us eu r] c tk]; reflexivity.
Qed.

(** An account as [register] stores it is keyed by an ObjectID, which the
    string filter of the profile handlers does not match. *)
Lemma FindOneByID_ObjectID (userID : string) (d : mongo.Database) :
  (forall x, x ∈ mongo.users d -> exists b, mongo._id x = mongo.ObjectID b) ->
  mongo.FindOneByID userID d = None.
Proof.
  unfold mongo.FindOneByID. intros H. destruct (mongo.reachable d); [|done].
  induction (mongo.users d) as [|x l IH]; cbn; [done|].
  destruct (H x) as [b Hb]; [left|]. rewrite Hb.
  rewrite bool_decide_eq_false_2 by discriminate.
  apply IH. intros y Hy. apply H. by right.
Qed.

(** C5 fails on the code: when the identifier the gate passes on resolves
    to no account, [updateProfile] (store reachable) answers 200 "Profile
    updated successfully", not 404, and the collection is what it was. *)
Theorem C5_update_unknown_account_succeeds
  (lib : Libs) (keys : JMap) (req : UpdateRequest) (w : World) :
  mongo.reachable (db w) = true ->
  mongo.FindOneByID (GetString keys "user_id") (db w) = None ->
  updateProfile lib keys (Json req) w =
    (Reply (message_response StatusOK "Profile updated successfully"), w) /\
  fst (getProfile lib keys w) = Reply (error_response StatusNotFound "User not found").
Proof.
  intros Hr Hf. split; [by apply updateProfile_unmatched|].
  unfold getProfile. by rewrite Hf.
Qed.

Lemma C5_update_unknown_account_succeeds_witness :
  updateProfile Reference.libs (<["user_id" := JStr "no-such-account"]> ∅)
    (Json {| upd_Name := "X" |}) Reference.world1 =
    (Reply (message_response StatusOK "Profile updated successfully"), Reference.world1).
Proof.
  refine (proj1 (C5_update_unknown_account_succeeds Reference.libs
                   (<["user_id" := JStr "no-such-account"]> ∅)
                   {| upd_Name := "X" |} Reference.world1 _ _)).
  - reflexivity.
  - vm_compute. reflexivity.
Defined.

(** ** Login failures *)

Lemma FindOneByEmail_absent (e : string) (d : mongo.Database) :
  e ∉ mongo.emails d -> mongo.FindOneByEmail e d = None.
Proof.
  unfold mongo.FindOneByEmail, mongo.emails. intros H.
  destruct (mongo.reachable d); [|done].
  induction (mongo.users d) as [|x l IH]; cbn; [done|].
  destruct (String.eqb_spec (mongo.email x) e) as [<-|_].
  - destruct H. cbn. left.
  - apply IH. intros Hin. apply H. cbn. by right.
Qed.

(** C2: a login that fails on the password of an existing account and a
    login that fails because no account has the e-mail produce the same
    outcome: status 401, body [{"error": "Invalid credentials"}], and an
    unchanged state. Both requests pass the binding rules of
    [LoginRequest]. *)
Theorem C2_login_failures_indistinguishable
  (lib : Libs) (jwtSecret : string) (w : World)
  (r1 r2 : LoginRequest) (doc : mongo.Document) :
  LoginRequest_failed lib r1 = [] ->
  LoginRequest_failed lib r2 = [] ->
  mongo.FindOneByEmail (login_Email r1) (db w) = Some doc ->
  CompareHashAndPassword lib (mongo.password doc) (login_Password r1) = false ->
  login_Email r2 ∉ mongo.emails (db w) ->
  login lib jwtSecret (Json r1) w = login lib jwtSecret (Json r2) w /\
  login lib jwtSecret (Json r1) w =
    (Reply (error_response StatusUnauthorized "Invalid credentials"), w).
Proof.
  intros V1 V2 Hf Hc Ha.
  assert (H2 : login lib jwtSecret (Json r2) w =
               (Reply (error_response StatusUnauthorized "Invalid credentials"), w)).
  { unfold login, ShouldBindJSON. rewrite V2.
    by rewrite (FindOneByEmail_absent _ _ Ha). }
  assert (H1 : login lib jwtSecret (Json r1) w =
               (Reply (error_response StatusUnauthorized "Invalid credentials"), w)).
  { unfold login, ShouldBindJSON. rewrite V1, Hf. cbn [mongo.Decode Password].
    by rewrite Hc. }
  split; [by rewrite H1, H2 | exact H1].
Qed.

Lemma C2_login_failures_indistinguishable_witness :
  login Reference.libs Reference.secret
    (Json {| login_Email := "a@x.com"; login_Password := "wrongpass" |}) Reference.world1 =
  login Reference.libs Reference.secret
    (Json {| login_Email := "nouser@x.com"; login_Password := "whatever" |}) Reference.world1.
Proof.
  refine (proj1 (C2_login_failures_indistinguishable Reference.libs Reference.secret
                   Reference.world1
                   {| login_Email := "a@x.com"; login_Password := "wrongpass" |}
                   {| login_Email := "nouser@x.com"; login_Password := "whatever" |}
                   Reference.ann_doc _ _ _ _ _)).
  - reflexivity.
  - reflexivity.
  - vm_compute. reflexivity.
  - vm_compute. reflexivity.
  - vm_compute. intros H. inversion H as [|? ? ? H']; subst. inversion H'.
Defined.

(** ** Registration and the unique index *)

Lemma existsb_email (e : string) (l : list mongo.Document) :
  existsb (fun x => String.eqb (mongo.email x) e) l = true <-> e ∈ List.map mongo.email l.
Proof.
  induction l as [|x l IH]; cbn.
  - split; [discriminate | intros H; by apply elem_of_nil in H].
  - rewrite orb_true_iff, IH, elem_of_cons.
    destruct (String.eqb_spec (mongo.email x) e) as [Heq|Hne].
    + split; intros _; by left.
    + split; (intros [H|H]; [|by right]); [discriminate | by destruct Hne].
Qed.

Lemma existsb_id (i : mongo.DocID) (l : list mongo.Document) :
  (forall x, x ∈ l -> mongo._id x <> i) ->
  existsb (fun x => bool_decide (mongo._id x = i)) l = false.
Proof.
  induction l as [|x l IH]; cbn; [done|]. intros H.
  rewrite bool_decide_eq_false_2 by (apply H; left).
  apply IH. intros y Hy. apply H. by right.
Qed.

(** The unique index refuses a second document with an e-mail already
    present. *)
Lemma InsertOne_duplicate (oid : string) (u : User) (d : mongo.Database) :
  mongo.email_unique d = true -> Email u ∈ mongo.emails d ->
  mongo.InsertOne oid u d = None.
Proof.
  intros Hu Hin. unfold mongo.InsertOne.
  destruct (negb (mongo.reachable d)); [done|].
  destruct (existsb _ (mongo.users d)); [done|].
  rewrite Hu. cbn [andb mongo.toDocument mongo.email].
  apply existsb_email in Hin. by rewrite Hin.
Qed.

Lemma InsertOne_fresh (oid : string) (u : User) (d : mongo.Database) :
  mongo.reachable d = true ->
  (forall x, x ∈ mongo.users d -> mongo._id x <> mongo._id (mongo.toDocument oid u)) ->
  Email u ∉ mongo.emails d ->
  mongo.InsertOne oid u d =
    Some (mongo._id (mongo.toDocument oid u),
          mongo.with_users d (mongo.users d ++ [mongo.toDocument oid u])%list).
Proof.
  intros Hr Hid He. unfold mongo.InsertOne. rewrite Hr. cbn [negb].
  rewrite (existsb_id _ _ Hid).
  destruct (existsb (fun x => String.eqb (mongo.email x) _) (mongo.users d)) eqn:E.
  - apply existsb_email in E. by destruct He.
  - by rewrite andb_false_r.
Qed.

(** [createIndexes] establishes the invariant whenever the index could be
    built. *)
Lemma createIndexes_emails_unique (d : mongo.Database) :
  mongo.email_unique (createIndexes d) = true ->
  mongo.email_unique d = false ->
  emails_unique (createIndexes d).
Proof.
  unfold createIndexes, mongo.CreateUniqueEmailIndex, emails_unique.
  destruct (mongo.reachable d && bool_decide (NoDup (mongo.emails d))) eqn:E; cbn.
  - intros _ _. apply andb_true_iff in E as [_ E]. by apply bool_decide_eq_true in E.
  - congruence.
Qed.

(** C6: with the unique index in place, a registration (valid request,
    password hashed) whose e-mail is already present answers 409 and leaves
    the collection as it was; one whose e-mail is new answers 201 and appends
    exactly one document, that of the new account; the invariant holds
    again afterwards. *)
Theorem C6_email_uniqueness
  (lib : Libs) (salt oid hashed : string) (req : RegisterRequest) (w : World) :
  RegisterRequest_failed lib req = [] ->
  GenerateFromPassword lib (reg_Password req) salt = Some hashed ->
  emails_unique (db w) ->
  (reg_Email req ∈ mongo.emails (db w) ->
     fst (register lib salt oid (Json req) w) =
       Reply (error_response StatusConflict "Email already exists") /\
     db (snd (register lib salt oid (Json req) w)) = db w) /\
  (reg_Email req ∉ mongo.emails (db w) ->
   mongo.reachable (db w) = true ->
   (forall x, x ∈ mongo.users (db w) -> mongo._id x <> mongo.ObjectID oid) ->
     fst (register lib salt oid (Json req) w) =
       Reply {| status := StatusCreated;
                body := [("message", JStr "User registered successfully");
                         ("user_id", JStr (Hex lib oid))] |} /\
     mongo.users (db (snd (register lib salt oid (Json req) w))) =
       (mongo.users (db w) ++ [registered_document oid hashed req w])%list /\
     emails_unique (db (snd (register lib salt oid (Json req) w)))).
Proof.
  intros Hv Hh [Hu Hn]. unfold register, ShouldBindJSON. rewrite Hv, Hh.
  cbn [time_Now db]. split.
  - intros Hin. by rewrite InsertOne_duplicate.
  - intros Hout Hr Hid. rewrite InsertOne_fresh; [|done|done|done].
    cbn. repeat split; [done|].
    unfold mongo.emails. cbn. rewrite List.map_app. cbn.
    apply list.NoDup_app. repeat split; [done| |apply NoDup_singleton].
    intros e He Hin. apply list_elem_of_singleton in Hin. by subst.
Qed.

Lemma C6_email_uniqueness_witness :
  fst (register Reference.libs "NaCl" Reference.ann_oid (Json Reference.ann) Reference.world0) =
    Reply {| status := StatusCreated;
             body := [("message", JStr "User registered successfully");
                      ("user_id", JStr (Reference.hex Reference.ann_oid))] |} /\
  fst (register Reference.libs "KCl" "eS?0000000002" (Json Reference.bob) Reference.world1) =
    Reply (error_response StatusConflict "Email already exists") /\
  db (snd (register Reference.libs "KCl" "eS?0000000002" (Json Reference.bob) Reference.world1)) =
    db Reference.world1.
Proof.
  split.
  - refine (proj1 (proj2 (C6_email_uniqueness Reference.libs "NaCl" Reference.ann_oid
             (default "" (Reference.generate "secret123" "NaCl"))
             Reference.ann Reference.world0 _ _ _) _ _ _)).
    + reflexivity.
    + reflexivity.
    + split; [reflexivity | apply NoDup_nil_2].
    + vm_compute. intros H. inversion H.
    + reflexivity.
    + intros x H. vm_compute in H. inversion H.
  - refine (proj1 (C6_email_uniqueness Reference.libs "KCl" "eS?0000000002"
             (default "" (Reference.generate "other1234" "KCl"))
             Reference.bob Reference.world1 _ _ _) _).
    + reflexivity.
    + reflexivity.
    + split; [reflexivity | vm_compute; apply NoDup_singleton].
    + vm_compute. left.
Defined.

(** ** The profile response *)



(** ** Issuance through verification *)

Lemma token_claims_lookup (userID email role : string) (exp iat : Z) :
  let c := token_claims userID email role exp iat in
  c !! "sub" = Some (JStr userID) /\ c !! "email" = Some (JStr email) /\
  c !! "role" = Some (JStr role) /\ c !! "exp" = Some (JNum exp) /\
  c !! "iat" = Some (JNum iat) /\ c !! "nbf" = None.
Proof. unfold token_claims. cbn zeta. repeat split; by simplify_map_eq. Qed.

Lemma Validate_token_claims (userID email role : string) (exp iat : Z) (now : Time) :
  now < time_Unix exp ->
  jwt.Validate (token_claims userID email role exp iat) now = [].
Proof.
  intros Hlt. destruct (token_claims_lookup userID email role exp iat)
    as (_ & _ & _ & He & _ & Hn).
  unfold jwt.Validate, jwt.verifyExpiresAt, jwt.verifyNotBefore, jwt.parseNumericDate.
  rewrite He, Hn. destruct (Z.eqb exp 0); [done|].
  unfold Before. by destruct (Z.ltb_spec now (time_Unix exp)); [|lia].
Qed.

Lemma generateTokens_access (lib : Libs) (jwtSecret userID email role : string) (w : World) :
  access_token (generateTokens lib jwtSecret userID email role w) =
    jwt.SignedString lib SHA256
      (token_claims userID email role (issued_exp w) (issued_iat w)) jwtSecret /\
  snd (fst (generateTokens lib jwtSecret userID email role w)) = issued_exp w.
Proof. split; reflexivity. Qed.

Lemma clock_monotone (w : World) : clock w <= third_reading w.
Proof. unfold third_reading, time_Now. cbn. lia. Qed.

(** The lifetime written into the token: fifteen minutes, less the whole
    seconds that pass between the first and the third reading of the
    clock. *)
Lemma issued_lifetime (w : World) :
  issued_exp w - issued_iat w = 900 - (Unix (third_reading w) - Unix (clock w)) /\
  900 - ((third_reading w - clock w) / Second + 1) <= issued_exp w - issued_iat w <= 900.
Proof.
  pose proof (clock_monotone w) as Hm.
  unfold issued_exp, issued_iat, Unix, Add, Minute, Second in *.
  generalize dependent (third_reading w). intros t3 Hm.
  Z.div_mod_to_equations. lia.
Qed.

(** C7: the access token [generateTokens] issues for (id, email, role)
    verifies, at every instant before its expiry, to claims with that sub,
    email and role; its exp and iat differ by fifteen minutes less the whole
    seconds the clock advanced while the token was being built (so by
    exactly 900 when both readings fall in one second), and the gate passes
    those three values on. *)
Theorem C7_issue_then_verify
  (lib : Libs) (jwtSecret userID email role : string) (w w2 : World) :
  SegmentLaws lib ->
  json_round_trip lib (jwt.NewHeader jwt.SigningMethodHS256) ->
  json_round_trip lib (token_claims userID email role (issued_exp w) (issued_iat w)) ->
  clock w2 < time_Unix (issued_exp w) ->
  exists t,
    jwt.Parse lib (access_token (generateTokens lib jwtSecret userID email role w))
      jwtSecret (clock w2) = inr t /\
    jwt.Claims t = token_claims userID email role (issued_exp w) (issued_iat w) /\
    index (jwt.Claims t) "sub" = JStr userID /\
    index (jwt.Claims t) "email" = JStr email /\
    index (jwt.Claims t) "role" = JStr role /\
    index (jwt.Claims t) "exp" = JNum (issued_exp w) /\
    index (jwt.Claims t) "iat" = JNum (issued_iat w) /\
    issued_exp w - issued_iat w = 900 - (Unix (third_reading w) - Unix (clock w)) /\
    900 - ((third_reading w - clock w) / Second + 1) <= issued_exp w - issued_iat w <= 900 /\
    fst (authMiddleware lib jwtSecret
           ("Bearer " +:+ access_token (generateTokens lib jwtSecret userID email role w)) w2) =
      Next (<["role" := JStr role]> (<["email" := JStr email]>
           (<["user_id" := JStr userID]> ∅))).
Proof.
  intros laws Hh Hc Hlt.
  destruct (generateTokens_access lib jwtSecret userID email role w) as [-> _].
  pose proof (Parse_SignedString lib laws SHA256 _ jwtSecret (clock w2) Hh Hc
                (Validate_token_claims _ _ _ _ _ _ Hlt)) as Hp.
  destruct (token_claims_lookup userID email role (issued_exp w) (issued_iat w))
    as (Hs & He & Hr & Hx & Hi & _).
  eexists. split; [exact Hp|]. cbn [jwt.Claims]. unfold index.
  rewrite Hs, He, Hr, Hx, Hi. cbn [default].
  destruct (issued_lifetime w) as [Heq Hb].
  repeat split; try done; try lia.
  erewrite authMiddleware_passes; [|discriminate|reflexivity|exact Hp].
  cbn [jwt.Claims]. unfold index. by rewrite Hs, He, Hr.
Qed.

Lemma C7_issue_then_verify_witness :
  exists t,
    jwt.Parse Reference.libs
      (access_token (generateTokens Reference.libs Reference.secret
                       "65539f0a" "a@x.com" "customer" Reference.world0))
      Reference.secret (clock Reference.world0) = inr t /\
    index (jwt.Claims t) "sub" = JStr "65539f0a" /\
    index (jwt.Claims t) "exp" = JNum 1700000900 /\
    index (jwt.Claims t) "iat" = JNum 1700000000.
Proof.
  destruct (C7_issue_then_verify Reference.libs Reference.secret
              "65539f0a" "a@x.com" "customer" Reference.world0 Reference.world0
              reference_laws (reference_json _) (reference_json _))
    as (t & Hp & _ & Hs & _ & _ & Hx & Hi & _).
  - vm_compute. reflexivity.
  - exists t. repeat split; assumption.
Defined.

(** ** Registering, then logging in *)




Lemma login_success
  (lib : Libs) (jwtSecret : string) (r : LoginRequest) (doc : mongo.Document) (w : World) :
  LoginRequest_failed lib r = [] ->
  mongo.FindOneByEmail (login_Email r) (db w) = Some doc ->
  CompareHashAndPassword lib (mongo.password doc) (login_Password r) = true ->
  fst (login lib jwtSecret (Json r) w) =
    Reply (TokenResponse
             (access_token (generateTokens lib jwtSecret (ID (mongo.Decode lib doc))
                              (mongo.email doc) (mongo.role doc) w))
             (snd (fst (fst (generateTokens lib jwtSecret (ID (mongo.Decode lib doc))
                                (mongo.email doc) (mongo.role doc) w))))
             (snd (fst (generateTokens lib jwtSecret (ID (mongo.Decode lib doc))
                          (mongo.email doc) (mongo.role doc) w)))).
Proof.
  intros Hv Hf Hc. unfold login, ShouldBindJSON. rewrite Hv, Hf.
  cbn [mongo.Decode Password Email Role]. rewrite Hc.
  by destruct (generateTokens _ _ _ _ _ _) as [[[a r'] e] w'].
Qed.



(** ** Further properties of the handlers *)

(** Every document [register] stores is keyed by an ObjectID. *)
Lemma register_keeps_ObjectIDs
  (lib : Libs) (salt oid : string) (b : Body RegisterRequest) (w : World) :
  (forall x, x ∈ mongo.users (db w) -> exists i, mongo._id x = mongo.ObjectID i) ->
  forall x, x ∈ mongo.users (db (snd (register lib salt oid b w))) ->
            exists i, mongo._id x = mongo.ObjectID i.
Proof.
  intros H x. unfold register.
  destruct (ShouldBindJSON _ b) as [e|req]; [apply H|].
  destruct (GenerateFromPassword lib _ salt); [|apply H].
  cbn [time_Now db]. unfold mongo.InsertOne.
  destruct (negb _); [apply H|]. destruct (existsb _ _); [apply H|].
  destruct (_ && _); [apply H|].
  cbn. intros Hx. apply elem_of_app in Hx as [Hx|Hx]; [by apply H|].
  apply list_elem_of_singleton in Hx as ->. by eexists.
Qed.

(** The profile routes never resolve an account that [register] stored: the
    account is keyed by an ObjectID, the handlers filter [_id] on the hex
    string the token carries, so [getProfile] answers 404 and
    [updateProfile] (store reachable) answers 200 and changes nothing. *)
Theorem profile_routes_miss_registered_accounts
  (lib : Libs) (keys : JMap) (req : UpdateRequest) (w : World) :
  (forall x, x ∈ mongo.users (db w) -> exists i, mongo._id x = mongo.ObjectID i) ->
  mongo.reachable (db w) = true ->
  getProfile lib keys w = (Reply (error_response StatusNotFound "User not found"), w) /\
  updateProfile lib keys (Json req) w =
    (Reply (message_response StatusOK "Profile updated successfully"), w).
Proof.
  intros Hids Hr.
  pose proof (FindOneByID_ObjectID (GetString keys "user_id") (db w) Hids) as Hf.
  split; [|by apply updateProfile_unmatched].
  unfold getProfile. by rewrite Hf.
Qed.

Lemma profile_routes_miss_registered_accounts_witness :
  fst (GET_profile Reference.libs Reference.secret
         ("Bearer " +:+ Reference.ann_access_token) Reference.world2) =
    Reply (error_response StatusNotFound "User not found").
Proof.
  unfold GET_profile, gated.
  destruct (authMiddleware Reference.libs Reference.secret
              ("Bearer " +:+ Reference.ann_access_token) Reference.world2)
    as [g w'] eqn:E.
  vm_compute in E. injection E as <- <-.
  match goal with
  | |- fst (getProfile ?l ?k ?w) = _ =>
      rewrite (proj1 (profile_routes_miss_registered_accounts l k {| upd_Name := "" |} w
                        ltac:(intros x Hx; vm_compute in Hx;
                              apply list_elem_of_singleton in Hx as ->; by eexists)
                        eq_refl))
  end.
  reflexivity.
Defined.

(** [register] never alters or removes a stored account: the collection
    afterwards is the collection before, or that followed by one document;
    the index and the reachability of the store are untouched. *)
Theorem register_frame
  (lib : Libs) (salt oid : string) (b : Body RegisterRequest) (w : World) :
  (mongo.users (db (snd (register lib salt oid b w))) = mongo.users (db w) \/
   exists doc, mongo.users (db (snd (register lib salt oid b w))) =
               (mongo.users (db w) ++ [doc])%list) /\
  mongo.email_unique (db (snd (register lib salt oid b w))) = mongo.email_unique (db w) /\
  mongo.reachable (db (snd (register lib salt oid b w))) = mongo.reachable (db w).
Proof.
  unfold register.
  destruct (ShouldBindJSON _ b) as [e|req]; [by repeat split; left|].
  destruct (GenerateFromPassword lib _ salt); [|by repeat split; left].
  cbn [time_Now db]. unfold mongo.InsertOne.
  destruct (negb _); [by repeat split; left|].
  destruct (existsb _ _); [by repeat split; left|].
  destruct (_ && _); [by repeat split; left|].
  cbn. repeat split. right. by eexists.
Qed.

(** [refreshToken] never consults the store: its response is the same
    whatever the collection holds, so also when the account of the token has
    been removed or disabled. *)
Theorem refresh_ignores_store
  (lib : Libs) (jwtSecret : string) (b : Body RefreshRequest) (w : World)
  (d : mongo.Database) :
  fst (refreshToken lib jwtSecret b (with_db w d)) = fst (refreshToken lib jwtSecret b w).
Proof.
  unfold refreshToken.
  destruct (ShouldBindJSON _ b) as [e|req]; [done|].
  unfold parse_token, time_Now. cbn [clock with_db fst snd].
  destruct (jwt.Parse lib _ jwtSecret (clock w)) as [e|t]; [done|].
  destruct (assert_string _); [|done].
  destruct (assert_string _); [|done].
  destruct (assert_string _); [|done].
  reflexivity.
Qed.

(** ** More properties of the auth service *)

Lemma slice_from_app (p s : string) :
  slice_from (String.length p) (p +:+ s) = Some s.
Proof. induction p as [|c p IH]; [by destruct s | exact IH]. Qed.

(** The gate never looks at the scheme: it drops the first seven bytes of the
    header, whatever they are, so a token behind any seven-byte prefix is
    treated as one behind [Bearer ]. *)
Theorem gate_ignores_scheme
  (lib : Libs) (jwtSecret prefix token : string) (w : World) :
  String.length prefix = 7%nat ->
  authMiddleware lib jwtSecret (prefix +:+ token) w =
  authMiddleware lib jwtSecret ("Bearer " +:+ token) w.
Proof.
  intros Hl. unfold authMiddleware.
  pose proof (slice_from_app prefix token) as Hs. rewrite Hl in Hs. rewrite Hs.
  pose proof (slice_from_app "Bearer " token) as Hb. cbn [String.length] in Hb. rewrite Hb.
  destruct prefix as [|c prefix]; [discriminate|]. reflexivity.
Qed.

Lemma gate_ignores_scheme_witness :
  authMiddleware Reference.libs Reference.secret
    ("Basic: " +:+ Reference.ann_access_token) Reference.world2 =
  authMiddleware Reference.libs Reference.secret
    ("Bearer " +:+ Reference.ann_access_token) Reference.world2.
Proof.
  apply (gate_ignores_scheme Reference.libs Reference.secret "Basic: "
           Reference.ann_access_token Reference.world2).
  reflexivity.
Defined.

Lemma generateTokens_refresh (lib : Libs) (jwtSecret userID email role : string) (w : World) :
  refresh_token (generateTokens lib jwtSecret userID email role w) =
    jwt.SignedString lib SHA256
      (token_claims userID email role (issued_refresh_exp w) (issued_refresh_iat w))
      jwtSecret.
Proof. reflexivity. Qed.

Lemma SignedString_nonempty (lib : Libs) (h : Hash) (claims : JMap) (key : string) :
  jwt.SignedString lib h claims key <> "".
Proof.
  unfold jwt.SignedString, jwt.SigningString.
  destruct (EncodeSegment lib (json_Marshal lib (jwt.NewHeader (jwt.SigningMethodHMAC h))));
    discriminate.
Qed.

(** What [refreshToken] answers for a token the verifier accepts and whose
    sub, email and role are strings: a pair issued for those three values,
    after the verifier's reading of the clock. *)
Lemma refreshToken_success
  (lib : Libs) (jwtSecret s userID email role : string) (w : World) (t : jwt.Token) :
  s <> "" ->
  jwt.Parse lib s jwtSecret (clock w) = inr t ->
  index (jwt.Claims t) "sub" = JStr userID ->
  index (jwt.Claims t) "email" = JStr email ->
  index (jwt.Claims t) "role" = JStr role ->
  refreshToken lib jwtSecret (Json {| RefreshToken := s |}) w =
    (Reply (TokenResponse
              (access_token (generateTokens lib jwtSecret userID email role (snd (time_Now w))))
              (refresh_token (generateTokens lib jwtSecret userID email role (snd (time_Now w))))
              (expires_in (generateTokens lib jwtSecret userID email role (snd (time_Now w))))),
     snd (generateTokens lib jwtSecret userID email role (snd (time_Now w)))).
Proof.
  intros Hne Hp Hs He Hr. unfold refreshToken, ShouldBindJSON, RefreshRequest_failed.
  cbn [first_failed RefreshToken]. unfold required.
  destruct (String.eqb_spec s "") as [|_]; [done|]. cbn [negb first_failed].
  unfold parse_token. cbn [time_Now fst snd RefreshToken].
  rewrite Hp, Hs, He, Hr. cbn [assert_string].
  by destruct (generateTokens _ _ _ _ _ _) as [[[a r] e] w'].
Qed.

Lemma refresh_lifetime (w : World) :
  604800 - ((fourth_reading w - second_reading w) / Second + 1)
    <= issued_refresh_exp w - issued_refresh_iat w <= 604800.
Proof.
  assert (Hm : second_reading w <= fourth_reading w).
  { unfold second_reading, fourth_reading, time_Now. cbn. lia. }
  unfold issued_refresh_exp, issued_refresh_iat, Unix, Add, Hour, Minute, Second in *.
  generalize dependent (fourth_reading w). generalize (second_reading w).
  intros t2 t4 Hm. Z.div_mod_to_equations. lia.
Qed.

(** Rotation without revocation: the refresh token issued for (id, email,
    role) is exchanged, in every state whose clock is before its expiry, for
    a new pair issued for the same three values; nothing is recorded, so the
    same token is accepted again in any later state before that expiry. Its
    lifetime is seven days, less the whole seconds between the second and
    the fourth reading of the clock. *)
Theorem refresh_rotates_without_revoking
  (lib : Libs) (jwtSecret userID email role : string) (w w2 : World) :
  SegmentLaws lib ->
  json_round_trip lib (jwt.NewHeader jwt.SigningMethodHS256) ->
  json_round_trip lib
    (token_claims userID email role (issued_refresh_exp w) (issued_refresh_iat w)) ->
  clock w2 < time_Unix (issued_refresh_exp w) ->
  refreshToken lib jwtSecret
    (Json {| RefreshToken := refresh_token (generateTokens lib jwtSecret userID email role w) |})
    w2 =
    (Reply (TokenResponse
              (access_token (generateTokens lib jwtSecret userID email role (snd (time_Now w2))))
              (refresh_token (generateTokens lib jwtSecret userID email role (snd (time_Now w2))))
              (expires_in (generateTokens lib jwtSecret userID email role (snd (time_Now w2))))),
     snd (generateTokens lib jwtSecret userID email role (snd (time_Now w2)))) /\
  db (snd (generateTokens lib jwtSecret userID email role (snd (time_Now w2)))) = db w2 /\
  604800 - ((fourth_reading w - second_reading w) / Second + 1)
    <= issued_refresh_exp w - issued_refresh_iat w <= 604800.
Proof.
  intros laws Hh Hc Hlt. split; [|split; [reflexivity | apply refresh_lifetime]].
  rewrite generateTokens_refresh.
  pose proof (Parse_SignedString lib laws SHA256 _ jwtSecret (clock w2) Hh Hc
                (Validate_token_claims _ _ _ _ _ _ Hlt)) as Hp.
  destruct (token_claims_lookup userID email role (issued_refresh_exp w)
              (issued_refresh_iat w)) as (Hs & He & Hr & _).
  eapply refreshToken_success; [apply SignedString_nonempty | exact Hp | | |];
    cbn [jwt.Claims]; unfold index; by rewrite ?Hs, ?He, ?Hr.
Qed.

Lemma refresh_rotates_without_revoking_witness :
  reply_status (fst (refreshToken Reference.libs Reference.secret
                       (Json {| RefreshToken := refresh_token Examples.ann_tokens |})
                       Reference.world2)) = Some StatusOK.
Proof.
  unfold Examples.ann_tokens.
  rewrite (proj1 (refresh_rotates_without_revoking Reference.libs Reference.secret
                    (Reference.hex Reference.ann_oid) "a@x.com" "customer"
                    Reference.world1 Reference.world2
                    reference_laws (reference_json _) (reference_json _)
                    ltac:(vm_compute; reflexivity))).
  reflexivity.
Defined.

(** The two kinds of token are interchangeable: the refresh endpoint
    exchanges an access token for a new pair (so for a refresh token that
    lives seven days), and the gate lets a refresh token through as if it
    were an access token, each until the token's own expiry. *)
Theorem token_kinds_interchangeable
  (lib : Libs) (jwtSecret userID email role : string) (w w2 : World) :
  SegmentLaws lib ->
  json_round_trip lib (jwt.NewHeader jwt.SigningMethodHS256) ->
  json_round_trip lib (token_claims userID email role (issued_exp w) (issued_iat w)) ->
  json_round_trip lib
    (token_claims userID email role (issued_refresh_exp w) (issued_refresh_iat w)) ->
  (clock w2 < time_Unix (issued_exp w) ->
   fst (refreshToken lib jwtSecret
          (Json {| RefreshToken := access_token (generateTokens lib jwtSecret userID email role w) |})
          w2) =
     Reply (TokenResponse
              (access_token (generateTokens lib jwtSecret userID email role (snd (time_Now w2))))
              (refresh_token (generateTokens lib jwtSecret userID email role (snd (time_Now w2))))
              (expires_in (generateTokens lib jwtSecret userID email role (snd (time_Now w2)))))) /\
  (clock w2 < time_Unix (issued_refresh_exp w) ->
   fst (authMiddleware lib jwtSecret
          ("Bearer " +:+ refresh_token (generateTokens lib jwtSecret userID email role w)) w2) =
     Next (<["role" := JStr role]> (<["email" := JStr email]>
          (<["user_id" := JStr userID]> ∅)))).
Proof.
  intros laws Hh Hca Hcr. split; intros Hlt.
  - destruct (generateTokens_access lib jwtSecret userID email role w) as [-> _].
    pose proof (Parse_SignedString lib laws SHA256 _ jwtSecret (clock w2) Hh Hca
                  (Validate_token_claims _ _ _ _ _ _ Hlt)) as Hp.
    destruct (token_claims_lookup userID email role (issued_exp w) (issued_iat w))
      as (Hs & He & Hr & _).
    erewrite refreshToken_success; [reflexivity | apply SignedString_nonempty | exact Hp | | |];
      cbn [jwt.Claims]; unfold index; by rewrite ?Hs, ?He, ?Hr.
  - rewrite generateTokens_refresh.
    pose proof (Parse_SignedString lib laws SHA256 _ jwtSecret (clock w2) Hh Hcr
                  (Validate_token_claims _ _ _ _ _ _ Hlt)) as Hp.
    destruct (token_claims_lookup userID email role (issued_refresh_exp w)
                (issued_refresh_iat w)) as (Hs & He & Hr & _).
    erewrite authMiddleware_passes; [|discriminate|reflexivity|exact Hp].
    cbn [jwt.Claims]. unfold index. by rewrite Hs, He, Hr.
Qed.

Lemma token_kinds_interchangeable_witness :
  reply_status (fst (refreshToken Reference.libs Reference.secret
                       (Json {| RefreshToken := access_token Examples.ann_tokens |})
                       Reference.world2)) = Some StatusOK /\
  passed (fst (authMiddleware Reference.libs Reference.secret
                 ("Bearer " +:+ refresh_token Examples.ann_tokens) Reference.world2)) = true.
Proof.
  unfold Examples.ann_tokens.
  destruct (token_kinds_interchangeable Reference.libs Reference.secret
              (Reference.hex Reference.ann_oid) "a@x.com" "customer"
              Reference.world1 Reference.world2
              reference_laws (reference_json _) (reference_json _) (reference_json _))
    as [Ha Hr].
  split.
  - rewrite Ha; [reflexivity | vm_compute; reflexivity].
  - rewrite Hr; [reflexivity | vm_compute; reflexivity].
Defined.

Lemma find_set_active (f : bool -> bool) (e : string) (l : list mongo.Document) :
  List.find (fun x => String.eqb (mongo.email x) e) (List.map (set_active f) l) =
  set_active f <$> List.find (fun x => String.eqb (mongo.email x) e) l.
Proof.
  induction l as [|x l IH]; cbn; [done|].
  destruct (String.eqb (mongo.email x) e); [done | exact IH].
Qed.

(** [login] never reads the [active] flag and never writes the store: its
    response is the same whatever the flags are, so a deactivated account
    logs in like an active one, and the database afterwards is the one
    before. *)
Theorem login_ignores_active
  (lib : Libs) (jwtSecret : string) (b : Body LoginRequest) (w : World)
  (f : bool -> bool) :
  fst (login lib jwtSecret b (map_active f w)) = fst (login lib jwtSecret b w) /\
  db (snd (login lib jwtSecret b w)) = db w.
Proof.
  unfold login. destruct (ShouldBindJSON _ b) as [e|req]; [done|].
  unfold mongo.FindOneByEmail, map_active. cbn [db with_db mongo.with_users mongo.reachable mongo.users].
  destruct (mongo.reachable (db w)); [|done].
  rewrite find_set_active.
  destruct (List.find _ (mongo.users (db w))) as [doc|]; [|done].
  cbn [fmap option_fmap option_map mongo.Decode Password set_active mongo.password
       mongo._id mongo.email mongo.role ID Email Role].
  destruct (CompareHashAndPassword lib _ _); [|done].
  split; reflexivity.
Qed.

Lemma InsertOne_Some (oid : string) (u : User) (d d' : mongo.Database) (i : mongo.DocID) :
  mongo.InsertOne oid u d = Some (i, d') ->
  d' = mongo.with_users d (mongo.users d ++ [mongo.toDocument oid u]) /\
  (mongo.email_unique d = true -> Email u ∉ mongo.emails d).
Proof.
  unfold mongo.InsertOne.
  destruct (negb (mongo.reachable d)); [done|].
  destruct (existsb _ (mongo.users d)); [done|].
  destruct (mongo.email_unique d) eqn:Eu; cbn [andb].
  - destruct (existsb _ (mongo.users d)) eqn:Ee; [done|].
    intros [= _ <-]. split; [done|]. intros _ Hin.
    apply existsb_email in Hin. cbn [mongo.toDocument mongo.email] in Ee. congruence.
  - intros [= _ <-]. split; [done | discriminate].
Qed.

Lemma update_first_emails (n userID : string) (l : list mongo.Document) :
  List.map mongo.email (snd (mongo.update_first n userID l)) = List.map mongo.email l.
Proof.
  induction l as [|x l IH]; cbn; [done|].
  destruct (bool_decide (mongo._id x = mongo.StringID userID)); [done|].
  destruct (mongo.update_first n userID l) as [k r]. cbn in *. by rewrite IH.
Qed.

Lemma register_emails_unique
  (lib : Libs) (salt oid : string) (b : Body RegisterRequest) (w : World) :
  emails_unique (db w) -> emails_unique (db (snd (register lib salt oid b w))).
Proof.
  intros [Hu Hn]. unfold register.
  destruct (ShouldBindJSON _ b) as [e|req]; [done|].
  destruct (GenerateFromPassword lib _ salt); [|done]. cbn [time_Now db].
  destruct (mongo.InsertOne _ _ _) as [[i d]|] eqn:E; [|done].
  apply InsertOne_Some in E as [-> Hfresh]. specialize (Hfresh Hu).
  split; [exact Hu|].
  cbn. unfold mongo.emails in *. cbn. rewrite List.map_app. cbn.
  apply list.NoDup_app. repeat split; [done| |apply NoDup_singleton].
  intros e He Hin. apply list_elem_of_singleton in Hin. by subst.
Qed.

Lemma refreshToken_db (lib : Libs) (jwtSecret : string) (b : Body RefreshRequest) (w : World) :
  db (snd (refreshToken lib jwtSecret b w)) = db w.
Proof.
  unfold refreshToken. destruct (ShouldBindJSON _ b); [done|].
  unfold parse_token. cbn.
  destruct (jwt.Parse lib _ jwtSecret (clock w)); [done|].
  by repeat (destruct (assert_string _); [|done]).
Qed.

Lemma authMiddleware_db (lib : Libs) (jwtSecret authHeader : string) (w : World) :
  db (snd (authMiddleware lib jwtSecret authHeader w)) = db w.
Proof.
  unfold authMiddleware. destruct (String.eqb authHeader ""); [done|].
  destruct (slice_from 7 authHeader); [|done]. unfold parse_token. cbn.
  by destruct (jwt.Parse lib _ jwtSecret (clock w)).
Qed.

Lemma getProfile_state (lib : Libs) (keys : JMap) (w : World) :
  snd (getProfile lib keys w) = w.
Proof. unfold getProfile. by destruct (mongo.FindOneByID _ _). Qed.

Lemma updateProfile_emails_unique
  (lib : Libs) (keys : JMap) (b : Body UpdateRequest) (w : World) :
  emails_unique (db w) -> emails_unique (db (snd (updateProfile lib keys b w))).
Proof.
  intros [Hu Hn]. unfold updateProfile. destruct (ShouldBindJSON _ b) as [e|req]; [done|].
  unfold mongo.UpdateOneName. destruct (mongo.reachable (db w)); [|done].
  pose proof (update_first_emails (upd_Name req) (GetString keys "user_id")
                (mongo.users (db w))) as He.
  destruct (mongo.update_first _ _ _) as [k l]. cbn in *.
  split; [exact Hu|]. unfold mongo.emails. cbn. by rewrite He.
Qed.

Lemma gated_emails_unique
  (lib : Libs) (jwtSecret authHeader : string) (w : World)
  (handler : JMap -> World -> Outcome * World) :
  (forall keys w1, emails_unique (db w1) -> emails_unique (db (snd (handler keys w1)))) ->
  emails_unique (db w) ->
  emails_unique (db (snd (gated lib jwtSecret handler authHeader w))).
Proof.
  intros Hh Hw. unfold gated.
  pose proof (authMiddleware_db lib jwtSecret authHeader w) as Hg.
  destruct (authMiddleware lib jwtSecret authHeader w) as [[r|keys|msg] w1];
    cbn in Hg |- *; [by rewrite Hg| |by rewrite Hg].
  apply Hh. by rewrite Hg.
Qed.

(** E-mail uniqueness is an invariant of every route: if the unique index
    exists and no two accounts share an e-mail, the same holds after
    [register], [login], [refreshToken], [logout] and the two gated profile
    routes, whatever the request is and whatever the outcome. *)
Theorem routes_keep_emails_unique (lib : Libs) (jwtSecret : string) (w : World) :
  emails_unique (db w) ->
  (forall salt oid b, emails_unique (db (snd (register lib salt oid b w)))) /\
  (forall b, emails_unique (db (snd (login lib jwtSecret b w)))) /\
  (forall b, emails_unique (db (snd (refreshToken lib jwtSecret b w)))) /\
  emails_unique (db (snd (logout w))) /\
  (forall authHeader, emails_unique (db (snd (GET_profile lib jwtSecret authHeader w)))) /\
  (forall b authHeader, emails_unique (db (snd (PUT_profile lib jwtSecret b authHeader w)))).
Proof.
  intros Hw. split; [|split; [|split; [|split; [|split]]]].
  - intros salt oid b. by apply register_emails_unique.
  - intros b. by rewrite (proj2 (login_ignores_active lib jwtSecret b w id)).
  - intros b. by rewrite refreshToken_db.
  - exact Hw.
  - intros authHeader. apply gated_emails_unique; [|exact Hw].
    intros keys w1 H1. by rewrite getProfile_state.
  - intros b authHeader. apply gated_emails_unique; [|exact Hw].
    intros keys w1 H1. by apply updateProfile_emails_unique.
Qed.

Lemma routes_keep_emails_unique_witness :
  emails_unique (db (snd (register Reference.libs "KCl" "eS?0000000002"
                            (Json Reference.bob) Reference.world1))).
Proof.
  apply (routes_keep_emails_unique Reference.libs Reference.secret Reference.world1).
  split; [reflexivity | vm_compute; apply NoDup_singleton].
Defined.

Lemma update_first_matched (n userID : string) (l : list mongo.Document) (doc : mongo.Document) :
  List.find (fun x => bool_decide (mongo._id x = mongo.StringID userID)) l = Some doc ->
  fst (mongo.update_first n userID l) = 1%nat /\
  List.find (fun x => bool_decide (mongo._id x = mongo.StringID userID))
    (snd (mongo.update_first n userID l)) = Some (mongo.set_name n doc) /\
  List.map mongo.password (snd (mongo.update_first n userID l)) = List.map mongo.password l /\
  List.map mongo._id (snd (mongo.update_first n userID l)) = List.map mongo._id l.
Proof.
  induction l as [|x l IH]; cbn; [done|].
  destruct (bool_decide (mongo._id x = mongo.StringID userID)) eqn:E.
  - intros [= ->]. cbn. by rewrite E.
  - intros H. destruct (IH H) as (H1 & H2 & H3 & H4).
    destruct (mongo.update_first n userID l) as [k r]. cbn in *.
    rewrite E. by rewrite H1, H2, H3, H4.
Qed.

(** Update, then read: for an account the string [user_id] resolves to,
    [updateProfile] answers 200 and a following [getProfile] returns the
    account with the new name (an empty one included: the field has no
    binding rule) and every other field as it was; the stored hashes and the
    keys of the collection are untouched. *)
Theorem updateProfile_then_getProfile
  (lib : Libs) (keys : JMap) (req : UpdateRequest) (w : World) (doc : mongo.Document) :
  mongo.FindOneByID (GetString keys "user_id") (db w) = Some doc ->
  fst (updateProfile lib keys (Json req) w) =
    Reply (message_response StatusOK "Profile updated successfully") /\
  fst (getProfile lib keys (snd (updateProfile lib keys (Json req) w))) =
    Reply {| status := StatusOK;
             body := User_json lib (mongo.Decode lib (mongo.set_name (upd_Name req) doc)) |} /\
  List.map mongo.password (mongo.users (db (snd (updateProfile lib keys (Json req) w)))) =
    List.map mongo.password (mongo.users (db w)) /\
  List.map mongo._id (mongo.users (db (snd (updateProfile lib keys (Json req) w)))) =
    List.map mongo._id (mongo.users (db w)).
Proof.
  unfold mongo.FindOneByID, updateProfile, ShouldBindJSON, UpdateRequest_failed,
    mongo.UpdateOneName, getProfile.
  destruct (mongo.reachable (db w)) eqn:Hr; [|done]. intros Hf.
  destruct (update_first_matched (upd_Name req) _ _ _ Hf) as (H1 & H2 & H3 & H4).
  destruct (mongo.update_first _ _ _) as [k l]. cbn in *.
  unfold mongo.FindOneByID. cbn. by rewrite Hr, H2.
Qed.

Lemma updateProfile_then_getProfile_witness :
  body_field (fst (getProfile Reference.libs Examples.legacy_keys
                     (snd (updateProfile Reference.libs Examples.legacy_keys
                             (Json {| upd_Name := "" |}) Examples.legacy_world))))
    "name" = Some (JStr "").
Proof.
  rewrite (proj1 (proj2 (updateProfile_then_getProfile Reference.libs Examples.legacy_keys
                           {| upd_Name := "" |} Examples.legacy_world Examples.legacy_doc
                           eq_refl))).
  reflexivity.
Defined.

(** [register] turns away a request that breaks a binding rule (a password
    of fewer than eight runes, a malformed e-mail, an empty name, or a body
    that is not JSON) with 400, before anything is hashed, read from the
    clock or stored: the state is untouched. *)
Theorem register_rejects_invalid
  (lib : Libs) (salt oid : string) (req : RegisterRequest) (w : World) :
  (RuneCountInString lib (reg_Password req) < 8)%nat \/
  isEmail lib (reg_Email req) = false \/
  reg_Name req = "" ->
  register lib salt oid (Json req) w =
    (Reply (bad_request lib (FieldErrors (RegisterRequest_failed lib req))), w) /\
  register lib salt oid BadJSON w = (Reply (bad_request lib MalformedJSON), w).
Proof.
  intros H. split; [|reflexivity].
  unfold register, ShouldBindJSON.
  assert (Hf : RegisterRequest_failed lib req <> []).
  { unfold RegisterRequest_failed. intros Heq.
    apply app_eq_nil in Heq as [He Heq]. apply app_eq_nil in Heq as [Hp Hn].
    cbn [first_failed] in He, Hp, Hn.
    destruct H as [H|[H|H]].
    - destruct (required (reg_Password req)); [|done].
      destruct (Nat.leb_spec 8 (RuneCountInString lib (reg_Password req))); [lia|done].
    - rewrite H in He. by destruct (required (reg_Email req)).
    - rewrite H in Hn. discriminate. }
  by destruct (RegisterRequest_failed lib req).
Qed.

Lemma register_rejects_invalid_witness :
  register Reference.libs "NaCl" Reference.ann_oid
    (Json {| reg_Email := "a@x.com"; reg_Password := "secret1"; reg_Name := "Ann" |})
    Reference.world0 =
  (Reply (error_response StatusBadRequest "Field validation failed"), Reference.world0).
Proof.
  refine (proj1 (register_rejects_invalid Reference.libs "NaCl" Reference.ann_oid
                   {| reg_Email := "a@x.com"; reg_Password := "secret1"; reg_Name := "Ann" |}
                   Reference.world0 _)).
  left. cbn. lia.
Defined.

(** The [expires_in] of a successful login is not a duration: it is the
    instant the access token expires, in Unix seconds (the second of the
    login plus 900). *)
Theorem login_expires_in_is_absolute
  (lib : Libs) (jwtSecret : string) (r : LoginRequest) (doc : mongo.Document) (w : World) :
  LoginRequest_failed lib r = [] ->
  mongo.FindOneByEmail (login_Email r) (db w) = Some doc ->
  CompareHashAndPassword lib (mongo.password doc) (login_Password r) = true ->
  reply_status (fst (login lib jwtSecret (Json r) w)) = Some StatusOK /\
  body_field (fst (login lib jwtSecret (Json r) w)) "expires_in" =
    Some (JNum (Unix (clock w) + 900)).
Proof.
  intros Hv Hf Hc. rewrite (login_success lib jwtSecret r doc w Hv Hf Hc).
  split; [reflexivity|]. cbn.
  f_equal. f_equal. unfold Unix, Add, Minute, Second.
  Z.div_mod_to_equations. lia.
Qed.

Lemma login_expires_in_is_absolute_witness :
  body_field (fst (login Reference.libs Reference.secret (Json Reference.ann_login)
                     Reference.world1)) "expires_in" = Some (JNum 1700000900).
Proof.
  refine (proj2 (login_expires_in_is_absolute Reference.libs Reference.secret
                   Reference.ann_login Reference.ann_doc Reference.world1 _ _ _)).
  - reflexivity.
  - vm_compute. reflexivity.
  - vm_compute. reflexivity.
Defined.

(** * The other services *)

(** ** Facts about one collection *)

Section CollectionFacts.
Context {D : Type} `{EqDecision D}.

Lemma coll_find_split (p : D -> bool) (l : list D) (x : D) :
  List.find p l = Some x ->
  exists l1 l2, l = (l1 ++ x :: l2)%list /\ Forall (fun y => p y = false) l1 /\ p x = true.
Proof.
  induction l as [|y l IH]; cbn; [done|].
  destruct (p y) eqn:E.
  - intros [= ->]. by exists [], l.
  - intros H. destruct (IH H) as (l1 & l2 & -> & Hf & Hp).
    exists (y :: l1), l2. repeat split; [|done]. by constructor.
Qed.

Lemma coll_find_app_first (p : D -> bool) (l1 l2 : list D) (x : D) :
  Forall (fun y => p y = false) l1 -> p x = true ->
  List.find p (l1 ++ x :: l2) = Some x.
Proof.
  intros Hf Hp. induction Hf as [|y l1 Hy _ IH]; cbn; [by rewrite Hp|].
  by rewrite Hy.
Qed.

Lemma coll_update_first_unmatched (p : D -> bool) (f : D -> option D) (l : list D) :
  List.find p l = None -> crud.update_first p f l = Some (O, O, l).
Proof.
  induction l as [|y l IH]; cbn; [done|].
  destruct (p y); [done|]. intros H. by rewrite (IH H).
Qed.

Lemma coll_update_first_split (p : D -> bool) (f : D -> option D) (l1 l2 : list D) (x : D) :
  Forall (fun y => p y = false) l1 -> p x = true ->
  crud.update_first p f (l1 ++ x :: l2) =
    match f x with
    | None => None
    | Some y => Some (1%nat, if bool_decide (y = x) then O else 1%nat, (l1 ++ y :: l2)%list)
    end.
Proof.
  intros Hf Hp. induction Hf as [|y l1 Hy _ IH]; cbn.
  - rewrite Hp. by destruct (f x).
  - rewrite Hy, IH. by destruct (f x).
Qed.

(** Every outcome of [update_first]: nothing matched and nothing changed, or
    the first match was rewritten in place. *)
Lemma coll_update_first_cases (p : D -> bool) (f : D -> option D) (l : list D) :
  (List.find p l = None /\ crud.update_first p f l = Some (O, O, l)) \/
  (exists l1 x l2, l = (l1 ++ x :: l2)%list /\ Forall (fun y => p y = false) l1 /\
                   p x = true /\ List.find p l = Some x /\
                   crud.update_first p f l =
                     match f x with
                     | None => None
                     | Some y => Some (1%nat, if bool_decide (y = x) then O else 1%nat,
                                       (l1 ++ y :: l2)%list)
                     end).
Proof.
  destruct (List.find p l) as [x|] eqn:E.
  - right. destruct (coll_find_split p l x E) as (l1 & l2 & -> & Hf & Hp).
    exists l1, x, l2. repeat split; try done. by apply coll_update_first_split.
  - left. split; [done|]. by apply coll_update_first_unmatched.
Qed.

Lemma coll_delete_first_cases (p : D -> bool) (l : list D) :
  (List.find p l = None /\ crud.delete_first p l = (O, l)) \/
  (exists l1 x l2, l = (l1 ++ x :: l2)%list /\ Forall (fun y => p y = false) l1 /\
                   p x = true /\ crud.delete_first p l = (1%nat, (l1 ++ l2)%list)).
Proof.
  induction l as [|y l IH]; cbn; [by left|].
  destruct (p y) eqn:E.
  - right. by exists [], y, l.
  - destruct IH as [[Hn Hd]|(l1 & x & l2 & -> & Hf & Hp & Hd)].
    + left. by rewrite Hn, Hd.
    + right. exists (y :: l1), x, l2. rewrite Hd. repeat split; try done. by constructor.
Qed.

End CollectionFacts.

(** ** The inventory service *)

Lemma bind_quantity_Json (q : Z) :
  inventory.bind_quantity (Json {| inventory.req_Quantity := q |}) =
    if in_int64 q then
      if Z.eqb q 0 then inl (FieldErrors [("Quantity", "required")])
      else inr {| inventory.req_Quantity := q |}
    else inl MalformedJSON.
Proof.
  unfold inventory.bind_quantity, crud.ShouldBindJSON_ints, inventory.QuantityRequest_failed.
  cbn. destruct (in_int64 q); [|done]. by destruct (Z.eqb q 0).
Qed.

Lemma bind_quantity_inr (b : Body inventory.QuantityRequest) (r : inventory.QuantityRequest) :
  inventory.bind_quantity b = inr r ->
  b = Json r /\ in_int64 (inventory.req_Quantity r) = true /\ inventory.req_Quantity r <> 0.
Proof.
  destruct b as [|[q]]; [done|]. rewrite bind_quantity_Json.
  destruct (in_int64 q) eqn:Er; [|done]. destruct (Z.eqb_spec q 0); [done|].
  intros [= <-]. by cbn.
Qed.

Lemma inc_both_Some (dq dr : Z) (now : Time) (d y : inventory.Document) :
  inventory.inc_both dq dr now d = Some y ->
  y = {| inventory._id := inventory._id d; inventory.product_id := inventory.product_id d;
         inventory.quantity := inventory.quantity d + dq;
         inventory.reserved := inventory.reserved d + dr;
         inventory.warehouse := inventory.warehouse d;
         inventory.updated_at := bson_datetime now |} /\
  in_int64 (inventory.quantity d + dq) = true /\
  in_int64 (inventory.reserved d + dr) = true.
Proof.
  unfold inventory.inc_both, inc_int.
  destruct (in_int64 (inventory.quantity d + dq)); [|done].
  destruct (in_int64 (inventory.reserved d + dr)); [|done].
  by intros [= <-].
Qed.

Lemma neg_int_opp (q : Z) : q <> MinInt64 -> neg_int q = - q.
Proof. unfold neg_int. by destruct (Z.eqb_spec q MinInt64). Qed.

Lemma Forall2_replace_middle {A : Type} (R : A -> A -> Prop) (l1 l2 : list A) (x y : A) :
  (forall a, R a a) -> R x y -> Forall2 R (l1 ++ x :: l2) (l1 ++ y :: l2).
Proof.
  intros Hr Hxy. apply Forall2_app; [by apply Forall_Forall2_diag, Forall_forall|].
  constructor; [done|]. by apply Forall_Forall2_diag, Forall_forall.
Qed.

(** The collection after a quantity route, in terms of the update it
    sends. *)
Lemma moved_by_inc (p : inventory.Document -> bool) (dq dr : Z) (now : Time)
  (c : crud.Coll inventory.Document) (m k : nat) (c' : crud.Coll inventory.Document) :
  dq + dr = 0 ->
  crud.UpdateOne p (inventory.inc_both dq dr now) c = Some (m, k, c') ->
  Forall2 inventory.moved (crud.docs c) (crud.docs c').
Proof.
  intros Hz. unfold crud.UpdateOne. destruct (crud.reachable c); [|done].
  destruct (coll_update_first_cases p (inventory.inc_both dq dr now) (crud.docs c))
    as [[_ ->]|(l1 & x & l2 & Hl & _ & _ & _ & ->)].
  - intros [= _ _ <-]. cbn. apply Forall_Forall2_diag, Forall_forall. by intros d _.
  - destruct (inventory.inc_both dq dr now x) as [y|] eqn:E; [|done].
    intros [= _ _ <-]. cbn. rewrite Hl.
    apply Forall2_replace_middle; [done|].
    apply inc_both_Some in E as (-> & _). unfold inventory.moved, inventory.stock. cbn.
    repeat split. lia.
Qed.

(** Reserving and releasing move units between "on hand" and "set aside"
    and change nothing else: after either route, whatever the request and
    the outcome, the collection has the same records in the same order, each
    with the same key, product and warehouse and the same stock (quantity
    plus reserved). The one request that escapes is the least [int], whose
    negation wraps. *)
Theorem inventory_moves_conserve_stock
  (lib : Libs) (productID : string) (q : Z) (st : inventory.State) :
  q <> MinInt64 ->
  Forall2 inventory.moved (crud.docs (crud.coll st))
    (crud.docs (crud.coll (snd (inventory.reserveInventory lib productID
                                  (Json {| inventory.req_Quantity := q |}) st)))) /\
  Forall2 inventory.moved (crud.docs (crud.coll st))
    (crud.docs (crud.coll (snd (inventory.releaseInventory lib productID
                                  (Json {| inventory.req_Quantity := q |}) st)))).
Proof.
  intros Hq.
  assert (Hrefl : Forall2 inventory.moved (crud.docs (crud.coll st)) (crud.docs (crud.coll st))).
  { apply Forall_Forall2_diag, Forall_forall. by intros d _. }
  unfold inventory.reserveInventory, inventory.releaseInventory.
  rewrite bind_quantity_Json.
  destruct (in_int64 q); [|done]. destruct (Z.eqb q 0); [done|].
  cbn [crud.time_Now crud.coll inventory.req_Quantity]. rewrite (neg_int_opp q Hq). split.
  - destruct (crud.UpdateOne _ _ _) as [[[m k] c]|] eqn:E; [|done].
    apply moved_by_inc in E; [|lia]. by destruct (Nat.eqb k 0).
  - destruct (crud.UpdateOne _ _ _) as [[[m k] c]|] eqn:E; [|done].
    apply moved_by_inc in E; [done|lia].
Qed.

Lemma inventory_moves_conserve_stock_witness :
  Forall2 inventory.moved [InventoryExamples.widget]
    (crud.docs (crud.coll (snd (inventory.reserveInventory Reference.libs "widget"
                                  (InventoryExamples.quantity_request 4)
                                  InventoryExamples.state0)))).
Proof.
  refine (proj1 (inventory_moves_conserve_stock Reference.libs "widget" 4
                   InventoryExamples.state0 _)).
  discriminate.
Defined.

Lemma UpdateOne_inv {D : Type} `{EqDecision D} (p : D -> bool) (f : D -> option D)
  (c : crud.Coll D) (m k : nat) (c' : crud.Coll D) :
  crud.UpdateOne p f c = Some (m, k, c') ->
  crud.reachable c = true /\ crud.reachable c' = true /\
  ((List.find p (crud.docs c) = None /\ m = O /\ k = O /\ crud.docs c' = crud.docs c) \/
   (exists l1 x y l2,
      crud.docs c = (l1 ++ x :: l2)%list /\ Forall (fun z => p z = false) l1 /\
      p x = true /\ List.find p (crud.docs c) = Some x /\ f x = Some y /\
      crud.docs c' = (l1 ++ y :: l2)%list /\ m = 1%nat /\
      k = if bool_decide (y = x) then O else 1%nat)).
Proof.
  unfold crud.UpdateOne. destruct (crud.reachable c) eqn:Hr; [|done].
  destruct (coll_update_first_cases p f (crud.docs c))
    as [[Hn ->]|(l1 & x & l2 & Hl & Hf & Hp & Hfind & ->)].
  - intros [= <- <- <-]. repeat split; try done. by left.
  - destruct (f x) as [y|] eqn:E; [|done]. intros [= <- <- <-].
    repeat split; try done. right. by exists l1, x, y, l2.
Qed.

(** Every integer the service stores fits 64 bits, and stays so: if the
    quantities and reservations of the collection are in range, they are
    after [createInventory], [reserveInventory], [releaseInventory] and
    [updateInventory], whatever the request. *)
Theorem inventory_integers_stay_in_range (lib : Libs) (st : inventory.State) :
  Forall inventory.well_formed (crud.docs (crud.coll st)) ->
  (forall oid b, Forall inventory.well_formed
     (crud.docs (crud.coll (snd (inventory.createInventory lib oid b st))))) /\
  (forall p b, Forall inventory.well_formed
     (crud.docs (crud.coll (snd (inventory.reserveInventory lib p b st))))) /\
  (forall p b, Forall inventory.well_formed
     (crud.docs (crud.coll (snd (inventory.releaseInventory lib p b st))))) /\
  (forall p b, Forall inventory.well_formed
     (crud.docs (crud.coll (snd (inventory.updateInventory lib p b st))))).
Proof.
  intros Hw.
  assert (Hupd : forall p f m k c',
            (forall x y, inventory.well_formed x -> f x = Some y -> inventory.well_formed y) ->
            crud.UpdateOne p f (crud.coll st) = Some (m, k, c') ->
            Forall inventory.well_formed (crud.docs c')).
  { intros p f m k c' Hf E.
    apply UpdateOne_inv in E as (_ & _ & [(_ & _ & _ & ->)|(l1 & x & y & l2 & Hl & _ & _ & _ & Hy & -> & _)]);
      [done|].
    rewrite Hl in Hw. apply Forall_app in Hw as [H1 H2].
    inversion_clear H2 as [|? ? Hx H2'].
    apply Forall_app. split; [done|]. constructor; [by eapply Hf|done]. }
  assert (Hinc : forall dq dr now x y, inventory.well_formed x ->
            inventory.inc_both dq dr now x = Some y -> inventory.well_formed y).
  { intros dq dr now x y _ E. by apply inc_both_Some in E as (-> & ? & ?). }
  repeat split.
  - intros oid b. unfold inventory.createInventory, crud.ShouldBindJSON_ints.
    destruct b as [|inv]; [done|]. cbn [forallb].
    destruct (in_int64 (inventory.Quantity inv)) eqn:Eq; [|done].
    destruct (in_int64 (inventory.Reserved inv)) eqn:Er; [|done].
    cbn [andb crud.time_Now crud.coll]. unfold crud.InsertOne.
    destruct (negb _); [done|]. destruct (existsb _ _); [done|].
    cbn. apply Forall_app. split; [done|]. by repeat constructor.
  - intros p b. unfold inventory.reserveInventory.
    destruct (inventory.bind_quantity b) as [e|req]; [done|].
    cbn [crud.time_Now crud.coll].
    destruct (crud.UpdateOne _ _ _) as [[[m k] c]|] eqn:E; [|done].
    apply Hupd in E; [|by eauto]. by destruct (Nat.eqb k 0).
  - intros p b. unfold inventory.releaseInventory.
    destruct (inventory.bind_quantity b) as [e|req]; [done|].
    cbn [crud.time_Now crud.coll].
    destruct (crud.UpdateOne _ _ _) as [[[m k] c]|] eqn:E; [|done].
    apply Hupd in E; [done|by eauto].
  - intros p b. unfold inventory.updateInventory.
    destruct (inventory.bind_quantity b) as [e|req] eqn:Eb; [done|].
    apply bind_quantity_inr in Eb as (_ & Hr & _).
    cbn [crud.time_Now crud.coll].
    destruct (crud.UpdateOne _ _ _) as [[[m k] c]|] eqn:E; [|done].
    apply Hupd in E; [done|].
    intros x y [_ Hx] [= <-]. by split.
Qed.

Lemma inventory_integers_stay_in_range_witness :
  Forall inventory.well_formed
    (crud.docs (crud.coll (snd (inventory.releaseInventory Reference.libs "widget"
                                  (InventoryExamples.quantity_request 5)
                                  InventoryExamples.state0)))).
Proof.
  apply (inventory_integers_stay_in_range Reference.libs InventoryExamples.state0).
  by repeat constructor.
Defined.

(** [reserveInventory] never oversells: when it answers 200 it has taken
    the first record of the product that holds at least the requested
    quantity, moved exactly that quantity from "on hand" to "set aside"
    there, and for a positive request the quantity left is not negative; on
    every other answer the records are what they were. *)
Theorem reserve_never_oversells
  (lib : Libs) (productID : string) (q : Z) (st : inventory.State) :
  (reply_status (fst (inventory.reserveInventory lib productID
                        (Json {| inventory.req_Quantity := q |}) st)) = Some StatusOK ->
   exists l1 d l2,
     crud.docs (crud.coll st) = (l1 ++ d :: l2)%list /\
     Forall (fun y => inventory.product_id y <> productID \/ inventory.quantity y < q) l1 /\
     inventory.product_id d = productID /\ q <= inventory.quantity d /\
     crud.docs (crud.coll (snd (inventory.reserveInventory lib productID
                                  (Json {| inventory.req_Quantity := q |}) st))) =
       (l1 ++ {| inventory._id := inventory._id d;
                 inventory.product_id := inventory.product_id d;
                 inventory.quantity := inventory.quantity d + neg_int q;
                 inventory.reserved := inventory.reserved d + q;
                 inventory.warehouse := inventory.warehouse d;
                 inventory.updated_at := bson_datetime (crud.clock st) |} :: l2)%list /\
     (0 < q -> inventory.quantity d + neg_int q = inventory.quantity d - q /\
               0 <= inventory.quantity d - q)) /\
  (reply_status (fst (inventory.reserveInventory lib productID
                        (Json {| inventory.req_Quantity := q |}) st)) <> Some StatusOK ->
   crud.docs (crud.coll (snd (inventory.reserveInventory lib productID
                                (Json {| inventory.req_Quantity := q |}) st))) =
     crud.docs (crud.coll st)).
Proof.
  unfold inventory.reserveInventory. rewrite bind_quantity_Json.
  destruct (in_int64 q); [|by split]. destruct (Z.eqb q 0); [by split|].
  cbn [crud.time_Now crud.coll inventory.req_Quantity fst snd].
  destruct (crud.UpdateOne _ _ _) as [[[m k] c]|] eqn:E; [|by split].
  apply UpdateOne_inv in E
    as (_ & _ & [(_ & -> & -> & Hd)|(l1 & x & y & l2 & Hl & Hf & Hp & _ & Hy & Hd & -> & ->)]).
  - cbn. by split.
  - apply inc_both_Some in Hy as (Hy & _ & _).
    apply andb_true_iff in Hp as [Hp Hq]. apply String.eqb_eq in Hp. apply Z.leb_le in Hq.
    destruct (bool_decide_reflect (y = x)) as [Heq|Hne]; cbn.
    + split; [done|]. intros _. by rewrite Hd, Heq.
    + split; [|done]. intros _. exists l1, x, l2. rewrite Hd, Hy.
      repeat split; try done.
      * apply Forall_forall. intros z Hin. rewrite Forall_forall in Hf.
        specialize (Hf z Hin). cbn in Hf.
        apply andb_false_iff in Hf as [Hz|Hz].
        -- left. by apply String.eqb_neq.
        -- right. by apply Z.leb_gt.
      * unfold neg_int. destruct (Z.eqb_spec q MinInt64); [|lia].
        subst q. unfold MinInt64 in *. lia.
      * lia.
Qed.

Lemma UpdateOne_first {D : Type} `{EqDecision D} (p : D -> bool) (f : D -> option D)
  (c : crud.Coll D) (l1 l2 : list D) (x y : D) :
  crud.reachable c = true -> crud.docs c = (l1 ++ x :: l2)%list ->
  Forall (fun z => p z = false) l1 -> p x = true -> f x = Some y ->
  crud.UpdateOne p f c =
    Some (1%nat, if bool_decide (y = x) then O else 1%nat, crud.with_docs c (l1 ++ y :: l2)).
Proof.
  intros Hr Hl Hf Hp Hy. unfold crud.UpdateOne.
  by rewrite Hr, Hl, (coll_update_first_split p f l1 l2 x Hf Hp), Hy.
Qed.

(** Reserve, then release: when the first record of the product holds the
    requested quantity and [reserveInventory] answers 200, a
    [releaseInventory] of the same quantity answers 200 and every record is
    again what it was before the two calls, [updated_at] apart. *)
Theorem reserve_then_release_restores
  (lib : Libs) (productID : string) (q : Z) (st : inventory.State) (d : inventory.Document) :
  q <> MinInt64 ->
  List.find (fun x => String.eqb (inventory.product_id x) productID)
    (crud.docs (crud.coll st)) = Some d ->
  q <= inventory.quantity d ->
  inventory.well_formed d ->
  reply_status (fst (inventory.reserveInventory lib productID
                       (Json {| inventory.req_Quantity := q |}) st)) = Some StatusOK ->
  fst (inventory.releaseInventory lib productID (Json {| inventory.req_Quantity := q |})
         (snd (inventory.reserveInventory lib productID
                 (Json {| inventory.req_Quantity := q |}) st))) =
    Reply (message_response StatusOK "Inventory released successfully") /\
  Forall2 inventory.same_but_time (crud.docs (crud.coll st))
    (crud.docs (crud.coll
       (snd (inventory.releaseInventory lib productID (Json {| inventory.req_Quantity := q |})
               (snd (inventory.reserveInventory lib productID
                       (Json {| inventory.req_Quantity := q |}) st)))))).
Proof.
  intros Hq Hfind Hle [Hwq Hwr].
  destruct (coll_find_split _ _ _ Hfind) as (l1 & l2 & Hl & Hf & Hp).
  unfold inventory.reserveInventory, inventory.releaseInventory.
  rewrite !bind_quantity_Json.
  destruct (in_int64 q); [|done]. destruct (Z.eqb q 0); [done|].
  cbn [crud.time_Now crud.coll inventory.req_Quantity fst snd].
  rewrite (neg_int_opp q Hq).
  destruct (crud.UpdateOne _ _ (crud.coll st)) as [[[m k] c]|] eqn:E; [|done].
  apply UpdateOne_inv in E
    as (_ & Hr & [(Hn & _ & -> & _)|(l1' & x & y & l2' & Hl' & Hf' & Hp' & Hfind' & Hy & Hd & -> & ->)]);
    [done|].
  (* the record reserved from is the first record of the product *)
  assert (Hx : List.find (fun z => String.eqb (inventory.product_id z) productID &&
                                 Z.leb q (inventory.quantity z))
                 (crud.docs (crud.coll st)) = Some d).
  { rewrite Hl. apply coll_find_app_first.
    - apply Forall_forall. intros z Hz. rewrite Forall_forall in Hf. by rewrite (Hf z Hz).
    - rewrite Hp. by apply Z.leb_le. }
  rewrite Hfind' in Hx. injection Hx as ->.
  assert (Hll : l1' = l1 /\ l2' = l2).
  { clear -Hl Hl' Hf Hf' Hp Hp'. rewrite Hl in Hl'. clear Hl.
    revert l1' Hl' Hf'. induction Hf as [|z l1 Hz Hf IH]; intros [|z' l1'] Hl' Hf'; cbn in Hl'.
    - by injection Hl' as <-.
    - injection Hl' as -> _. inversion_clear Hf' as [|? ? Hz' _]. cbn in Hz'.
      apply andb_true_iff in Hp' as [Hp1 Hp2]. by rewrite Hp1, Hp2 in Hz'.
    - injection Hl' as -> _. congruence.
    - injection Hl' as -> Hl'. inversion_clear Hf' as [|? ? _ Hf''].
      destruct (IH _ Hl' Hf'') as [-> ->]. done. }
  destruct Hll as [-> ->].
  apply inc_both_Some in Hy as (Hy & _ & _).
  destruct (bool_decide (y = d)); cbn [Nat.eqb reply_status status message_response
    error_response fst snd crud.with_coll crud.coll crud.clock]; intros Hs; [done|].
  assert (Hback : inventory.inc_both q (- q)
                    (crud.clock st + Z.of_N (hd 0%N (crud.ticks st))) y =
                  Some {| inventory._id := inventory._id d;
                          inventory.product_id := inventory.product_id d;
                          inventory.quantity := inventory.quantity d;
                          inventory.reserved := inventory.reserved d;
                          inventory.warehouse := inventory.warehouse d;
                          inventory.updated_at :=
                            bson_datetime (crud.clock st + Z.of_N (hd 0%N (crud.ticks st))) |}).
  { unfold inventory.inc_both, inc_int. rewrite Hy. cbn.
    replace (inventory.quantity d + - q + q) with (inventory.quantity d) by lia.
    replace (inventory.reserved d + q + - q) with (inventory.reserved d) by lia.
    by rewrite Hwq, Hwr. }
  assert (Hpy : String.eqb (inventory.product_id y) productID = true).
  { rewrite Hy. exact Hp. }
  rewrite (UpdateOne_first _ _ c l1 l2 y _ Hr Hd Hf Hpy Hback).
  cbn. split; [done|]. rewrite Hl.
  apply Forall2_replace_middle; [done|]. by destruct d.
Qed.

Lemma reserve_then_release_restores_witness :
  Forall2 inventory.same_but_time [InventoryExamples.widget]
    (crud.docs (crud.coll
       (snd (inventory.releaseInventory Reference.libs "widget"
               (InventoryExamples.quantity_request 4)
               (snd (inventory.reserveInventory Reference.libs "widget"
                       (InventoryExamples.quantity_request 4)
                       InventoryExamples.state0)))))).
Proof.
  refine (proj2 (reserve_then_release_restores Reference.libs "widget" 4
                   InventoryExamples.state0 InventoryExamples.widget _ _ _ _ _)).
  - discriminate.
  - reflexivity.
  - cbn. lia.
  - by split.
  - reflexivity.
Defined.

(** [releaseInventory] checks nothing: it answers 200 for a product that
    has no record (and changes nothing), and for a record it adds the
    quantity to "on hand" and takes it from "set aside" whatever is set
    aside there, so releasing more than was reserved leaves a negative
    reservation. *)
Theorem release_is_unguarded
  (lib : Libs) (productID : string) (q : Z) (st : inventory.State) :
  crud.reachable (crud.coll st) = true ->
  in_int64 q = true -> q <> 0 -> q <> MinInt64 ->
  match List.find (fun x => String.eqb (inventory.product_id x) productID)
          (crud.docs (crud.coll st)) with
  | None =>
      inventory.releaseInventory lib productID (Json {| inventory.req_Quantity := q |}) st =
        (Reply (message_response StatusOK "Inventory released successfully"),
         snd (crud.time_Now st))
  | Some d =>
      in_int64 (inventory.quantity d + q) = true ->
      in_int64 (inventory.reserved d - q) = true ->
      fst (inventory.releaseInventory lib productID (Json {| inventory.req_Quantity := q |}) st) =
        Reply (message_response StatusOK "Inventory released successfully") /\
      List.find (fun x => String.eqb (inventory.product_id x) productID)
        (crud.docs (crud.coll
           (snd (inventory.releaseInventory lib productID
                   (Json {| inventory.req_Quantity := q |}) st)))) =
        Some {| inventory._id := inventory._id d;
                inventory.product_id := inventory.product_id d;
                inventory.quantity := inventory.quantity d + q;
                inventory.reserved := inventory.reserved d - q;
                inventory.warehouse := inventory.warehouse d;
                inventory.updated_at := bson_datetime (crud.clock st) |}
  end.
Proof.
  intros Hr Hin Hz Hm.
  unfold inventory.releaseInventory. rewrite bind_quantity_Json, Hin.
  destruct (Z.eqb_spec q 0); [done|].
  cbn [crud.time_Now crud.coll inventory.req_Quantity fst snd].
  rewrite (neg_int_opp q Hm).
  destruct (List.find _ (crud.docs (crud.coll st))) as [d|] eqn:Hfind.
  - intros Hq Hres.
    destruct (coll_find_split _ _ _ Hfind) as (l1 & l2 & Hl & Hf & Hp).
    assert (Hy : inventory.inc_both q (- q) (crud.clock st) d =
                 Some {| inventory._id := inventory._id d;
                         inventory.product_id := inventory.product_id d;
                         inventory.quantity := inventory.quantity d + q;
                         inventory.reserved := inventory.reserved d - q;
                         inventory.warehouse := inventory.warehouse d;
                         inventory.updated_at := bson_datetime (crud.clock st) |}).
    { unfold inventory.inc_both, inc_int. rewrite Hq.
      replace (inventory.reserved d + - q) with (inventory.reserved d - q) by lia.
      by rewrite Hres. }
    rewrite (UpdateOne_first _ _ (crud.coll st) l1 l2 d _ Hr Hl Hf Hp Hy).
    cbn. split; [done|]. by apply coll_find_app_first.
  - unfold crud.UpdateOne. rewrite Hr, (coll_update_first_unmatched _ _ _ Hfind).
    by destruct st as [[l r] c t].
Qed.

Lemma release_is_unguarded_witness :
  List.find (fun x => String.eqb (inventory.product_id x) "widget")
    (crud.docs (crud.coll
       (snd (inventory.releaseInventory Reference.libs "widget"
               (InventoryExamples.quantity_request 5) InventoryExamples.state0)))) =
    Some {| inventory._id := mongo.ObjectID "eS?0000000009";
            inventory.product_id := "widget";
            inventory.quantity := 15; inventory.reserved := -3;
            inventory.warehouse := "north";
            inventory.updated_at := 1700000000 * Second |}.
Proof.
  pose proof (release_is_unguarded Reference.libs "widget" 5 InventoryExamples.state0
                eq_refl eq_refl ltac:(discriminate) ltac:(discriminate)) as H.
  cbn in H. exact (proj2 (H eq_refl eq_refl)).
Defined.

(** [reserveInventory] does not check the sign of the request: with a
    negative quantity, on records none of which holds less than that
    quantity (so on any stock that is not negative), it leaves the same state
    as [releaseInventory] with the opposite quantity. *)
Theorem negative_reserve_is_release
  (lib : Libs) (productID : string) (q : Z) (st : inventory.State) :
  q < 0 -> q <> MinInt64 ->
  Forall (fun d => q <= inventory.quantity d) (crud.docs (crud.coll st)) ->
  snd (inventory.reserveInventory lib productID (Json {| inventory.req_Quantity := q |}) st) =
  snd (inventory.releaseInventory lib productID (Json {| inventory.req_Quantity := - q |}) st).
Proof.
  intros Hneg Hm Hall.
  unfold inventory.reserveInventory, inventory.releaseInventory.
  rewrite !bind_quantity_Json.
  assert (Hrange : in_int64 (- q) = in_int64 q).
  { unfold in_int64, MinInt64, MaxInt64 in *.
    destruct (Z.leb_spec (- 2 ^ 63) q), (Z.leb_spec q (2 ^ 63 - 1)),
      (Z.leb_spec (- 2 ^ 63) (- q)), (Z.leb_spec (- q) (2 ^ 63 - 1)); cbn; try done; lia. }
  rewrite Hrange. destruct (in_int64 q) eqn:Hin; [|done].
  destruct (Z.eqb_spec q 0); [lia|]. destruct (Z.eqb_spec (- q) 0); [lia|].
  cbn [crud.time_Now crud.coll inventory.req_Quantity fst snd].
  rewrite (neg_int_opp q Hm).
  assert (Hnn : neg_int (- q) = q).
  { unfold neg_int. destruct (Z.eqb_spec (- q) MinInt64); [|lia].
    unfold in_int64, MinInt64, MaxInt64 in *.
    apply andb_true_iff in Hin as [_ Hin]. apply Z.leb_le in Hin. lia. }
  rewrite Hnn.
  assert (Hfilter : forall l, Forall (fun d => q <= inventory.quantity d) l -> forall f,
            crud.update_first
              (fun d => String.eqb (inventory.product_id d) productID &&
                        Z.leb q (inventory.quantity d)) f l =
            crud.update_first (fun d => String.eqb (inventory.product_id d) productID) f l).
  { intros l Hl f. induction Hl as [|d l Hd _ IH]; cbn; [done|].
    rewrite (proj2 (Z.leb_le _ _) Hd), andb_true_r. by rewrite IH. }
  unfold crud.UpdateOne. destruct (crud.reachable (crud.coll st)); [|done].
  rewrite (Hfilter _ Hall).
  destruct (crud.update_first _ _ _) as [[[m k] l]|]; [|done].
  by destruct (Nat.eqb k 0).
Qed.

Lemma negative_reserve_is_release_witness :
  snd (inventory.reserveInventory Reference.libs "widget"
         (InventoryExamples.quantity_request (-3)) InventoryExamples.state0) =
  snd (inventory.releaseInventory Reference.libs "widget"
         (InventoryExamples.quantity_request 3) InventoryExamples.state0).
Proof.
  apply (negative_reserve_is_release Reference.libs "widget" (-3) InventoryExamples.state0).
  - lia.
  - discriminate.
  - repeat constructor. cbn. lia.
Defined.

(** The three quantity routes cannot carry a zero: the binding rule
    [required] fails on the zero value of an [int], so a request whose
    quantity is 0 or absent, like one whose quantity does not fit an [int],
    is answered 400 by each of them and the state is untouched; in
    particular [updateInventory] cannot set a stock to 0. *)
Theorem zero_quantity_is_rejected
  (lib : Libs) (productID : string) (q : Z) (st : inventory.State) :
  q = 0 \/ in_int64 q = false ->
  inventory.updateInventory lib productID (Json {| inventory.req_Quantity := q |}) st =
    (Reply (bad_request lib
              (if in_int64 q then FieldErrors [("Quantity", "required")] else MalformedJSON)),
     st) /\
  inventory.reserveInventory lib productID (Json {| inventory.req_Quantity := q |}) st =
    (Reply (bad_request lib
              (if in_int64 q then FieldErrors [("Quantity", "required")] else MalformedJSON)),
     st) /\
  inventory.releaseInventory lib productID (Json {| inventory.req_Quantity := q |}) st =
    (Reply (bad_request lib
              (if in_int64 q then FieldErrors [("Quantity", "required")] else MalformedJSON)),
     st).
Proof.
  intros H. unfold inventory.updateInventory, inventory.reserveInventory,
    inventory.releaseInventory. rewrite bind_quantity_Json.
  destruct (in_int64 q) eqn:E; [|done].
  by destruct H as [->|H].
Qed.

Lemma zero_quantity_is_rejected_witness :
  inventory.updateInventory Reference.libs "widget"
    (InventoryExamples.quantity_request 0) InventoryExamples.state0 =
  (Reply (error_response StatusBadRequest "Field validation failed"),
   InventoryExamples.state0).
Proof.
  exact (proj1 (zero_quantity_is_rejected Reference.libs "widget" 0
                  InventoryExamples.state0 (or_introl eq_refl))).
Defined.

(** Create, then read: after a successful [createInventory],
    [getInventory] for that product returns the first record the collection
    holds for it: the one just created when the product had none (with the
    quantity, reservation and warehouse of the request, unchecked), and
    otherwise the older record, the new one staying out of reach. *)
Theorem createInventory_then_getInventory
  (lib : Libs) (oid : string) (inv : inventory.Inventory) (st : inventory.State) :
  reply_status (fst (inventory.createInventory lib oid (Json inv) st)) = Some StatusCreated ->
  fst (inventory.getInventory lib (inventory.ProductID inv)
         (snd (inventory.createInventory lib oid (Json inv) st))) =
    Reply {| status := StatusOK;
             body := inventory.Inventory_json lib
               (inventory.Decode lib
                  (default
                     {| inventory._id :=
                          if String.eqb (inventory.ID inv) ""
                          then mongo.ObjectID oid else mongo.StringID (inventory.ID inv);
                        inventory.product_id := inventory.ProductID inv;
                        inventory.quantity := inventory.Quantity inv;
                        inventory.reserved := inventory.Reserved inv;
                        inventory.warehouse := inventory.Warehouse inv;
                        inventory.updated_at := bson_datetime (crud.clock st) |}
                     (List.find (fun d => String.eqb (inventory.product_id d)
                                            (inventory.ProductID inv))
                        (crud.docs (crud.coll st))))) |}.
Proof.
  unfold inventory.createInventory, crud.ShouldBindJSON_ints.
  destruct (forallb _ _); [|done].
  cbn [crud.time_Now crud.coll]. unfold crud.InsertOne.
  destruct (crud.reachable (crud.coll st)) eqn:Hr; [|done]. cbn [negb].
  destruct (existsb _ _); [done|]. intros _.
  unfold inventory.getInventory, crud.FindOne, crud.with_coll, crud.with_docs.
  cbn [fst snd crud.coll crud.reachable crud.docs]. rewrite Hr.
  destruct (List.find _ (crud.docs (crud.coll st))) as [d|] eqn:Hfind.
  - destruct (coll_find_split _ _ _ Hfind) as (l1 & l2 & Hl & Hf & Hp).
    rewrite Hl, <- app_assoc. cbn [app]. by rewrite (coll_find_app_first _ _ _ _ Hf Hp).
  - assert (Hall : Forall (fun y => String.eqb (inventory.product_id y)
                                      (inventory.ProductID inv) = false)
                     (crud.docs (crud.coll st))).
    { clear -Hfind. induction (crud.docs (crud.coll st)) as [|y l IH]; [done|].
      cbn in Hfind. destruct (String.eqb _ _) eqn:E; [done|]. constructor; auto. }
    rewrite (coll_find_app_first _ _ [] _ Hall); [done|].
    cbn. apply String.eqb_refl.
Qed.

Lemma createInventory_then_getInventory_witness :
  body_field
    (fst (inventory.getInventory Reference.libs "widget"
            (snd (inventory.createInventory Reference.libs "eS?0000000010"
                    (Json {| inventory.ID := ""; inventory.ProductID := "widget";
                             inventory.Quantity := 500; inventory.Reserved := 0;
                             inventory.Warehouse := "south"; inventory.UpdatedAt := 0 |})
                    InventoryExamples.state0))))
    "quantity" = Some (JNum 10).
Proof.
  pose proof (createInventory_then_getInventory Reference.libs "eS?0000000010"
             {| inventory.ID := ""; inventory.ProductID := "widget";
                inventory.Quantity := 500; inventory.Reserved := 0;
                inventory.Warehouse := "south"; inventory.UpdatedAt := 0 |}
             InventoryExamples.state0 eq_refl) as H.
  cbn [inventory.ProductID] in H. rewrite H. reflexivity.
Defined.

(** ** The order service *)

Lemma InsertOne_crud_Some {D : Type} (id_of : D -> mongo.DocID) (doc : D)
  (c c' : crud.Coll D) (i : mongo.DocID) :
  crud.InsertOne id_of doc c = Some (i, c') ->
  crud.reachable c = true /\ i = id_of doc /\
  c' = crud.with_docs c (crud.docs c ++ [doc]) /\
  Forall (fun x => id_of x <> id_of doc) (crud.docs c).
Proof.
  unfold crud.InsertOne. destruct (crud.reachable c); [|done]. cbn [negb].
  destruct (existsb _ (crud.docs c)) eqn:E; [done|]. intros [= <- <-].
  repeat split. clear -E. induction (crud.docs c) as [|x l IH]; [done|].
  cbn in E. apply orb_false_iff in E as [Ex El].
  constructor; [by apply bool_decide_eq_false in Ex | by apply IH].
Qed.

Lemma find_none_Forall {D : Type} (p : D -> bool) (l : list D) :
  List.find p l = None <-> Forall (fun y => p y = false) l.
Proof.
  induction l as [|y l IH]; cbn; [by split|].
  destruct (p y) eqn:E.
  - split; [done|]. intros H. inversion_clear H. congruence.
  - rewrite IH. split; [by constructor | by inversion_clear 1].
Qed.

(** [createOrder] decides the status itself: a created order is appended as
    one document whose status is [pending], whatever status, creation or
    update time the request carried, with the two readings of the clock
    (to the millisecond) as its times. It is keyed by the id the request
    chose, and only then can [getOrder] find it: an order created without
    an id gets an ObjectID, which no path parameter matches. *)
Theorem createOrder_stores_pending
  (lib : Libs) (oid : string) (o : orders.Order) (st : orders.State) :
  result_status (fst (orders.createOrder lib oid (Json o) st)) = StatusCreated ->
  crud.docs (crud.coll (snd (orders.createOrder lib oid (Json o) st))) =
    (crud.docs (crud.coll st) ++
     [{| orders._id := if String.eqb (orders.ID o) ""
                       then mongo.ObjectID oid else mongo.StringID (orders.ID o);
         orders.user_id := orders.UserID o; orders.items := orders.Items o;
         orders.total := orders.Total o; orders.status := "pending";
         orders.created_at := bson_datetime (crud.clock st);
         orders.updated_at := bson_datetime (fst (crud.time_Now (snd (crud.time_Now st)))) |}])%list /\
  (orders.ID o <> "" ->
   fst (orders.getOrder lib (orders.ID o) (snd (orders.createOrder lib oid (Json o) st))) =
     One StatusOK
       {| orders.ID := orders.ID o; orders.UserID := orders.UserID o;
          orders.Items := orders.Items o; orders.Total := orders.Total o;
          orders.Status := "pending";
          orders.CreatedAt := bson_datetime (crud.clock st);
          orders.UpdatedAt := bson_datetime (fst (crud.time_Now (snd (crud.time_Now st)))) |}) /\
  (orders.ID o = "" ->
   forall id, Forall orders.keyed_by_ObjectID (crud.docs (crud.coll st)) ->
     fst (orders.getOrder lib id (snd (orders.createOrder lib oid (Json o) st))) =
       Plain (error_response StatusNotFound "Order not found")).
Proof.
  unfold orders.createOrder. destruct (crud.ShouldBindJSON_ints _ _ _) as [e|o'] eqn:Eb; [done|].
  assert (o' = o) as ->.
  { unfold crud.ShouldBindJSON_ints in Eb. destruct (forallb _ _); [|done]. by injection Eb. }
  cbn [crud.time_Now crud.coll fst snd].
  destruct (crud.InsertOne _ _ _) as [[i c]|] eqn:E; [|done]. intros _.
  apply InsertOne_crud_Some in E as (Hr & -> & -> & Hfresh).
  cbn in Hr, Hfresh. split; [reflexivity|]. split.
  - intros Hid. unfold orders.getOrder, crud.FindOne, orders.toDocument. cbn. rewrite Hr.
    unfold orders.toDocument in Hfresh. cbn in Hfresh.
    destruct (String.eqb_spec (orders.ID o) "") as [|_]; [done|].
    rewrite coll_find_app_first with (l2 := []).
    + reflexivity.
    + apply Forall_forall. intros x Hx. rewrite Forall_forall in Hfresh.
      specialize (Hfresh x Hx). by apply bool_decide_eq_false.
    + by apply bool_decide_eq_true.
  - intros Hid id Hk. unfold orders.getOrder, crud.FindOne, orders.toDocument. cbn.
    rewrite Hr, Hid. cbn [String.eqb].
    replace (List.find _ _) with (@None orders.Document); [done|].
    symmetry. apply find_none_Forall. apply Forall_app. split.
    + apply Forall_forall. intros x Hx. rewrite Forall_forall in Hk.
      destruct (Hk x Hx) as [b Hb]. unfold orders.has_id. rewrite Hb.
      by apply bool_decide_eq_false.
    + constructor; [|done]. by apply bool_decide_eq_false.
Qed.

Lemma createOrder_stores_pending_witness :
  fst (orders.getOrder Reference.libs "order-1" OrderExamples.state1) =
    One StatusOK
      {| orders.ID := "order-1"; orders.UserID := "ann";
         orders.Items := Some [OrderExamples.two_mugs];
         orders.Total := 4627730092099895296%N; orders.Status := "pending";
         orders.CreatedAt := 1700000000 * Second + 123000000;
         orders.UpdatedAt := 1700000000 * Second + 123000000 |}.
Proof.
  exact (proj1 (proj2 (createOrder_stores_pending Reference.libs "eS?0000000020"
                         OrderExamples.request OrderExamples.state0 eq_refl))
           ltac:(discriminate)).
Defined.

Lemma delete_first_unmatched {D : Type} (p : D -> bool) (l : list D) :
  Forall (fun y => p y = false) l -> crud.delete_first p l = (O, l).
Proof.
  induction 1 as [|y l Hy _ IH]; cbn; [done|]. by rewrite Hy, IH.
Qed.

(** An order stored under an ObjectID is out of reach of the three routes
    that take an id: on a reachable collection whose documents are all keyed
    by ObjectIDs, [getOrder] and [cancelOrder] answer 404 for every id, and
    [updateOrderStatus] answers 200 and changes nothing. *)
Theorem orders_without_id_are_unreachable
  (lib : Libs) (id : string) (s : orders.StatusRequest) (st : orders.State) :
  Forall orders.keyed_by_ObjectID (crud.docs (crud.coll st)) ->
  crud.reachable (crud.coll st) = true ->
  orders.req_Status s <> "" ->
  orders.getOrder lib id st = (Plain (error_response StatusNotFound "Order not found"), st) /\
  orders.cancelOrder id st = (Plain (error_response StatusNotFound "Order not found"), st) /\
  orders.updateOrderStatus lib id (Json s) st =
    (Plain (message_response StatusOK "Order status updated"), snd (crud.time_Now st)).
Proof.
  intros Hk Hr Hs.
  assert (Hnone : Forall (fun y => orders.has_id id y = false) (crud.docs (crud.coll st))).
  { apply Forall_forall. intros x Hx. rewrite Forall_forall in Hk.
    destruct (Hk x Hx) as [b Hb]. unfold orders.has_id. rewrite Hb.
    by apply bool_decide_eq_false. }
  repeat split.
  - unfold orders.getOrder, crud.FindOne. rewrite Hr.
    by rewrite (proj2 (find_none_Forall _ _) Hnone).
  - unfold orders.cancelOrder, crud.DeleteOne. rewrite Hr, (delete_first_unmatched _ _ Hnone).
    cbn. by destruct st as [[l r] c t].
  - unfold orders.updateOrderStatus, ShouldBindJSON, orders.StatusRequest_failed.
    cbn [first_failed]. unfold required.
    destruct (String.eqb_spec (orders.req_Status s) "") as [|_]; [done|]. cbn [negb].
    cbn [crud.time_Now crud.coll]. unfold crud.UpdateOne. rewrite Hr.
    rewrite (coll_update_first_unmatched _ _ _ (proj2 (find_none_Forall _ _) Hnone)).
    by destruct st as [[l r] c t].
Qed.

Lemma orders_without_id_are_unreachable_witness :
  crud.docs (crud.coll OrderExamples.state_anonymous) <> [] /\
  fst (orders.getOrder Reference.libs (Reference.hex "eS?0000000021")
         OrderExamples.state_anonymous) =
    Plain (error_response StatusNotFound "Order not found").
Proof.
  split; [discriminate|].
  rewrite (proj1 (orders_without_id_are_unreachable Reference.libs
                    (Reference.hex "eS?0000000021") {| orders.req_Status := "shipped" |}
                    OrderExamples.state_anonymous
                    ltac:(repeat constructor; by eexists) eq_refl ltac:(discriminate))).
  reflexivity.
Defined.

(** [cancelOrder] deletes: when it answers 200 exactly one document is
    gone, the one keyed by the string id, every other document stays in
    place, and (keys being unique) the order can then be neither fetched
    nor cancelled a second time; when it answers 404 nothing has changed. *)
Theorem cancelOrder_removes_one
  (lib : Libs) (id : string) (st : orders.State) :
  NoDup (List.map orders._id (crud.docs (crud.coll st))) ->
  (result_status (fst (orders.cancelOrder id st)) = StatusOK ->
   (exists l1 d l2,
      crud.docs (crud.coll st) = (l1 ++ d :: l2)%list /\
      orders._id d = mongo.StringID id /\
      crud.docs (crud.coll (snd (orders.cancelOrder id st))) = (l1 ++ l2)%list) /\
   fst (orders.getOrder lib id (snd (orders.cancelOrder id st))) =
     Plain (error_response StatusNotFound "Order not found") /\
   fst (orders.cancelOrder id (snd (orders.cancelOrder id st))) =
     Plain (error_response StatusNotFound "Order not found")) /\
  (result_status (fst (orders.cancelOrder id st)) <> StatusOK ->
   snd (orders.cancelOrder id st) = st).
Proof.
  intros Hnd. unfold orders.cancelOrder at 1 2 3 5 6 7, crud.DeleteOne.
  destruct (crud.reachable (crud.coll st)) eqn:Hr; [|by split].
  destruct (coll_delete_first_cases (orders.has_id id) (crud.docs (crud.coll st)))
    as [[Hn ->]|(l1 & x & l2 & Hl & Hf & Hp & ->)].
  - cbn. split; [done|]. intros _. by destruct st as [[l r] c t].
  - cbn. split; [|done]. intros _.
    assert (Hgone : Forall (fun y => orders.has_id id y = false) (l1 ++ l2)).
    { apply Forall_app. split; [done|].
      rewrite Hl, List.map_app in Hnd. cbn in Hnd.
      apply list.NoDup_app in Hnd as (_ & _ & Hnd). apply list.NoDup_cons in Hnd as [Hx _].
      apply Forall_forall. intros y Hy. unfold orders.has_id in *.
      apply bool_decide_eq_true in Hp. apply bool_decide_eq_false. intros Heq.
      apply Hx. rewrite Hp, <- Heq.
      apply list_elem_of_In, List.in_map. exact Hy. }
    split; [|split].
    + exists l1, x, l2. repeat split; [done|]. by apply bool_decide_eq_true in Hp.
    + unfold orders.getOrder, crud.FindOne. cbn. rewrite Hr.
      by rewrite (proj2 (find_none_Forall _ _) Hgone).
    + unfold orders.cancelOrder, crud.DeleteOne. cbn. rewrite Hr.
      by rewrite (delete_first_unmatched _ _ Hgone).
Qed.

Lemma cancelOrder_removes_one_witness :
  crud.docs (crud.coll (snd (orders.cancelOrder "order-1" OrderExamples.state1))) = [] /\
  fst (orders.cancelOrder "order-1" (snd (orders.cancelOrder "order-1" OrderExamples.state1))) =
    Plain (error_response StatusNotFound "Order not found").
Proof.
  pose proof (cancelOrder_removes_one Reference.libs "order-1" OrderExamples.state1) as H.
  destruct H as [H _]; [vm_compute; apply NoDup_singleton|].
  destruct (H eq_refl) as (_ & _ & Hc). split; [reflexivity | exact Hc].
Defined.

(** [getUserOrders] returns the orders of the user it is asked for, all of
    them and no other, in the order they are stored, with their number as
    [count]. *)
Theorem getUserOrders_returns_the_users_orders
  (lib : Libs) (userID : string) (st : orders.State) :
  crud.reachable (crud.coll st) = true ->
  exists found,
    orders.getUserOrders lib userID st =
      (Many StatusOK (List.map (orders.Decode lib) found) (List.length found), st) /\
    (forall d, d ∈ found <-> d ∈ crud.docs (crud.coll st) /\ orders.user_id d = userID) /\
    found `sublist_of` crud.docs (crud.coll st) /\
    Forall (fun o => orders.UserID o = userID) (List.map (orders.Decode lib) found).
Proof.
  intros Hr. unfold orders.getUserOrders, crud.Find. rewrite Hr.
  exists (List.filter (fun d => String.eqb (orders.user_id d) userID) (crud.docs (crud.coll st))).
  rewrite List.length_map. split; [done|].
  assert (Hin : forall d,
            d ∈ List.filter (fun d => String.eqb (orders.user_id d) userID)
                  (crud.docs (crud.coll st)) <->
            d ∈ crud.docs (crud.coll st) /\ orders.user_id d = userID).
  { intros d. rewrite !list_elem_of_In, List.filter_In, String.eqb_eq. reflexivity. }
  split; [exact Hin|]. split.
  - clear. induction (crud.docs (crud.coll st)) as [|x l IH]; cbn; [done|].
    destruct (String.eqb _ _); [by apply sublist_skip | by apply sublist_cons].
  - clear. induction (crud.docs (crud.coll st)) as [|x l IH]; cbn; [done|].
    destruct (String.eqb_spec (orders.user_id x) userID); [by constructor | done].
Qed.

Lemma getUserOrders_returns_the_users_orders_witness :
  exists found,
    orders.getUserOrders Reference.libs "ann" OrderExamples.state1 =
      (Many StatusOK (List.map (orders.Decode Reference.libs) found) (List.length found),
       OrderExamples.state1).
Proof.
  destruct (getUserOrders_returns_the_users_orders Reference.libs "ann"
              OrderExamples.state1 eq_refl) as (found & H & _).
  by exists found.
Defined.

(** [updateOrderStatus] stores whatever status it is given, as long as it
    is not empty: for an order the string id resolves to, it answers 200 and
    a following [getOrder] returns the order with that status and the new
    update time, every other field as it was. *)
Theorem updateOrderStatus_then_getOrder
  (lib : Libs) (id : string) (s : orders.StatusRequest) (st : orders.State)
  (d : orders.Document) :
  crud.FindOne (orders.has_id id) (crud.coll st) = Some d ->
  orders.req_Status s <> "" ->
  fst (orders.updateOrderStatus lib id (Json s) st) =
    Plain (message_response StatusOK "Order status updated") /\
  fst (orders.getOrder lib id (snd (orders.updateOrderStatus lib id (Json s) st))) =
    One StatusOK
      {| orders.ID := id; orders.UserID := orders.user_id d; orders.Items := orders.items d;
         orders.Total := orders.total d; orders.Status := orders.req_Status s;
         orders.CreatedAt := orders.created_at d;
         orders.UpdatedAt := bson_datetime (crud.clock st) |}.
Proof.
  unfold crud.FindOne. destruct (crud.reachable (crud.coll st)) eqn:Hr; [|done].
  intros Hfind Hs.
  destruct (coll_find_split _ _ _ Hfind) as (l1 & l2 & Hl & Hf & Hp).
  unfold orders.updateOrderStatus, ShouldBindJSON, orders.StatusRequest_failed.
  cbn [first_failed]. unfold required.
  destruct (String.eqb_spec (orders.req_Status s) "") as [|_]; [done|]. cbn [negb].
  cbn [crud.time_Now crud.coll].
  rewrite (UpdateOne_first (orders.has_id id)
             (orders.set_status (orders.req_Status s) (crud.clock st))
             (crud.coll st) l1 l2 d _ Hr Hl Hf Hp eq_refl).
  cbn. split; [done|]. unfold orders.getOrder, crud.FindOne. cbn. rewrite Hr.
  rewrite (coll_find_app_first _ _ _ _ Hf); [|exact Hp].
  unfold orders.Decode. cbn. unfold orders.has_id in Hp.
  apply bool_decide_eq_true in Hp. by rewrite Hp.
Qed.

Lemma updateOrderStatus_then_getOrder_witness :
  fst (orders.getOrder Reference.libs "order-1"
         (snd (orders.updateOrderStatus Reference.libs "order-1"
                 (Json {| orders.req_Status := "teleported" |}) OrderExamples.state1))) =
    One StatusOK
      {| orders.ID := "order-1"; orders.UserID := "ann";
         orders.Items := Some [OrderExamples.two_mugs];
         orders.Total := 4627730092099895296%N; orders.Status := "teleported";
         orders.CreatedAt := 1700000000 * Second + 123000000;
         orders.UpdatedAt := 1700000000 * Second + 123000000 |}.
Proof.
  refine (proj2 (updateOrderStatus_then_getOrder Reference.libs "order-1"
                   {| orders.req_Status := "teleported" |} OrderExamples.state1
                   {| orders._id := mongo.StringID "order-1"; orders.user_id := "ann";
                      orders.items := Some [OrderExamples.two_mugs];
                      orders.total := 4627730092099895296%N; orders.status := "pending";
                      orders.created_at := 1700000000 * Second + 123000000;
                      orders.updated_at := 1700000000 * Second + 123000000 |} _ _)).
  - reflexivity.
  - discriminate.
Defined.

(** ** The payment service *)

(** [processPayment] approves every payment: a processed payment is appended
    as one document whose status is [completed], whatever status and times
    the request carried, no sooner than one second after the time stored as
    its creation; [getPayment] returns it as such when the request chose its
    id. *)
Theorem processPayment_stores_completed
  (lib : Libs) (oid : string) (p : payments.Payment) (st : payments.State) :
  result_status (fst (payments.processPayment lib oid (Json p) st)) = StatusCreated ->
  fst (payments.processPayment lib oid (Json p) st) =
    Plain (processed_response
             (JStr (if String.eqb (payments.ID p) "" then Hex lib oid else payments.ID p))) /\
  crud.docs (crud.coll (snd (payments.processPayment lib oid (Json p) st))) =
    (crud.docs (crud.coll st) ++
     [{| payments._id := if String.eqb (payments.ID p) ""
                         then mongo.ObjectID oid else mongo.StringID (payments.ID p);
         payments.order_id := payments.OrderID p; payments.user_id := payments.UserID p;
         payments.amount := payments.Amount p; payments.currency := payments.Currency p;
         payments.status := "completed"; payments.method := payments.Method p;
         payments.created_at := bson_datetime (crud.clock st);
         payments.updated_at :=
           bson_datetime (fst (crud.time_Now (snd (crud.time_Now st)))) |}])%list /\
  crud.clock st + Second <=
    crud.clock (snd (payments.processPayment lib oid (Json p) st)) /\
  (payments.ID p <> "" ->
   fst (payments.getPayment lib (payments.ID p)
          (snd (payments.processPayment lib oid (Json p) st))) =
     One StatusOK
       {| payments.ID := payments.ID p; payments.OrderID := payments.OrderID p;
          payments.UserID := payments.UserID p; payments.Amount := payments.Amount p;
          payments.Currency := payments.Currency p; payments.Status := "completed";
          payments.Method := payments.Method p;
          payments.CreatedAt := bson_datetime (crud.clock st);
          payments.UpdatedAt :=
            bson_datetime (fst (crud.time_Now (snd (crud.time_Now st)))) |}).
Proof.
  unfold payments.processPayment. cbn [ShouldBindJSON].
  cbn [crud.time_Now crud.time_Sleep crud.coll fst snd].
  destruct (crud.InsertOne _ _ _) as [[i c]|] eqn:E; [|done]. intros _.
  apply InsertOne_crud_Some in E as (Hr & -> & -> & Hfresh).
  cbn in Hr, Hfresh. split; [|split; [reflexivity|split]].
  - cbn. by destruct (String.eqb (payments.ID p) "").
  - cbn. pose proof (N2Z.is_nonneg (List.hd 0%N (crud.ticks st))).
    pose proof (N2Z.is_nonneg (List.hd 0%N (List.tl (crud.ticks st)))).
    unfold Second in *. lia.
  - intros Hid. unfold payments.getPayment, crud.FindOne, payments.toDocument. cbn. rewrite Hr.
    unfold payments.toDocument in Hfresh. cbn in Hfresh.
    destruct (String.eqb_spec (payments.ID p) "") as [|_]; [done|].
    rewrite coll_find_app_first with (l2 := []).
    + reflexivity.
    + apply Forall_forall. intros x Hx. rewrite Forall_forall in Hfresh.
      specialize (Hfresh x Hx). by apply bool_decide_eq_false.
    + by apply bool_decide_eq_true.
Qed.

Lemma processPayment_stores_completed_witness :
  payments.Status PaymentExamples.request = "failed" /\
  fst (payments.getPayment Reference.libs "pay-1" PaymentExamples.state1) =
    One StatusOK
      {| payments.ID := "pay-1"; payments.OrderID := "order-1"; payments.UserID := "ann";
         payments.Amount := 4627730092099895296%N; payments.Currency := "EUR";
         payments.Status := "completed"; payments.Method := "card";
         payments.CreatedAt := 1700000000 * Second + 123000000;
         payments.UpdatedAt := 1700000000 * Second + 123000000 |}.
Proof.
  split; [reflexivity|].
  exact (proj2 (proj2 (proj2 (processPayment_stores_completed Reference.libs "eS?0000000030"
                                PaymentExamples.request PaymentExamples.state0 eq_refl)))
           ltac:(discriminate)).
Defined.

(** [refundPayment] checks nothing: whenever the server answers it replies
    200, for an id no payment has (nothing is changed then) as for one that
    has been refunded before; a payment the id resolves to is afterwards
    [refunded] whatever its status was, with the new update time and every
    other field as it was. *)
Theorem refundPayment_is_unconditional
  (lib : Libs) (id : string) (st : payments.State) :
  crud.reachable (crud.coll st) = true ->
  fst (payments.refundPayment id st) =
    Plain (message_response StatusOK "Payment refunded successfully") /\
  fst (payments.refundPayment id (snd (payments.refundPayment id st))) =
    Plain (message_response StatusOK "Payment refunded successfully") /\
  (crud.FindOne (payments.has_id id) (crud.coll st) = None ->
   crud.docs (crud.coll (snd (payments.refundPayment id st))) = crud.docs (crud.coll st)) /\
  (forall d, crud.FindOne (payments.has_id id) (crud.coll st) = Some d ->
   fst (payments.getPayment lib id (snd (payments.refundPayment id st))) =
     One StatusOK
       {| payments.ID := id; payments.OrderID := payments.order_id d;
          payments.UserID := payments.user_id d; payments.Amount := payments.amount d;
          payments.Currency := payments.currency d; payments.Status := "refunded";
          payments.Method := payments.method d;
          payments.CreatedAt := payments.created_at d;
          payments.UpdatedAt := bson_datetime (crud.clock st) |}).
Proof.
  intros Hr.
  assert (Hany : forall s : payments.State, crud.reachable (crud.coll s) = true ->
            fst (payments.refundPayment id s) =
              Plain (message_response StatusOK "Payment refunded successfully") /\
            crud.reachable (crud.coll (snd (payments.refundPayment id s))) = true).
  { intros s Hs. unfold payments.refundPayment, crud.UpdateOne.
    cbn [crud.time_Now crud.coll]. rewrite Hs.
    destruct (coll_update_first_cases (payments.has_id id)
                (payments.set_refunded (crud.clock s)) (crud.docs (crud.coll s)))
      as [[_ ->]|(l1 & x & l2 & _ & _ & _ & _ & ->)]; by cbn. }
  destruct (Hany st Hr) as [H1 Hr1]. split; [exact H1|].
  split; [exact (proj1 (Hany _ Hr1))|].
  unfold crud.FindOne. rewrite Hr. split.
  - intros Hn. unfold payments.refundPayment, crud.UpdateOne.
    cbn [crud.time_Now crud.coll]. rewrite Hr.
    by rewrite (coll_update_first_unmatched _ _ _ Hn).
  - intros d Hfind.
    destruct (coll_find_split _ _ _ Hfind) as (l1 & l2 & Hl & Hf & Hp).
    unfold payments.refundPayment. cbn [crud.time_Now crud.coll].
    rewrite (UpdateOne_first (payments.has_id id)
               (payments.set_refunded (crud.clock st))
               (crud.coll st) l1 l2 d _ Hr Hl Hf Hp eq_refl).
    unfold payments.getPayment, crud.FindOne. cbn. rewrite Hr.
    rewrite (coll_find_app_first _ _ _ _ Hf); [|exact Hp].
    unfold payments.Decode. cbn. unfold payments.has_id in Hp.
    apply bool_decide_eq_true in Hp. by rewrite Hp.
Qed.

Lemma refundPayment_is_unconditional_witness :
  fst (payments.refundPayment "no-such-payment" PaymentExamples.state1) =
    Plain (message_response StatusOK "Payment refunded successfully") /\
  crud.docs (crud.coll (snd (payments.refundPayment "no-such-payment"
                               PaymentExamples.state1))) =
    crud.docs (crud.coll PaymentExamples.state1).
Proof.
  destruct (refundPayment_is_unconditional Reference.libs "no-such-payment"
              PaymentExamples.state1 eq_refl) as (H1 & _ & H3 & _).
  split; [exact H1 | exact (H3 eq_refl)].
Defined.

(** ** The product service *)

Lemma filter_all {D : Type} (l : list D) : List.filter (fun _ => true) l = l.
Proof. induction l as [|x l IH]; cbn; [done | by rewrite IH]. Qed.

(** [updateProduct] replaces, it does not patch: for a product the string id
    resolves to and a body whose id is absent or the same, it answers 200 and
    a following [getProduct] returns the body itself under that id, with the
    time of the update: every field the body left out is now the zero value
    of its type, the creation time included, and nothing of the old document
    but its key remains. A body that names another id is answered 500 and
    changes nothing. *)
Theorem updateProduct_replaces_every_field
  (lib : Libs) (id : string) (p : products.Product) (st : products.State)
  (d : products.Document) :
  crud.FindOne (products.has_id id) (crud.coll st) = Some d ->
  forallb in_int64 (products.Product_ints p) = true ->
  (products.ID p = "" \/ products.ID p = id ->
   fst (products.updateProduct lib id (Json p) st) =
     Plain (message_response StatusOK "Product updated successfully") /\
   fst (products.getProduct lib id (snd (products.updateProduct lib id (Json p) st))) =
     One StatusOK
       {| products.ID := id; products.Name := products.Name p;
          products.Description := products.Description p;
          products.Price := products.Price p; products.Category := products.Category p;
          products.Stock := products.Stock p; products.Rating := products.Rating p;
          products.Reviews := products.Reviews p; products.ImageURL := products.ImageURL p;
          products.CreatedAt := bson_datetime (products.CreatedAt p);
          products.UpdatedAt := bson_datetime (crud.clock st) |}) /\
  (products.ID p <> "" -> products.ID p <> id ->
   products.updateProduct lib id (Json p) st =
     (Plain (error_response StatusInternalServerError "Failed to update product"),
      snd (crud.time_Now st))).
Proof.
  unfold crud.FindOne. destruct (crud.reachable (crud.coll st)) eqn:Hr; [|done].
  intros Hfind Hints.
  destruct (coll_find_split _ _ _ Hfind) as (l1 & l2 & Hl & Hf & Hp).
  pose proof Hp as Hid. unfold products.has_id in Hid. apply bool_decide_eq_true in Hid.
  unfold products.updateProduct, crud.ShouldBindJSON_ints. rewrite Hints.
  cbn [crud.time_Now crud.coll]. split.
  - intros Hsame.
    assert (Hset : products.set_product (products.with_UpdatedAt (crud.clock st) p) d =
              Some {| products._id := products._id d;
                      products.name := products.Name p;
                      products.description := products.Description p;
                      products.price := products.Price p;
                      products.category := products.Category p;
                      products.stock := products.Stock p;
                      products.rating := products.Rating p;
                      products.reviews := products.Reviews p;
                      products.image_url := products.ImageURL p;
                      products.created_at := bson_datetime (products.CreatedAt p);
                      products.updated_at := bson_datetime (crud.clock st) |}).
    { unfold products.set_product. cbn [products.with_UpdatedAt products.ID products.Name
        products.Description products.Price products.Category products.Stock
        products.Rating products.Reviews products.ImageURL products.CreatedAt
        products.UpdatedAt].
      destruct Hsame as [-> | ->]; [done|].
      rewrite Hid, bool_decide_eq_true_2 by done. by rewrite orb_true_r. }
    rewrite (UpdateOne_first (products.has_id id)
               (products.set_product (products.with_UpdatedAt (crud.clock st) p))
               (crud.coll st) l1 l2 d _ Hr Hl Hf Hp Hset).
    cbn. split; [done|]. unfold products.getProduct, crud.FindOne. cbn. rewrite Hr.
    rewrite (coll_find_app_first _ _ _ _ Hf); [|exact Hp].
    unfold products.Decode. cbn. by rewrite Hid.
  - intros Hne Hother. unfold crud.UpdateOne. rewrite Hr, Hl.
    rewrite (coll_update_first_split _ _ _ _ _ Hf Hp).
    unfold products.set_product. cbn [products.with_UpdatedAt products.ID].
    destruct (String.eqb_spec (products.ID p) "") as [|_]; [done|].
    rewrite Hid, bool_decide_eq_false_2; [done|]. intros [= E]. by apply Hother.
Qed.

Lemma updateProduct_replaces_every_field_witness :
  fst (products.getProduct Reference.libs "mug"
         (snd (products.updateProduct Reference.libs "mug"
                 (Json ProductExamples.price_only) ProductExamples.state1))) =
    One StatusOK
      {| products.ID := "mug"; products.Name := ""; products.Description := "";
         products.Price := 4623507967449235456%N; products.Category := "";
         products.Stock := 0; products.Rating := 0%N; products.Reviews := 0;
         products.ImageURL := "";
         products.CreatedAt := zero_time;
         products.UpdatedAt := 1700000000 * Second + 123000000 |}.
Proof.
  refine (proj2 (proj1 (updateProduct_replaces_every_field Reference.libs "mug"
                          ProductExamples.price_only ProductExamples.state1
                          {| products._id := mongo.StringID "mug"; products.name := "Mug";
                             products.description := "A blue mug";
                             products.price := 4622945017495814144%N;
                             products.category := "kitchen"; products.stock := 12;
                             products.rating := 4616189618054758400%N;
                             products.reviews := 3;
                             products.image_url := "https://img.example/mug.png";
                             products.created_at := 1700000000 * Second + 123000000;
                             products.updated_at := 1700000000 * Second + 123000000 |}
                          _ _) _)).
  - reflexivity.
  - reflexivity.
  - by left.
Defined.

(** [listProducts] has no paging: it returns the first twenty stored
    products and their number, never more. A product created when twenty are
    stored is stored and can be fetched by its id, but the list is what it
    was before. *)
Theorem listProducts_stops_at_twenty
  (lib : Libs) (oid : string) (p : products.Product) (st : products.State) :
  crud.reachable (crud.coll st) = true ->
  fst (products.listProducts lib st) =
    Many StatusOK
      (List.map (products.Decode lib) (List.firstn 20 (crud.docs (crud.coll st))))
      (Nat.min 20 (List.length (crud.docs (crud.coll st)))) /\
  ((20 <= List.length (crud.docs (crud.coll st)))%nat ->
   result_status (fst (products.createProduct lib oid (Json p) st)) = StatusCreated ->
   List.length (crud.docs (crud.coll (snd (products.createProduct lib oid (Json p) st)))) =
     S (List.length (crud.docs (crud.coll st))) /\
   fst (products.listProducts lib (snd (products.createProduct lib oid (Json p) st))) =
     fst (products.listProducts lib st)).
Proof.
  intros Hr.
  assert (Hlist : forall s : products.State, crud.reachable (crud.coll s) = true ->
            fst (products.listProducts lib s) =
              Many StatusOK
                (List.map (products.Decode lib) (List.firstn 20 (crud.docs (crud.coll s))))
                (Nat.min 20 (List.length (crud.docs (crud.coll s))))).
  { intros s Hs. unfold products.listProducts, crud.Find. rewrite Hs, filter_all.
    cbn [fst]. by rewrite List.length_map, List.length_firstn. }
  split; [by apply Hlist|]. intros Hfull.
  rewrite (Hlist st Hr). unfold products.createProduct.
  destruct (crud.ShouldBindJSON_ints _ _ _) as [e|p']; [done|].
  cbn [crud.time_Now crud.coll fst snd].
  destruct (crud.InsertOne _ _ _) as [[i c]|] eqn:E; [|done]. intros _.
  apply InsertOne_crud_Some in E as (Hr' & -> & -> & _). cbn in Hr'.
  rewrite Hlist by exact Hr'. cbn [snd crud.with_coll crud.coll crud.with_docs crud.docs].
  rewrite List.length_app. cbn [List.length]. split; [lia|].
  rewrite List.firstn_app.
  replace (20 - List.length (crud.docs (crud.coll st)))%nat with O by lia.
  cbn [List.firstn]. rewrite List.app_nil_r. f_equal. lia.
Qed.

Lemma listProducts_stops_at_twenty_witness :
  fst (products.getProduct Reference.libs "mug"
         (snd (products.createProduct Reference.libs "eS?0000000041"
                 (Json ProductExamples.mug) ShelfExamples.full_shelf))) <>
    Plain (error_response StatusNotFound "Product not found") /\
  fst (products.listProducts Reference.libs
         (snd (products.createProduct Reference.libs "eS?0000000041"
                 (Json ProductExamples.mug) ShelfExamples.full_shelf))) =
    fst (products.listProducts Reference.libs ShelfExamples.full_shelf).
Proof.
  split; [discriminate|].
  refine (proj2 (proj2 (listProducts_stops_at_twenty Reference.libs "eS?0000000041"
                          ProductExamples.mug ShelfExamples.full_shelf eq_refl) _ eq_refl)).
  apply Nat.leb_le. reflexivity.
Defined.
